(** * auto_download.py: bulk downloader for camera-trap videos and datasets

    A shallow embedding of [src/auto_download.py] and the proofs of its
    specification.  The script has three functions, [download_file],
    [download_videos] and [main]; all three are effectful (file system,
    console, network, the optional [yt_dlp] package), so they are embedded
    in a small state-and-exception monad over an explicit [World].

    A Python [str] is a Rocq string.  URLs, file names and console lines
    hold the UTF-8 bytes of the text; the value of a response header,
    which [http.client] decodes as ISO-8859-1, holds one character per
    byte of the header.  Python [bytes] values are lists of bytes, Python
    integers are in [Z], and the doubles of the progress line are in the
    module [Double]. *)

From Stdlib Require Import ZArith QArith String Ascii List Sorted Lia Lqa.
From stdpp Require Import gmap strings list fin_maps pretty.

Local Open Scope string_scope.
Local Open Scope Z_scope.
Local Open Scope list_scope.

(** ** Strings: the helpers of the Python string API the code relies on *)

Module Str.

(** [c in s] *)
Fixpoint contains (c : ascii) (s : string) : bool :=
  match s with
  | EmptyString => false
  | String a r => if Ascii.eqb a c then true else contains c r
  end.

(** [s.split(c, 1)] when [c in s]: the text before and after the first [c] *)
Fixpoint split_once (c : ascii) (s : string) : option (string * string) :=
  match s with
  | EmptyString => None
  | String a r =>
      if Ascii.eqb a c then Some (EmptyString, r)
      else match split_once c r with
           | Some (x, y) => Some (String a x, y)
           | None => None
           end
  end.

(** [s.rsplit(c, 1)] when [c in s]: the text before and after the last [c] *)
Fixpoint rsplit_once (c : ascii) (s : string) : option (string * string) :=
  match s with
  | EmptyString => None
  | String a r =>
      match rsplit_once c r with
      | Some (x, y) => Some (String a x, y)
      | None => if Ascii.eqb a c then Some (EmptyString, r) else None
      end
  end.

(** the longest suffix that starts with a character satisfying [p] *)
Fixpoint drop_until (p : ascii -> bool) (s : string) : string :=
  match s with
  | EmptyString => EmptyString
  | String a r => if p a then s else drop_until p r
  end.

(** [s.lstrip(chars)] for the character class [p] *)
Definition lstrip (p : ascii -> bool) (s : string) : string :=
  drop_until (fun a => negb (p a)) s.

(** [s.replace(c, "")] for every character [c] of the class [p] *)
Fixpoint remove (p : ascii -> bool) (s : string) : string :=
  match s with
  | EmptyString => EmptyString
  | String a r => if p a then remove p r else String a (remove p r)
  end.

Fixpoint forallb (p : ascii -> bool) (s : string) : bool :=
  match s with
  | EmptyString => true
  | String a r => p a && forallb p r
  end.

Definition code (c : ascii) : N := N_of_ascii c.

Definition in_range (lo hi : N) (c : ascii) : bool :=
  ((lo <=? code c) && (code c <=? hi))%N.

Definition is_upper : ascii -> bool := in_range 65 90.
Definition is_lower : ascii -> bool := in_range 97 122.
Definition is_digit : ascii -> bool := in_range 48 57.
Definition is_alpha (c : ascii) : bool := is_upper c || is_lower c.

Definition lower_char (c : ascii) : ascii :=
  if is_upper c then ascii_of_N (code c + 32) else c.

(** [s.lower()] on ASCII text *)
Fixpoint lower (s : string) : string :=
  match s with
  | EmptyString => EmptyString
  | String a r => String (lower_char a) (lower r)
  end.

(** [s.startswith(c)] and [s.endswith(c)] for a one-character [c] *)
Definition starts_with (c : ascii) (s : string) : bool :=
  match s with
  | String a _ => Ascii.eqb a c
  | EmptyString => false
  end.

Fixpoint ends_with (c : ascii) (s : string) : bool :=
  match s with
  | EmptyString => false
  | String a EmptyString => Ascii.eqb a c
  | String _ r => ends_with c r
  end.

(** [s.rstrip(chars)] for the character class [p] *)
Fixpoint rstrip (p : ascii -> bool) (s : string) : string :=
  match s with
  | EmptyString => EmptyString
  | String a r =>
      match rstrip p r with
      | EmptyString => if p a then EmptyString else String a EmptyString
      | r' => String a r'
      end
  end.

(** [s.strip(chars)] *)
Definition strip (p : ascii -> bool) (s : string) : string :=
  rstrip p (lstrip p s).

(** Python's [a or b] on strings: the empty string is falsy *)
Definition or_else (a b : string) : string :=
  match a with
  | EmptyString => b
  | _ => a
  end.

End Str.

(** ** The standard-library functions behind the file name

    [urllib.parse.urlparse], [urllib.parse.unquote], [os.path.basename],
    [os.path.dirname] and [os.path.join] are not part of the repository;
    they are modelled here after CPython's [urllib/parse.py] and
    [posixpath.py]. *)

Module Url.

(** [_WHATWG_C0_CONTROL_OR_SPACE]: the characters [urlsplit] strips on the left *)
Definition is_c0_or_space (c : ascii) : bool := (Str.code c <=? 32)%N.

(** [_UNSAFE_URL_BYTES_TO_REMOVE]: tab, carriage return and line feed *)
Definition is_unsafe (c : ascii) : bool :=
  (Str.code c =? 9)%N || (Str.code c =? 10)%N || (Str.code c =? 13)%N.

(** [scheme_chars]: letters, digits and "+-." *)
Definition is_scheme_char (c : ascii) : bool :=
  Str.is_alpha c || Str.is_digit c
  || Ascii.eqb c "+" || Ascii.eqb c "-" || Ascii.eqb c ".".

(** the scheme test of [urlsplit]: a colon at a positive index, a letter
    first, and only scheme characters before the colon *)
Definition split_scheme (url : string) : string * string :=
  match Str.split_once ":" url with
  | Some (String a pre, rest) =>
      if Str.is_alpha a && Str.forallb is_scheme_char (String a pre)
      then (Str.lower (String a pre), rest)
      else (EmptyString, url)
  | _ => (EmptyString, url)
  end.

Definition is_netloc_delim (c : ascii) : bool :=
  Ascii.eqb c "/" || Ascii.eqb c "?" || Ascii.eqb c "#".

(** [if url[:2] == '//': netloc, url = _splitnetloc(url, 2)]: the part
    of [url] that follows the network location *)
Definition after_netloc (url : string) : string :=
  match url with
  | String "/" (String "/" r) => Str.drop_until is_netloc_delim r
  | _ => url
  end.

(** [url.split(c, 1)[0]] when [c in url], else [url] *)
Definition before (c : ascii) (url : string) : string :=
  match Str.split_once c url with
  | Some (x, _) => x
  | None => url
  end.

Definition uses_params : list string :=
  [""; "ftp"; "hdl"; "prospero"; "http"; "imap"; "https"; "shttp"; "rtsp";
   "rtsps"; "rtspu"; "sip"; "sips"; "mms"; "sftp"; "tel"].

(** [_splitparams(url)[0]]: the path without the parameters of its last
    segment *)
Definition strip_params (path : string) : string :=
  match Str.rsplit_once "/" path with
  | Some (dir, last) => dir +:+ "/" +:+ before ";" last
  | None => before ";" path
  end.

(** [urlparse(url).path], for a URL that [urlsplit] accepts.  The checks
    [urlsplit] makes on the network location (bracketed IPv6 literals,
    characters that normalise to delimiters) end in [ValueError]; they
    are outside the model, which covers the URLs whose network location
    passes them, as every host name in ASCII without brackets does.
    ([uses_params] is the list of recent CPython versions; older ones
    lack "rtsps", which matters only for a path with a semicolon.) *)
Definition urlparse_path (url : string) : string :=
  let url := Str.lstrip is_c0_or_space url in
  let url := Str.remove is_unsafe url in
  let '(scheme, url) := split_scheme url in
  let url := after_netloc url in
  let url := before "#" url in
  let url := before "?" url in
  if bool_decide (scheme ∈ uses_params) && Str.contains ";" url
  then strip_params url
  else url.

(** [os.path.basename(p)]: [p[p.rfind('/') + 1:]] *)
Definition basename (p : string) : string :=
  match Str.rsplit_once "/" p with
  | Some (_, tail) => tail
  | None => p
  end.

(** [os.path.join(a, b)] *)
Definition path_join (a b : string) : string :=
  if Str.starts_with "/" b then b
  else if (String.length a =? 0)%nat || Str.ends_with "/" a then a +:+ b
  else a +:+ "/" +:+ b.

Definition hex_value (c : ascii) : option N :=
  if Str.is_digit c then Some (Str.code c - 48)%N
  else if Str.in_range 97 102 c then Some (Str.code c - 87)%N
  else if Str.in_range 65 70 c then Some (Str.code c - 55)%N
  else None.

Definition is_slash (c : ascii) : bool := Ascii.eqb c "/".

(** [os.path.dirname(p)]: [p] up to its last slash, without the slashes
    that end it unless it is made of slashes only *)
Definition dirname (p : string) : string :=
  match Str.rsplit_once "/" p with
  | Some (head, _) =>
      match Str.rstrip is_slash head with
      | EmptyString => head +:+ "/"
      | h => h
      end
  | None => EmptyString
  end.

(** The proper prefixes of [s] that a slash follows, [pre] being what was
    read before [s] *)
Fixpoint prefixes (pre s : string) : list string :=
  match s with
  | EmptyString => []
  | String c r =>
      (if is_slash c then [pre] else []) ++ prefixes (pre +:+ String c EmptyString) r
  end.

(** The directories above [path], as [os.makedirs] finds them with
    [os.path.split]: what precedes a slash, when it names something *)
Definition parents (path : string) : list string :=
  filter (fun d => d <> EmptyString /\ Str.ends_with "/" d = false)
         (prefixes EmptyString path).

(** [unquote_to_bytes]: a percent sign followed by two hexadecimal digits
    is replaced by the byte they denote, any other character is kept *)
Fixpoint percent_decode (s : string) : string :=
  match s with
  | EmptyString => EmptyString
  | String c r =>
      match r with
      | String h (String l r') =>
          match (if Ascii.eqb c "%" then hex_value h else None), hex_value l with
          | Some x, Some y => String (ascii_of_N (16 * x + y)) (percent_decode r')
          | _, _ => String c (percent_decode r)
          end
      | _ => String c (percent_decode r)
      end
  end.

(** U+FFFD, the replacement character, in UTF-8 *)
Definition REPLACEMENT : string :=
  String "239"%char (String "191"%char (String "189"%char EmptyString)).

(** For the first byte of a character of several bytes: the number of
    bytes that follow and the range of the second one.  The ranges keep
    out the overlong forms, the surrogates and what lies above U+10FFFF. *)
Definition lead (c : ascii) : option (nat * N * N) :=
  let b := Str.code c in
  if ((194 <=? b) && (b <=? 223))%N then Some (1%nat, 128%N, 191%N)
  else if (b =? 224)%N then Some (2%nat, 160%N, 191%N)
  else if (b =? 237)%N then Some (2%nat, 128%N, 159%N)
  else if ((225 <=? b) && (b <=? 239))%N then Some (2%nat, 128%N, 191%N)
  else if (b =? 240)%N then Some (3%nat, 144%N, 191%N)
  else if ((241 <=? b) && (b <=? 243))%N then Some (3%nat, 128%N, 191%N)
  else if (b =? 244)%N then Some (3%nat, 128%N, 143%N)
  else None.

(** [bytes.decode('utf-8', 'replace')], the result again in UTF-8.
    [pending] holds the bytes read of a character that is not complete,
    [need] is the number of bytes it still lacks and [lo] to [hi] the
    range of the next one.  A byte that cannot start or continue a
    character ends the pending one: the decoder puts U+FFFD for the bytes
    read so far and reads the offending byte afresh. *)
Fixpoint utf8_replace (pending : string) (need : nat) (lo hi : N)
    (s : string) : string :=
  match s with
  | EmptyString =>
      match pending with
      | EmptyString => EmptyString
      | _ => REPLACEMENT
      end
  | String c r =>
      let afresh :=
        if (Str.code c <? 128)%N then String c (utf8_replace EmptyString 0 0 0 r)
        else
          match lead c with
          | Some (n, l, h) => utf8_replace (String c EmptyString) n l h r
          | None => REPLACEMENT +:+ utf8_replace EmptyString 0 0 0 r
          end in
      match pending with
      | EmptyString => afresh
      | _ =>
          if Str.in_range lo hi c then
            match need with
            | S (S n) =>
                utf8_replace (pending +:+ String c EmptyString) (S n) 128 191 r
            | _ => pending +:+ String c (utf8_replace EmptyString 0 0 0 r)
            end
          else REPLACEMENT +:+ afresh
      end
  end.

(** [unquote_to_bytes(run).decode('utf-8', 'replace')] *)
Definition decode_run (run : string) : string :=
  utf8_replace EmptyString 0 0 0 (percent_decode run).

(** The loop of [unquote] over the pieces of [_asciire.split(string)]:
    a run of ASCII characters is decoded, what lies between two runs is
    kept.  [run] holds the ASCII characters read since the last character
    outside ASCII. *)
Fixpoint unquote_runs (run s : string) : string :=
  match s with
  | EmptyString => decode_run run
  | String c r =>
      if (Str.code c <? 128)%N then unquote_runs (run +:+ String c EmptyString) r
      else decode_run run +:+ String c (unquote_runs EmptyString r)
  end.

(** [urllib.parse.unquote(s)]: a string without a percent sign is
    returned as it is *)
Definition unquote (s : string) : string :=
  if Str.contains "%" s then unquote_runs EmptyString s else s.

End Url.

(** ** Python values the script handles *)

Definition bytes := list Byte.byte.

(** [int(s)] for the text [s] of a header, in base 10: surrounding
    white space, an optional sign, then digits that single underscores
    may separate.  [None] stands for [ValueError], which [int] also
    raises for a number of more than 4300 digits. *)
Module PyInt.

(** The white space among the characters of ISO-8859-1: tab to carriage
    return, the space, and the characters 133 (next line) and 160
    (no-break space) *)
Definition is_space (c : ascii) : bool :=
  Str.in_range 9 13 c || (Str.code c =? 32)%N
  || (Str.code c =? 133)%N || (Str.code c =? 160)%N.

(** [sys.get_int_max_str_digits()] as CPython sets it *)
Definition MAX_STR_DIGITS : nat := 4300.

Fixpoint count_digits (s : string) : nat :=
  match s with
  | EmptyString => 0
  | String c r => if Str.is_digit c then S (count_digits r) else count_digits r
  end.

Fixpoint digits (acc : Z) (after_digit : bool) (s : string) : option Z :=
  match s with
  | EmptyString => if after_digit then Some acc else None
  | String c r =>
      if Str.is_digit c
      then digits (10 * acc + Z.of_N (Str.code c - 48)) true r
      else if Ascii.eqb c "_" && after_digit then digits acc false r
      else None
  end.

(** the digits of a literal without its sign *)
Definition magnitude (s : string) : option Z :=
  if (MAX_STR_DIGITS <? count_digits s)%nat then None else digits 0 false s.

Definition parse (s : string) : option Z :=
  match Str.strip is_space s with
  | String "-" r => Z.opp <$> magnitude r
  | String "+" r => magnitude r
  | r => magnitude r
  end.

End PyInt.

(** The exceptions that reach the script.  Only instances of [Exception]
    are modelled, so [except Exception] is a handler for every [exn];
    [except requests.HTTPError] is a handler for the class [HTTPError]
    alone, which has no subclass in [requests.exceptions]. *)
Inductive exn_class :=
| HTTPError
| ConnectionError
| Timeout
| ChunkedEncodingError
| ValueError
| OverflowError
| FileNotFoundError
| NotADirectoryError
| IsADirectoryError
| ImportError
| DownloadError
| OtherException.

Record exn := Exn { exn_cls : exn_class; exn_str : string }.

Definition is_HTTPError (e : exn) : bool :=
  match exn_cls e with
  | HTTPError => true
  | _ => false
  end.

Definition is_ImportError (e : exn) : bool :=
  match exn_cls e with
  | ImportError => true
  | _ => false
  end.

(** ** The environment: the servers and the optional package *)

(** What [requests.get(url, stream=True)] hands back once the headers are
    read.  [error_text] is the text of the [HTTPError] that
    [raise_for_status] builds for an error status (status, reason phrase
    and URL).  [iter_content n] is the list of the chunks that
    [resp.iter_content(chunk_size=n)] yields: [n] is the number of bytes
    asked of the connection at a time, and the chunks are what the
    transport hands over, which for a chunked or a compressed response
    need not be [n] bytes each and may be empty.  [stream_error] is the
    exception, if any, that the iterator raises once these chunks are
    yielded. *)
Record Response := {
  status_code : Z;
  error_text : string;
  content_length : option string;
  iter_content : nat -> list bytes;
  stream_error : option exn;
}.

(** [chunk_size=8 * 1024] *)
Definition CHUNK_SIZE : nat := 8 * 1024.

(** The bytes the script receives from a response: its chunks, one after
    the other *)
Definition body (resp : Response) : bytes :=
  concat (iter_content resp CHUNK_SIZE).

Inductive get_outcome :=
| Responds (r : Response)
| Fails (e : exn).

(** The options the script passes to [yt_dlp.YoutubeDL]. *)
Record YdlOpts := {
  outtmpl : string;
  format : string;
  noplaylist : bool;
  quiet : bool;
  ignoreerrors : bool;
  merge_output_format : string;
}.

(** What [YoutubeDL.download([url])] does: the files it leaves on disk
    (path and content) and the exception it ends with, if any. *)
Record ydl_outcome := {
  ydl_outputs : list (string * bytes);
  ydl_error : option exn;
}.

Record Env := {
  server : string -> get_outcome;
  yt_dlp_installed : bool;
  ydl_download : YdlOpts -> string -> ydl_outcome;
}.

(** ** The world the script acts on *)

(** One entry per call that writes to the console.  [Progress f d t] is
    the write of the progress line for file [f] with the percentage
    [d * 100.0 / t]; the event keeps the two integers, and [render]
    below gives the text. *)
Inductive event :=
| Print (line : string)
| Progress (filename : string) (downloaded total : Z)
| Newline.

Record World := {
  files : gmap string bytes;
  dirs : gset string;
  console : list event;
  http_log : list string;
  ydl_log : list string;
}.

Definition with_files (f : gmap string bytes) (w : World) : World :=
  {| files := f; dirs := dirs w; console := console w;
     http_log := http_log w; ydl_log := ydl_log w |}.

Definition with_dirs (d : gset string) (w : World) : World :=
  {| files := files w; dirs := d; console := console w;
     http_log := http_log w; ydl_log := ydl_log w |}.

Definition with_console (c : list event) (w : World) : World :=
  {| files := files w; dirs := dirs w; console := c;
     http_log := http_log w; ydl_log := ydl_log w |}.

Definition with_http_log (l : list string) (w : World) : World :=
  {| files := files w; dirs := dirs w; console := console w;
     http_log := l; ydl_log := ydl_log w |}.

Definition with_ydl_log (l : list string) (w : World) : World :=
  {| files := files w; dirs := dirs w; console := console w;
     http_log := http_log w; ydl_log := l |}.

(** ** The monad: state and exceptions *)

Inductive result (A : Type) :=
| Ok (a : A)
| Raised (e : exn).

Arguments Ok {A} a.
Arguments Raised {A} e.

Definition M (A : Type) : Type := World -> result A * World.

Definition ret {A} (a : A) : M A := fun w => (Ok a, w).

Definition raise {A} (e : exn) : M A := fun w => (Raised e, w).

Definition bind {A B} (m : M A) (k : A -> M B) : M B :=
  fun w =>
    match m w with
    | (Ok a, w') => k a w'
    | (Raised e, w') => (Raised e, w')
    end.

#[global] Instance M_ret : MRet M := @ret.
#[global] Instance M_bind : MBind M := fun A B k m => bind m k.

(** [try: m / except C as e: handler(e) / else: orelse], where [catches]
    tells the instances of [C]; exceptions of [handler] and [orelse]
    propagate *)
Definition try_except_else {A} (m : M A) (catches : exn -> bool)
    (handler : exn -> M unit) (orelse : A -> M unit) : M unit :=
  fun w =>
    match m w with
    | (Ok a, w') => orelse a w'
    | (Raised e, w') => if catches e then handler e w' else (Raised e, w')
    end.

(** [try: m / except C as e: handler(e)] *)
Definition try_except {A} (m : M A) (catches : exn -> bool)
    (handler : exn -> M unit) : M unit :=
  try_except_else m catches handler (fun _ => ret tt).

(** [for x in xs: body(x)] *)
Fixpoint for_each {A} (xs : list A) (body : A -> M unit) : M unit :=
  match xs with
  | [] => ret tt
  | x :: xs' => body x ;; for_each xs' body
  end.

Definition when (b : bool) (m : M unit) : M unit :=
  if b then m else ret tt.

(** ** The operations of the libraries, as actions on the world *)

Definition LF : string := String "010"%char EmptyString.
Definition CR : string := String "013"%char EmptyString.

Definition emit (e : event) : M unit :=
  fun w => (Ok tt, with_console (console w ++ [e]) w).

(** [print(line)] *)
Definition print (line : string) : M unit := emit (Print line).

(** The file system is a map from the paths of the files to their
    content and a set of the paths of the directories.  A path is the
    string the script passes, and two strings are two paths: the model
    covers the runs in which a path is written in one way (no [.] or
    [..], no doubled slash), as those of [main] are. *)

(** The directories [os.makedirs(path)] makes when none is there: [path]
    and the directories above it *)
Definition made_dirs (path : string) : gset string :=
  {[path]} ∪ list_to_set (Url.parents path).

(** [os.makedirs(path, exist_ok=True)], for a [path] that can be made:
    not the empty string, and no regular file where a directory is to
    be ([can_make] below).  For another path [os.makedirs] raises, which
    the model leaves out: the folders of [main] are the two names
    [downloaded_videos] and [downloaded_datasets]. *)
Definition makedirs (path : string) : M unit :=
  fun w => (Ok tt, with_dirs (made_dirs path ∪ dirs w) w).

(** [os.path.exists(path)]: a file or a directory of that name *)
Definition exists_in (w : World) (path : string) : bool :=
  bool_decide (is_Some (files w !! path)) || bool_decide (path ∈ dirs w).

Definition path_exists (path : string) : M bool :=
  fun w => (Ok (exists_in w path), w).

(** The exception of [open(path, 'wb')], if any: the path names a
    directory, or the directory it lies in is missing or is a regular
    file.  The current directory and the root are always there. *)
Definition open_error (w : World) (path : string) : option exn :=
  let dir := Url.dirname path in
  if Str.ends_with "/" path || bool_decide (path ∈ dirs w)
  then Some (Exn IsADirectoryError ("[Errno 21] Is a directory: '" +:+ path +:+ "'"))
  else if bool_decide (path = EmptyString)
  then Some (Exn FileNotFoundError
               ("[Errno 2] No such file or directory: '" +:+ path +:+ "'"))
  else if Str.forallb Url.is_slash dir || bool_decide (dir ∈ dirs w)
  then None
  else if bool_decide (is_Some (files w !! dir))
  then Some (Exn NotADirectoryError ("[Errno 20] Not a directory: '" +:+ path +:+ "'"))
  else Some (Exn FileNotFoundError
               ("[Errno 2] No such file or directory: '" +:+ path +:+ "'")).

(** [open(path, 'wb')]: the file is created, or emptied if it was there *)
Definition open_wb (path : string) : M unit :=
  fun w =>
    match open_error w path with
    | Some e => (Raised e, w)
    | None => (Ok tt, with_files (<[path := []]> (files w)) w)
    end.

(** [file_handle.write(chunk)] on the file opened at [path] *)
Definition file_write (path : string) (chunk : bytes) : M unit :=
  fun w =>
    (Ok tt,
     with_files (<[path := (default [] (files w !! path) ++ chunk)]> (files w)) w).

(** [requests.get(url, stream=True)] *)
Definition requests_get (env : Env) (url : string) : M Response :=
  fun w =>
    let w' := with_http_log (http_log w ++ [url]) w in
    match server env url with
    | Responds r => (Ok r, w')
    | Fails e => (Raised e, w')
    end.

(** [resp.raise_for_status()]: an [HTTPError] for the statuses 400 to 599 *)
Definition is_error_status (status : Z) : bool :=
  (400 <=? status) && (status <? 600).

Definition raise_for_status (resp : Response) : M unit :=
  if is_error_status (status_code resp)
  then raise (Exn HTTPError (error_text resp))
  else ret tt.

(** [int(resp.headers.get('Content-Length', 0))] *)
Definition header_length (resp : Response) : M Z :=
  match content_length resp with
  | None => ret 0
  | Some text =>
      match PyInt.parse text with
      | Some n => ret n
      | None =>
          raise (Exn ValueError
                   ("invalid literal for int() with base 10: '" +:+ text +:+ "'"))
      end
  end.

(** The blocks of at most [n] bytes a body is cut into; [fuel] bounds the
    number of blocks. *)
Fixpoint blocks (fuel n : nat) (data : bytes) : list bytes :=
  match fuel with
  | O => []
  | S fuel' =>
      match data with
      | [] => []
      | _ => take n data :: blocks fuel' n (drop n data)
      end
  end.

(** What [iter_content] yields for a body that is sent as it is, neither
    chunked nor compressed: consecutive blocks of [chunk_size] bytes, the
    last one shorter *)
Definition in_blocks (data : bytes) (chunk_size : nat) : list bytes :=
  blocks (length data) chunk_size data.

(** The exception, if any, that the iterator raises instead of a next chunk *)
Definition stream_end (resp : Response) : M unit :=
  match stream_error resp with
  | Some e => raise e
  | None => ret tt
  end.

(** [YoutubeDL(opts).download([url])] *)
Definition write_outputs (outs : list (string * bytes))
    (fs : gmap string bytes) : gmap string bytes :=
  foldl (fun fs out => <[out.1 := out.2]> fs) fs outs.

Definition ydl_run (env : Env) (opts : YdlOpts) (url : string) : M unit :=
  fun w =>
    let o := ydl_download env opts url in
    let w' := with_ydl_log (ydl_log w ++ [url])
                (with_files (write_outputs (ydl_outputs o) (files w)) w) in
    match ydl_error o with
    | Some e => (Raised e, w')
    | None => (Ok tt, w')
    end.

(** [import yt_dlp] *)
Definition import_yt_dlp (env : Env) : M unit :=
  if yt_dlp_installed env then ret tt
  else raise (Exn ImportError "No module named 'yt_dlp'").

(** ** The doubles of the progress line

    [downloaded * 100.0 / total_size] is computed in IEEE 754 binary64:
    the two integers are converted to doubles, and the product and the
    quotient are each rounded to the nearest double, ties to even.  A
    finite double is kept by its exact value, a rational. *)

(** [n / d] rounded to the nearest integer, ties to even, for [d > 0] *)
Definition round_half_even (n d : Z) : Z :=
  let q := n / d in
  let r := n mod d in
  if 2 * r <? d then q
  else if d <? 2 * r then q + 1
  else if Z.even q then q else q + 1.

Module Double.

Inductive t :=
| Finite (x : Q)
| Infinity (negative : bool).

(** [2 ^ k] when [k] is positive, and 1 otherwise: a quotient [x * 2 ^ k]
    is [x * pow2 k / pow2 (- k)] whatever the sign of [k] *)
Definition pow2 (k : Z) : Z := 2 ^ Z.max 0 k.

(** [a / b >= 2 ^ k], for positive [a] and [b] *)
Definition at_least_pow2 (a b k : Z) : bool :=
  b * pow2 k <=? a * pow2 (- k).

(** the integer [l] with [2 ^ l <= a / b < 2 ^ (l + 1)] *)
Definition floor_log2 (a b : Z) : Z :=
  let k := Z.log2 a - Z.log2 b in
  if at_least_pow2 a b k then k else k - 1.

(** the exponent of the last place of the double nearest to [a / b]: a
    double has 53 significant bits, and no exponent below that of the
    subnormal numbers *)
Definition last_place (a b : Z) : Z := Z.max (floor_log2 a b - 52) (-1074).

(** [a / b] in units of the last place, rounded to the nearest integer,
    ties to even *)
Definition significand (a b : Z) : Z :=
  let e := last_place a b in
  round_half_even (a * pow2 (- e)) (b * pow2 e).

(** [m * 2 ^ e] *)
Definition scaled (m e : Z) : Q := Qmake (m * pow2 e) (Z.to_pos (pow2 (- e))).

(** the double nearest to [a / b], for positive [a] and [b]; what rounds
    to [2 ^ 1024] or more is infinite *)
Definition nearest (a b : Z) : t :=
  let m := significand a b in
  let e := last_place a b in
  if 2 ^ 1024 * pow2 (- e) <=? m * pow2 e then Infinity false
  else Finite (scaled m e).

Definition opp (d : t) : t :=
  match d with
  | Finite x => Finite (- x)
  | Infinity negative => Infinity (negb negative)
  end.

(** the double nearest to the rational [x] *)
Definition round (x : Q) : t :=
  match Qnum x with
  | 0 => Finite 0
  | Z.pos a => nearest (Z.pos a) (Z.pos (Qden x))
  | Z.neg a => opp (nearest (Z.pos a) (Z.pos (Qden x)))
  end.

(** the integers that [float] converts: those that round to less than
    [2 ^ 1024], which lie below the middle of the last double and
    [2 ^ 1024] *)
Definition fits (n : Z) : bool := Z.abs n <? 2 ^ 1024 - 2 ^ 970.

(** [float(n)], [None] for [OverflowError] *)
Definition of_int (n : Z) : option t :=
  if fits n then Some (round (inject_Z n)) else None.

Definition is_negative (d : t) : bool :=
  match d with
  | Finite x => Qnum x <? 0
  | Infinity negative => negative
  end.

(** [x * y], for [x] and [y] other than zero *)
Definition mul (x y : t) : t :=
  match x, y with
  | Finite a, Finite b => round (a * b)
  | _, _ => Infinity (xorb (is_negative x) (is_negative y))
  end.

(** [x / y], for a finite [y] other than zero *)
Definition div (x y : t) : t :=
  match x, y with
  | Finite a, Finite b => round (a / b)
  | _, _ => Infinity (xorb (is_negative x) (is_negative y))
  end.

Definition hundred : t := Finite 100.

(** the unit round-off, [2 ^ -53]: half the distance from 1 to the next
    double *)
Definition unit_roundoff : Q := Qmake 1 (2 ^ 53).

Definition two_digits (n : Z) : string :=
  if n <? 10 then "0" +:+ pretty n else pretty n.

(** the hundredths of [f"{d:.2f}"]: the exact value of the double times
    100, rounded to the nearest integer, ties to even *)
Definition hundredths (x : Q) : Z :=
  round_half_even (Z.abs (Qnum x) * 100) (Z.pos (Qden x)).

(** the digits of [h] hundredths *)
Definition decimal (h : Z) : string :=
  pretty (h / 100) +:+ "." +:+ two_digits (h mod 100).

(** [f"{d:.2f}"] *)
Definition format_2f (d : t) : string :=
  match d with
  | Finite x => (if Qnum x <? 0 then "-" else "") +:+ decimal (hundredths x)
  | Infinity negative => if negative then "-inf" else "inf"
  end.

End Double.

(** [downloaded * 100.0 / total_size] for a [total_size] other than
    zero; [None] stands for the [OverflowError] of an integer that
    [float] does not convert *)
Definition percentage (downloaded total : Z) : option Double.t :=
  match Double.of_int downloaded, Double.of_int total with
  | Some d, Some t => Some (Double.div (Double.mul d Double.hundred) t)
  | _, _ => None
  end.

(** ** What the console shows *)

(** [f"{percent:.2f}%"] *)
Definition percent_text (downloaded total : Z) : string :=
  match percentage downloaded total with
  | Some percent => Double.format_2f percent +:+ "%"
  | None => EmptyString
  end.

Definition render (e : event) : string :=
  match e with
  | Print line => line +:+ LF
  | Progress filename downloaded total =>
      CR +:+ "    " +:+ filename +:+ ": " +:+ percent_text downloaded total
  | Newline => LF
  end.

(** ** The script *)

(** [percent = downloaded * 100.0 / total_size], then the write of the
    progress line *)
Definition float_overflow : exn :=
  Exn OverflowError "int too large to convert to float".

Definition report_progress (filename : string) (downloaded total_size : Z)
    : M unit :=
  match percentage downloaded total_size with
  | Some _ => emit (Progress filename downloaded total_size)
  | None => raise float_overflow
  end.

(** The body of the [for chunk in ...] loop of [download_file];
    [downloaded] is the running byte count. *)
Fixpoint write_chunks (filename dest_path : string) (total_size : Z)
    (chunks : list bytes) (downloaded : Z) : M Z :=
  match chunks with
  | [] => ret downloaded
  | chunk :: rest =>
      match chunk with
      | [] => write_chunks filename dest_path total_size rest downloaded
      | _ =>
          file_write dest_path chunk ;;
          let downloaded := downloaded + Z.of_nat (length chunk) in
          when (negb (total_size =? 0))
               (report_progress filename downloaded total_size) ;;
          write_chunks filename dest_path total_size rest downloaded
      end
  end.

(** [unquote(os.path.basename(parsed.path)) or "downloaded_file"] *)
Definition filename_of (url : string) : string :=
  let parsed_path := Url.urlparse_path url in
  Str.or_else (Url.unquote (Url.basename parsed_path)) "downloaded_file".

(** [download_file(url, dest_folder)]: the result is the path returned or
    the exception raised *)
Definition download_file (env : Env) (url dest_folder : string) : M string :=
  makedirs dest_folder ;;
  let filename := filename_of url in
  let dest_path := Url.path_join dest_folder filename in
  found ← path_exists dest_path;
  if (found : bool) then
    print ("[INFO] " +:+ filename +:+ " already exists – skipping.") ;;
    ret dest_path
  else
    print ("[INFO] Downloading dataset archive from " +:+ url) ;;
    resp ← requests_get env url;
    raise_for_status resp ;;
    total_size ← header_length resp;
    open_wb dest_path ;;
    write_chunks filename dest_path total_size
      (iter_content resp CHUNK_SIZE) 0 ;;
    stream_end resp ;;
    when (negb (total_size =? 0)) (emit Newline) ;;
    print ("[INFO] Finished downloading " +:+ filename) ;;
    ret dest_path.

Definition YT_DLP_WARNING : string :=
  "[WARNING] yt_dlp is not installed." +:+ LF +:+
  "Install it with `pip install yt-dlp` to enable video downloads.".

Definition ydl_opts_for (dest_folder : string) : YdlOpts :=
  {| outtmpl := Url.path_join dest_folder "%(title)s.%(ext)s";
     format := "bestvideo+bestaudio/best";
     noplaylist := true;
     quiet := false;
     ignoreerrors := true;
     merge_output_format := "mp4" |}.

(** [download_videos(video_urls, dest_folder)]; the [return] of the
    [except ImportError] clause makes the rest of the function the [else]
    part of the [try] *)
Definition download_videos (env : Env) (video_urls : list string)
    (dest_folder : string) : M unit :=
  try_except_else (import_yt_dlp env) is_ImportError
    (fun _ => print YT_DLP_WARNING)
    (fun _ =>
       makedirs dest_folder ;;
       let ydl_opts := ydl_opts_for dest_folder in
       for_each video_urls (fun url =>
         try_except
           (print ("[INFO] Downloading video from " +:+ url) ;;
            ydl_run env ydl_opts url)
           (fun _ => true)
           (fun exc =>
              print ("[ERROR] Failed to download " +:+ url +:+ ": "
                     +:+ exn_str exc)))).

Definition VIDEO_URLS : list string :=
  [ "https://www.youtube.com/watch?v=CIc-Eeh7IUY";
    "https://www.youtube.com/watch?v=MFMHu1YEYQo";
    "https://www.msn.com/en-us/video/animals/hidden-camera-captures-a-tiny-mouse-collecting-food/vi-AA1Sv1nx";
    "https://www.youtube.com/watch?v=NfX6bm9x1i4";
    "https://www.youtube.com/watch?v=pGJbyh7oE2U";
    "https://www.youtube.com/watch?v=cP-___7Pva4";
    "https://www.youtube.com/watch?v=yqfF9e9PHj4";
    "https://www.youtube.com/watch?v=n3gfYT5Bw_g";
    "https://www.youtube.com/watch?v=wHWCjBzk6zc";
    "https://www.youtube.com/watch?v=Rs0KxwonI7k" ].

Definition DATASET_URLS : list string :=
  [ "https://zenodo.org/record/3636136/files/RGB_D_Rat_Behavioral_Dataset_AnnotatedSection.zip?download=1";
    "https://zenodo.org/record/3636136/files/RGB_D_Rat_Behavioral_Dataset_NonannotatedSection.zip?download=1";
    "https://zenodo.org/record/15112879/files/Dataset_128_16x9x10K_Color.zip?download=1";
    "https://data.caltech.edu/records/4emt5-b0t10/files/CRIM13_res.zip?download=1";
    "https://data.caltech.edu/records/4emt5-b0t10/files/CRIM13_test1.zip?download=1";
    "https://data.caltech.edu/records/4emt5-b0t10/files/CRIM13_test2.zip?download=1";
    "https://data.caltech.edu/records/4emt5-b0t10/files/CRIM13_train1.zip?download=1";
    "https://data.caltech.edu/records/4emt5-b0t10/files/CRIM13_train2.zip?download=1";
    "https://data.caltech.edu/records/4emt5-b0t10/files/CRIM13_validation.zip?download=1" ].

(** [main()] *)
Definition main (env : Env) : M unit :=
  download_videos env VIDEO_URLS "downloaded_videos" ;;
  for_each DATASET_URLS (fun dataset_url =>
    try_except
      (download_file env dataset_url "downloaded_datasets")
      is_HTTPError
      (fun err =>
         print ("[ERROR] Failed to download dataset from " +:+ dataset_url
                +:+ ": " +:+ exn_str err))).

(** [if __name__ == '__main__': main()]: the exit status of the process,
    0 when [main] returns and 1 when an exception leaves it *)
Definition exit_status (env : Env) (w : World) : Z :=
  match main env w with
  | (Ok _, _) => 0
  | (Raised _, _) => 1
  end.

Definition empty_world : World :=
  {| files := ∅; dirs := ∅; console := []; http_log := []; ydl_log := [] |}.

(** ** Specification-level notions *)

(** The path [download_file] computes for [url] and [dest_folder] *)
Definition dest_path_of (url dest_folder : string) : string :=
  Url.path_join dest_folder (filename_of url).

(** The world once [os.makedirs(dest_folder, exist_ok=True)] has run *)
Definition prepared (dest_folder : string) (w : World) : World :=
  with_dirs (made_dirs dest_folder ∪ dirs w) w.

(** The outcome of the test [os.path.exists(dest_path)] of
    [download_file]; the test runs once the destination directory is
    there. *)
Definition already_there (w : World) (url dest_folder : string) : bool :=
  exists_in (prepared dest_folder w) (dest_path_of url dest_folder).

(** [os.makedirs(path, exist_ok=True)] succeeds: the path is not empty,
    and no regular file is where a directory is to be *)
Definition can_make (w : World) (path : string) : bool :=
  negb (bool_decide (path = EmptyString))
  && forallb (fun d => bool_decide (files w !! d = None))
       (path :: Url.parents path).

(** [open(dest_path, 'wb')] succeeds in [download_file] *)
Definition can_create (w : World) (url dest_folder : string) : bool :=
  bool_decide
    (open_error (prepared dest_folder w) (dest_path_of url dest_folder) = None).

(** The value of [int(resp.headers.get('Content-Length', 0))], [None]
    when [int] raises *)
Definition header_value (resp : Response) : option Z :=
  match content_length resp with
  | None => Some 0
  | Some text => PyInt.parse text
  end.

(** The total and the length of the body are integers that [float]
    converts, so that no percentage of this download overflows *)
Definition in_float_range (total : Z) (resp : Response) : bool :=
  Double.fits total && Double.fits (Z.of_nat (length (body resp))).

(** The bytes received once the first [k + 1] chunks have arrived *)
Definition cumulative (chunks : list bytes) (k : nat) : Z :=
  Z.of_nat (length (concat (take (S k) chunks))).

Definition nonempty (chunk : bytes) : bool :=
  match chunk with
  | [] => false
  | _ => true
  end.

(** One progress line after each chunk that carries data, with the bytes
    received so far ([start] counts those received before), when a
    non-zero total is known; none otherwise *)
Definition progress_lines (filename : string) (total start : Z)
    (chunks : list bytes) : list event :=
  if total =? 0 then []
  else
    let cs := filter (fun c => nonempty c = true) chunks in
    (fun k => Progress filename (start + cumulative cs k) total)
      <$> seq 0 (length cs).

Definition is_progress (e : event) : bool :=
  match e with
  | Progress _ _ _ => true
  | _ => false
  end.

(** What a run of [download_file] adds to the console *)
Definition printed_by {A} (m : M A) (w : World) : list event :=
  drop (length (console w)) (console (m w).2).

(** The world once the loop over the chunks has run from [w]: the file
    at [p] holds [content] and the console shows [lines] more *)
Definition stored (p : string) (content : bytes) (lines : list event)
    (w : World) : World :=
  {| files := <[p := content]> (files w); dirs := dirs w;
     console := console w ++ lines;
     http_log := http_log w; ydl_log := ydl_log w |}.

(** The worlds a run of [download_file] goes through: once the file is
    found to be there, once the request is sent, once the chunks of the
    response [r] are on disk, and once the download is reported as
    finished. *)
Definition skipped (url dest_folder : string) (w : World) : World :=
  with_console
    (console w
     ++ [Print ("[INFO] " +:+ filename_of url +:+ " already exists – skipping.")])
    (prepared dest_folder w).

Definition requested (url dest_folder : string) (w : World) : World :=
  with_http_log (http_log w ++ [url])
    (with_console
       (console w ++ [Print ("[INFO] Downloading dataset archive from " +:+ url)])
       (prepared dest_folder w)).

Definition transferred (url dest_folder : string) (r : Response) (total : Z)
    (w : World) : World :=
  with_console
    (console (requested url dest_folder w)
     ++ progress_lines (filename_of url) total 0 (iter_content r CHUNK_SIZE))
    (with_files (<[dest_path_of url dest_folder := body r]> (files w))
       (requested url dest_folder w)).

(** The world when the percentage that follows chunk [n] of the response
    overflows: that chunk is on disk, and the progress lines are those of
    the chunks before it. *)
Definition overflowed (url dest_folder : string) (r : Response) (total : Z)
    (n : nat) (w : World) : World :=
  with_console
    (console (requested url dest_folder w)
     ++ progress_lines (filename_of url) total 0
          (take n (iter_content r CHUNK_SIZE)))
    (with_files
       (<[dest_path_of url dest_folder :=
            concat (take (S n) (iter_content r CHUNK_SIZE))]> (files w))
       (requested url dest_folder w)).

Definition finished (url dest_folder : string) (r : Response) (total : Z)
    (w : World) : World :=
  with_console
    (console (transferred url dest_folder r total w)
     ++ (if total =? 0 then [] else [Newline])
     ++ [Print ("[INFO] Finished downloading " +:+ filename_of url)])
    (transferred url dest_folder r total w).

(** What one round of the loop of [download_videos] does to the world:
    the line that announces the URL, the files [yt_dlp] leaves, and the
    error line when [yt_dlp] ends with an exception. *)
Definition video_lines (env : Env) (opts : YdlOpts) (url : string) : list event :=
  Print ("[INFO] Downloading video from " +:+ url)
  :: match ydl_error (ydl_download env opts url) with
     | Some exc =>
         [Print ("[ERROR] Failed to download " +:+ url +:+ ": " +:+ exn_str exc)]
     | None => []
     end.

Definition video_step (env : Env) (opts : YdlOpts) (w : World) (url : string) : World :=
  {| files := write_outputs (ydl_outputs (ydl_download env opts url)) (files w);
     dirs := dirs w;
     console := console w ++ video_lines env opts url;
     http_log := http_log w;
     ydl_log := ydl_log w ++ [url] |}.

(** The parts of a URL *)

(** A scheme as [urlsplit] accepts it: a letter, then letters, digits
    and the characters [+], [-] and [.] *)
Definition valid_scheme (scheme : string) : bool :=
  match scheme with
  | String a _ => Str.is_alpha a && Str.forallb Url.is_scheme_char scheme
  | EmptyString => false
  end.

(** A network location that [urlsplit] accepts without a further look:
    ASCII characters, none of them a slash, a question mark, a hash sign
    or a bracket *)
Definition valid_host (host : string) : bool :=
  Str.forallb
    (fun c => (Str.code c <? 128)%N && negb (Url.is_netloc_delim c)
              && negb (Ascii.eqb c "[") && negb (Ascii.eqb c "]"))
    host.

(** What may follow the path: nothing, a query or a fragment *)
Definition after_path (tail : string) : bool :=
  match tail with
  | EmptyString => true
  | String c _ => Ascii.eqb c "?" || Ascii.eqb c "#"
  end.

(** A character that [urlsplit] keeps: not a tab, a carriage return or
    a line feed *)
Definition safe (c : ascii) : bool := negb (Url.is_unsafe c).

(** ** Concrete servers, packages and worlds *)

Module Example.

Definition url : string := "https://host/path/File%20Name.zip?download=1".
Definition dest : string := "downloaded_datasets".
Definition path : string := "downloaded_datasets/File Name.zip".

(** an archive of eight bytes *)
Definition archive : bytes :=
  [Byte.x50; Byte.x4b; Byte.x03; Byte.x04; Byte.x14; Byte.x00; Byte.x08; Byte.x00].

(** a larger archive, and its first chunk, which is all that an
    interrupted transfer delivers *)
Definition partial : bytes := repeat Byte.x50 CHUNK_SIZE.
Definition large_archive : bytes := partial ++ archive.

(** a body of 1000 bytes *)
Definition kilobyte : bytes := repeat Byte.x41 1000.

(** a success that sends [data] as it is *)
Definition ok_response (length_header : option string) (data : bytes) : Response :=
  {| status_code := 200; error_text := "";
     content_length := length_header; iter_content := in_blocks data;
     stream_error := None |}.

(** a success whose transport hands over the pieces [pieces], whatever
    the size asked for *)
Definition chunked_response (length_header : option string)
    (pieces : list bytes) : Response :=
  {| status_code := 200; error_text := "";
     content_length := length_header; iter_content := fun _ => pieces;
     stream_error := None |}.

Definition not_found : Response :=
  {| status_code := 404;
     error_text := "404 Client Error: Not Found for url: " +:+ url;
     content_length := Some "9"; iter_content := fun _ => [];
     stream_error := None |}.

(** the connection breaks once the first chunk of [large_archive] has
    been delivered *)
Definition broken_response : Response :=
  {| status_code := 200; error_text := "";
     content_length := Some "8200"; iter_content := in_blocks partial;
     stream_error := Some (Exn ChunkedEncodingError "Connection broken") |}.

(** a length of 310 digits, which is an integer and not a double *)
Definition huge_length : string :=
  String "1" (string_of_list_ascii (repeat "0"%char 309)).

Definition no_video : ydl_outcome := {| ydl_outputs := []; ydl_error := None |}.

(** every request is answered with [r]; [yt_dlp] is not installed *)
Definition serving (r : Response) : Env :=
  {| server := fun _ => Responds r;
     yt_dlp_installed := false;
     ydl_download := fun _ _ => no_video |}.

(** no server can be reached *)
Definition offline : Env :=
  {| server := fun _ => Fails (Exn ConnectionError "Max retries exceeded");
     yt_dlp_installed := false;
     ydl_download := fun _ _ => no_video |}.

(** every archive is missing and every video extraction fails *)
Definition all_failing : Env :=
  {| server := fun _ => Responds not_found;
     yt_dlp_installed := true;
     ydl_download := fun _ _ =>
       {| ydl_outputs := [];
          ydl_error := Some (Exn DownloadError "Unsupported URL") |} |}.

(** [yt_dlp] fails on the page "first" and saves a video for any other *)
Definition clip : bytes := [Byte.x00; Byte.x00; Byte.x00; Byte.x18].
Definition flaky : Env :=
  {| server := fun _ => Responds not_found;
     yt_dlp_installed := true;
     ydl_download := fun opts page =>
       if String.eqb page "first"
       then {| ydl_outputs := [];
               ydl_error := Some (Exn DownloadError "Unsupported URL") |}
       else {| ydl_outputs := [("videos/" +:+ page +:+ ".mp4", clip)];
               ydl_error := None |} |}.

(** a world in which a partial copy of the archive is on disk *)
Definition with_partial_file : World :=
  {| files := {[path := partial]}; dirs := {[dest]};
     console := []; http_log := []; ydl_log := [] |}.

(** a world in which the directory [/tmp] is there *)
Definition with_tmp : World :=
  {| files := ∅; dirs := {["/tmp"]};
     console := []; http_log := []; ydl_log := [] |}.

End Example.

(** ** Further notions *)

(** No percentage of the download of [resp] overflows: there is none to
    compute, or the integers are in the range of [float] *)
Definition percentages_defined (total : Z) (resp : Response) : bool :=
  (total =? 0) || bool_decide (body resp = []) || in_float_range total resp.

(** An archive download that ends well: the server answers with a status
    outside 400 to 599, the length header is absent or an integer, no
    percentage overflows and the stream ends without an exception. *)
Definition completes (o : get_outcome) : bool :=
  match o with
  | Fails _ => false
  | Responds r =>
      negb (is_error_status (status_code r))
      && match header_value r with
         | Some total => percentages_defined total r
         | None => false
         end
      && bool_decide (stream_error r = None)
  end.

(** The byte count a progress line reports *)
Definition downloaded_of (e : event) : option Z :=
  match e with
  | Progress _ downloaded _ => Some downloaded
  | _ => None
  end.

(** The paths [yt_dlp] writes for the URLs of a batch *)
Definition written_paths (env : Env) (opts : YdlOpts) (urls : list string)
    : list string :=
  urls ≫= (fun url => (ydl_outputs (ydl_download env opts url)).*1).

(** The files once [data] is appended to the file at [path]; nothing is
    written when there is no data *)
Definition append_to (path : string) (data : bytes)
    (fs : gmap string bytes) : gmap string bytes :=
  match data with
  | [] => fs
  | _ => <[path := default [] (fs !! path) ++ data]> fs
  end.

(** A world in which every archive of [DATASET_URLS] is on disk, as a
    file of one byte *)
Definition all_downloaded : World :=
  {| files :=
       list_to_map
         ((fun url => (dest_path_of url "downloaded_datasets", [Byte.x50]))
            <$> DATASET_URLS);
     dirs := {["downloaded_datasets"]};
     console := []; http_log := []; ydl_log := [] |}.

(** A URL whose last segment decodes to an absolute path *)
Definition escaping_url : string := "https://host/%2Ftmp%2Fx.zip".

(** * Proofs *)

(** ** The model on a few inputs *)

Example urlparse_path_dataset :
  Url.urlparse_path
    "https://data.caltech.edu/records/4emt5-b0t10/files/CRIM13_res.zip?download=1"
  = "/records/4emt5-b0t10/files/CRIM13_res.zip".
Proof. reflexivity. Qed.

Example urlparse_path_params :
  Url.urlparse_path "HTTP://host:80/a/b;c/d;e=1?x#y" = "/a/b;c/d".
Proof. reflexivity. Qed.

Example filename_of_dataset :
  filename_of
    "https://zenodo.org/record/15112879/files/Dataset_128_16x9x10K_Color.zip?download=1"
  = "Dataset_128_16x9x10K_Color.zip".
Proof. reflexivity. Qed.

Example urlparse_path_without_scheme :
  Url.urlparse_path "1http://h/a" = "1http://h/a"
  /\ Url.urlparse_path "a+b.c://h/p;q" = "/p;q"
  /\ Url.urlparse_path "http://h;p/q" = "/q"
  /\ Url.urlparse_path "//h" = "".
Proof. repeat split. Qed.

Example filename_of_directory : filename_of "https://host/dir/" = "downloaded_file".
Proof. reflexivity. Qed.

Example unquote_stray_percent : Url.unquote "100%%41%zz" = "100%A%zz".
Proof. reflexivity. Qed.

(** Bytes that are not UTF-8 come out as U+FFFD: a lone [E9] (the letter
    e with an acute accent in ISO-8859-1), an overlong slash, a character
    cut short before an ASCII letter.  A well-formed character is kept. *)
Example unquote_replaces_bad_bytes :
  Url.unquote "caf%E9.zip" = "caf" +:+ Url.REPLACEMENT +:+ ".zip"
  /\ Url.unquote "%C0%AF" = Url.REPLACEMENT +:+ Url.REPLACEMENT
  /\ Url.unquote "%E2%82x" = Url.REPLACEMENT +:+ "x"
  /\ Url.unquote "caf%C3%A9" = "caf" +:+ String "195"%char (String "169"%char "").
Proof. repeat split. Qed.

Example path_join_cases :
  Url.path_join "downloaded_datasets" "a.zip" = "downloaded_datasets/a.zip"
  /\ Url.path_join "data/" "a.zip" = "data/a.zip"
  /\ Url.path_join "" "a.zip" = "a.zip"
  /\ Url.path_join "data" "/etc/a.zip" = "/etc/a.zip".
Proof. repeat split. Qed.

Example dirname_cases :
  Url.dirname "downloaded_datasets/a.zip" = "downloaded_datasets"
  /\ Url.dirname "a.zip" = ""
  /\ Url.dirname "/tmp/x.zip" = "/tmp"
  /\ Url.dirname "/x.zip" = "/"
  /\ Url.dirname "data//a.zip" = "data".
Proof. repeat split. Qed.

Example parents_cases :
  Url.parents "downloaded_datasets" = []
  /\ Url.parents "data/mice/archives" = ["data"; "data/mice"]
  /\ Url.parents "/srv/data" = ["/srv"]
  /\ Url.parents "data/" = ["data"].
Proof. repeat split. Qed.

Example int_of_header :
  PyInt.parse "1000" = Some 1000
  /\ PyInt.parse " 1_000 " = Some 1000
  /\ PyInt.parse "-0" = Some 0
  /\ PyInt.parse "+-1" = None
  /\ PyInt.parse "1000, 1000" = None
  /\ PyInt.parse "" = None
  /\ PyInt.parse ("8" +:+ String "160"%char "") = Some 8
  /\ PyInt.parse (String "028"%char "8") = None.
Proof. repeat split. Qed.

(** A literal of 4300 digits is an integer; one more digit and [int]
    raises. *)
Example int_digit_limit :
  PyInt.parse (string_of_list_ascii (repeat "1"%char 4300)) <> None
  /\ PyInt.parse (string_of_list_ascii (repeat "1"%char 4301)) = None
  /\ PyInt.parse Example.huge_length = Some (10 ^ 309).
Proof. repeat split; vm_compute; congruence. Qed.

(** The second percentage is that of the first chunk of an archive of
    32768000 bytes: the quotient is the double next below 0.025, and the
    text shows what Python shows. *)
Example percent_text_cases :
  percent_text 1000 1000 = "100.00%"
  /\ percent_text 8192 32768000 = "0.03%"
  /\ percent_text 8192 24576 = "33.33%"
  /\ percent_text 1 8 = "12.50%"
  /\ percent_text 16384 24576 = "66.67%"
  /\ percent_text 5 (-3) = "-166.67%"
  /\ percent_text (10 ^ 307) (10 ^ 307) = "inf%".
Proof. repeat split; vm_compute; reflexivity. Qed.

(** The integers [float] converts end where the doubles end. *)
Example float_range :
  Double.fits (2 ^ 1024 - 2 ^ 970 - 1) = true
  /\ Double.fits (2 ^ 1024 - 2 ^ 970) = false
  /\ Double.round (inject_Z (2 ^ 1024 - 2 ^ 970 - 1))
     = Double.Finite (inject_Z (2 ^ 1024 - 2 ^ 971))
  /\ Double.round (inject_Z (2 ^ 1024 - 2 ^ 970)) = Double.Infinity false
  /\ percentage 8 (10 ^ 309) = None.
Proof. repeat split; vm_compute; reflexivity. Qed.

Example blocks_of_ten :
  blocks 10 4 (repeat Byte.x00 10)
  = [repeat Byte.x00 4; repeat Byte.x00 4; repeat Byte.x00 2].
Proof. reflexivity. Qed.

(** A run against a server that answers 404: the error reaches the caller
    and the console shows the line that announces the download. *)
Example download_file_not_found :
  download_file (Example.serving Example.not_found) Example.url Example.dest empty_world
  = (Raised (Exn HTTPError (error_text Example.not_found)),
     {| files := ∅;
        dirs := {[Example.dest]};
        console :=
          [Print ("[INFO] Downloading dataset archive from " +:+ Example.url)];
        http_log := [Example.url];
        ydl_log := [] |}).
Proof. vm_compute. reflexivity. Qed.

(** ** Worlds *)

Lemma world_eta w :
  {| files := files w; dirs := dirs w; console := console w;
     http_log := http_log w; ydl_log := ydl_log w |} = w.
Proof. by destruct w. Qed.

Lemma stored_nothing p old w :
  files w !! p = Some old -> stored p (old ++ []) [] w = w.
Proof.
  intros Hold. unfold stored. rewrite !app_nil_r, insert_id by done.
  apply world_eta.
Qed.

(** Storing twice is storing once, the lines adding up. *)
Lemma stored_stored p c1 c2 l1 l2 w :
  stored p c2 l2 (stored p c1 l1 w) = stored p c2 (l1 ++ l2) w.
Proof.
  unfold stored. cbn [files dirs console http_log ydl_log].
  by rewrite insert_insert_eq, app_assoc.
Qed.

(** ** Cutting a body into blocks *)

Section Blocks.

Variable n : nat.
Hypothesis n_pos : (0 < n)%nat.

Lemma blocks_concat fuel (data : bytes) :
  (length data <= fuel)%nat -> concat (blocks fuel n data) = data.
Proof using n_pos.
  revert data. induction fuel as [|fuel IH]; intros data Hlen.
  - destruct data; [done | simpl in Hlen; lia].
  - destruct data as [|b data]; [done |].
    change (blocks (S fuel) n (b :: data))
      with (take n (b :: data) :: blocks fuel n (drop n (b :: data))).
    rewrite concat_cons, IH.
    + apply take_drop.
    + rewrite length_drop. simpl in *. lia.
Qed.

Lemma blocks_sizes fuel (data : bytes) :
  Forall (fun c => nonempty c = true /\ (length c <= n)%nat) (blocks fuel n data).
Proof using n_pos.
  revert data. induction fuel as [|fuel IH]; intros data; [constructor |].
  destruct data as [|b data]; [constructor |].
  change (blocks (S fuel) n (b :: data))
    with (take n (b :: data) :: blocks fuel n (drop n (b :: data))).
  constructor; [| apply IH].
  split.
  - destruct n; [lia | done].
  - rewrite length_take. lia.
Qed.

Lemma blocks_single (data : bytes) :
  (0 < length data <= n)%nat -> blocks (length data) n data = [data].
Proof.
  intros [Hpos Hle]. destruct data as [|b data]; [simpl in Hpos; lia |].
  change (blocks (length (b :: data)) n (b :: data))
    with (take n (b :: data) :: blocks (length data) n (drop n (b :: data))).
  rewrite take_ge, drop_ge by done.
  by destruct (length data).
Qed.

End Blocks.

Lemma CHUNK_SIZE_pos : (0 < CHUNK_SIZE)%nat.
Proof. unfold CHUNK_SIZE. lia. Qed.

(** A response that sends its data as it is delivers that data. *)
Lemma body_ok_response header data :
  body (Example.ok_response header data) = data.
Proof. apply blocks_concat; [apply CHUNK_SIZE_pos | done]. Qed.

(** ** Integers in the range of [float] *)

Lemma fits_spec n : Double.fits n = true <-> Z.abs n < 2 ^ 1024 - 2 ^ 970.
Proof. unfold Double.fits. apply Z.ltb_lt. Qed.

Lemma fits_below m n :
  0 <= m <= n -> Double.fits n = true -> Double.fits m = true.
Proof.
  rewrite !fits_spec. generalize (2 ^ 1024 - 2 ^ 970). lia.
Qed.

Lemma percentage_some d t :
  Double.fits d = true -> Double.fits t = true -> is_Some (percentage d t).
Proof.
  intros Hd Ht. unfold percentage, Double.of_int. rewrite Hd, Ht. eauto.
Qed.

Lemma percentage_fits d t x :
  percentage d t = Some x -> Double.fits d = true /\ Double.fits t = true.
Proof.
  unfold percentage, Double.of_int.
  destruct (Double.fits d), (Double.fits t); done.
Qed.

Lemma percentage_none d t :
  percentage d t = None -> ~ (Double.fits d = true /\ Double.fits t = true).
Proof.
  intros Hnone [Hd Ht]. destruct (percentage_some d t Hd Ht) as [x Hx].
  congruence.
Qed.

(** ** The download loop *)

Lemma cumulative_0 (c : bytes) cs : cumulative (c :: cs) 0 = Z.of_nat (length c).
Proof. unfold cumulative. simpl. by rewrite app_nil_r. Qed.

Lemma cumulative_S (c : bytes) cs k :
  cumulative (c :: cs) (S k) = Z.of_nat (length c) + cumulative cs k.
Proof.
  unfold cumulative.
  change (take (S (S k)) (c :: cs)) with (c :: take (S k) cs).
  rewrite concat_cons, length_app. lia.
Qed.

Lemma progress_lines_nil f t d : progress_lines f t d [] = [].
Proof. unfold progress_lines. by destruct (t =? 0). Qed.

Lemma progress_lines_empty_chunk f t d cs :
  progress_lines f t d ([] :: cs) = progress_lines f t d cs.
Proof. unfold progress_lines. by rewrite filter_cons_False. Qed.

Lemma progress_lines_cons f t d (c : bytes) cs :
  nonempty c = true ->
  progress_lines f t d (c :: cs) =
    (if t =? 0 then [] else [Progress f (d + Z.of_nat (length c)) t])
    ++ progress_lines f t (d + Z.of_nat (length c)) cs.
Proof.
  intros Hc. unfold progress_lines. destruct (t =? 0); [done |].
  rewrite filter_cons_True by done.
  cbn [length seq fmap list_fmap app].
  rewrite cumulative_0. f_equal.
  rewrite <- fmap_S_seq, <- list_fmap_compose.
  apply list_fmap_ext. intros _ k _. cbn. rewrite cumulative_S. f_equal. lia.
Qed.

Lemma progress_lines_zero f d chunks : progress_lines f 0 d chunks = [].
Proof. reflexivity. Qed.

Lemma length_concat_take (chunks : list bytes) n :
  (length (concat (take n chunks)) <= length (concat chunks))%nat.
Proof.
  rewrite <- (take_drop n chunks) at 2. rewrite concat_app, length_app. lia.
Qed.

(** One round of the loop on a chunk that carries data. *)
Lemma write_chunks_cons f p t (c : bytes) cs d w old :
  nonempty c = true ->
  files w !! p = Some old ->
  write_chunks f p t (c :: cs) d w =
    if t =? 0
    then write_chunks f p t cs (d + Z.of_nat (length c)) (stored p (old ++ c) [] w)
    else
      match percentage (d + Z.of_nat (length c)) t with
      | Some _ =>
          write_chunks f p t cs (d + Z.of_nat (length c))
            (stored p (old ++ c) [Progress f (d + Z.of_nat (length c)) t] w)
      | None => (Raised float_overflow, stored p (old ++ c) [] w)
      end.
Proof.
  intros Hc Hold. destruct c as [|b c]; [done |].
  cbn [write_chunks]. unfold mbind, M_bind, bind, file_write.
  rewrite Hold. cbn [default id].
  assert (Hw : with_files (<[p := old ++ b :: c]> (files w)) w
               = stored p (old ++ b :: c) [] w).
  { unfold with_files, stored. by rewrite app_nil_r. }
  rewrite Hw.
  destruct (t =? 0); cbn [negb when]; [done |].
  unfold report_progress.
  destruct (percentage (d + Z.of_nat (length (b :: c))) t); [| done].
  unfold emit, with_console, stored.
  cbn [files dirs console http_log ydl_log]. by rewrite app_nil_r.
Qed.

Lemma stored_lookup p content lines w :
  files (stored p content lines w) !! p = Some content.
Proof. apply lookup_insert_eq. Qed.

(** The loop either writes every chunk and returns the byte count, or
    stops at the first chunk whose percentage overflows: the chunk is on
    disk by then, and its progress line is not written. *)
Lemma write_chunks_cases f p t (chunks : list bytes) : forall d w (old : bytes),
  files w !! p = Some old -> 0 <= d ->
  let total := d + Z.of_nat (length (concat chunks)) in
  (write_chunks f p t chunks d w =
     (Ok total, stored p (old ++ concat chunks) (progress_lines f t d chunks) w)
   /\ (t = 0 \/ concat chunks = []
       \/ (Double.fits t = true /\ Double.fits total = true)))
  \/ (exists n,
        write_chunks f p t chunks d w =
          (Raised float_overflow,
           stored p (old ++ concat (take (S n) chunks))
             (progress_lines f t d (take n chunks)) w)
        /\ t <> 0 /\ concat chunks <> []
        /\ ~ (Double.fits t = true /\ Double.fits total = true)).
Proof.
  induction chunks as [|c cs IH]; intros d w old Hold Hd total.
  - left. split; [| by right; left].
    cbn. rewrite progress_lines_nil, stored_nothing by done.
    unfold total. cbn. by rewrite Z.add_0_r.
  - destruct c as [|b c].
    + cbn [write_chunks].
      destruct (IH d w old Hold Hd) as [[Hrun Hcond] | (n & Hrun & Hcond)].
      * left. by rewrite progress_lines_empty_chunk.
      * right. exists (S n).
        cbn [take].
        by rewrite progress_lines_empty_chunk.
    + set (c' := b :: c) in *.
      assert (Hc : nonempty c' = true) by done.
      assert (Hlen : 0 < Z.of_nat (length c')) by (unfold c'; cbn [length]; lia).
      assert (Htotal : total
                       = d + Z.of_nat (length c') + Z.of_nat (length (concat cs))).
      { unfold total. rewrite concat_cons, length_app. lia. }
      rewrite (write_chunks_cons f p t c' cs d w old) by done.
      rewrite (progress_lines_cons f t d c' cs) by done.
      destruct (t =? 0) eqn:Ht.
      * apply Z.eqb_eq in Ht as ->.
        destruct (IH (d + Z.of_nat (length c')) (stored p (old ++ c') [] w) (old ++ c'))
          as [[Hrun _] | (n & _ & Hne & _)]; [apply stored_lookup | lia | | done].
        left. split; [| by left].
        rewrite Hrun, stored_stored, concat_cons, <- app_assoc, <- Htotal.
        reflexivity.
      * apply Z.eqb_neq in Ht.
        destruct (percentage (d + Z.of_nat (length c')) t) as [x|] eqn:Hp.
        -- apply percentage_fits in Hp as [Hfd Hft].
           destruct (IH (d + Z.of_nat (length c'))
                       (stored p (old ++ c') [Progress f (d + Z.of_nat (length c')) t] w)
                       (old ++ c'))
             as [[Hrun Hcond] | (n & Hrun & _ & Hne & Hbad)];
             [apply stored_lookup | lia | |].
           ++ left. split.
              ** rewrite Hrun, stored_stored, concat_cons, <- app_assoc, <- Htotal.
                 reflexivity.
              ** right; right. split; [done |].
                 destruct Hcond as [-> | [Hnil | [_ Hfits]]]; [done | |].
                 --- rewrite Htotal, Hnil. cbn [length]. by rewrite Z.add_0_r.
                 --- by rewrite Htotal.
           ++ right. exists (S n). split; [| split; [done | split]].
              ** rewrite Hrun, stored_stored.
                 cbn [take].
                 rewrite (progress_lines_cons f t d c' (take n cs)) by done.
                 apply Z.eqb_neq in Ht as ->.
                 by rewrite concat_cons, <- app_assoc.
              ** by rewrite concat_cons.
              ** by rewrite Htotal.
        -- right. exists 0%nat. split; [| split; [done | split]].
           ++ cbn [take concat]. rewrite progress_lines_nil. by rewrite app_nil_r.
           ++ by rewrite concat_cons.
           ++ intros [Hft Hfits]. apply percentage_none in Hp. apply Hp.
              split; [| done]. apply (fits_below _ total); [lia | done].
Qed.
(** ** [download_file], case by case *)

Lemma header_length_ok r total w :
  header_value r = Some total -> header_length r w = (Ok total, w).
Proof.
  unfold header_value, header_length. intros Hval.
  destruct (content_length r) as [text|].
  - by rewrite Hval.
  - by injection Hval as <-.
Qed.

(** What [open] meets depends on the files and the directories only. *)
Lemma open_error_requested url dest_folder w p :
  open_error (requested url dest_folder w) p
  = open_error (prepared dest_folder w) p.
Proof. reflexivity. Qed.

Lemma can_create_true w url dest_folder :
  can_create w url dest_folder = true <->
  open_error (prepared dest_folder w) (dest_path_of url dest_folder) = None.
Proof. unfold can_create. apply bool_decide_eq_true. Qed.

Lemma can_create_false w url dest_folder :
  can_create w url dest_folder = false <->
  exists e,
    open_error (prepared dest_folder w) (dest_path_of url dest_folder) = Some e.
Proof.
  unfold can_create. rewrite bool_decide_eq_false.
  destruct (open_error _ _) as [e|]; split; try done; eauto.
  by intros [e ?].
Qed.

Lemma percentages_defined_spec total r :
  percentages_defined total r = true <->
  total = 0 \/ body r = []
  \/ (Double.fits total = true /\ Double.fits (Z.of_nat (length (body r))) = true).
Proof.
  unfold percentages_defined, in_float_range.
  rewrite !orb_true_iff, andb_true_iff, bool_decide_eq_true, Z.eqb_eq. tauto.
Qed.

(** Runs [download_file] up to the test for an existing file, whose
    outcome [H] gives. *)
Ltac enter_download H :=
  unfold download_file, mbind, M_bind, bind, makedirs, path_exists;
  unfold already_there, dest_path_of, prepared in H; rewrite H;
  unfold print, emit, requests_get.

Section DownloadFile.

Variables (env : Env) (url dest_folder : string) (w : World).

Let dest_path := dest_path_of url dest_folder.

Lemma download_file_skip :
  already_there w url dest_folder = true ->
  download_file env url dest_folder w =
    (Ok dest_path, skipped url dest_folder w).
Proof. intros Hthere. enter_download Hthere. reflexivity. Qed.

Lemma download_file_get_fails e :
  already_there w url dest_folder = false ->
  server env url = Fails e ->
  download_file env url dest_folder w = (Raised e, requested url dest_folder w).
Proof.
  intros Hthere Hsrv. enter_download Hthere. rewrite Hsrv. reflexivity.
Qed.

Lemma download_file_error_status r :
  already_there w url dest_folder = false ->
  server env url = Responds r ->
  is_error_status (status_code r) = true ->
  download_file env url dest_folder w =
    (Raised (Exn HTTPError (error_text r)), requested url dest_folder w).
Proof.
  intros Hthere Hsrv Hst. enter_download Hthere. rewrite Hsrv.
  unfold raise_for_status. rewrite Hst. reflexivity.
Qed.

Lemma download_file_bad_header r text :
  already_there w url dest_folder = false ->
  server env url = Responds r ->
  is_error_status (status_code r) = false ->
  content_length r = Some text ->
  PyInt.parse text = None ->
  download_file env url dest_folder w =
    (Raised (Exn ValueError
               ("invalid literal for int() with base 10: '" +:+ text +:+ "'")),
     requested url dest_folder w).
Proof.
  intros Hthere Hsrv Hst Hcl Hparse. enter_download Hthere. rewrite Hsrv.
  unfold raise_for_status, header_length. rewrite Hst, Hcl, Hparse. reflexivity.
Qed.

(** Once the header is read: [open], the loop, and what follows it. *)
Lemma download_file_opens r total :
  already_there w url dest_folder = false ->
  server env url = Responds r ->
  is_error_status (status_code r) = false ->
  header_value r = Some total ->
  download_file env url dest_folder w =
    match open_error (prepared dest_folder w) dest_path with
    | Some e => (Raised e, requested url dest_folder w)
    | None =>
        match write_chunks (filename_of url) dest_path total
                (iter_content r CHUNK_SIZE) 0
                (stored dest_path [] [] (requested url dest_folder w)) with
        | (Ok _, w') =>
            match stream_error r with
            | Some e => (Raised e, w')
            | None =>
                (Ok dest_path,
                 with_console
                   (console w'
                    ++ (if total =? 0 then [] else [Newline])
                    ++ [Print ("[INFO] Finished downloading " +:+ filename_of url)])
                   w')
            end
        | (Raised e, w') => (Raised e, w')
        end
    end.
Proof.
  intros Hthere Hsrv Hst Hval. enter_download Hthere. rewrite Hsrv.
  unfold raise_for_status. rewrite Hst. unfold ret at 1.
  rewrite (header_length_ok r total) by done.
  unfold open_wb.
  match goal with
  | |- context [open_error ?W ?p] =>
      change (open_error W p) with (open_error (prepared dest_folder w) dest_path);
      change W with (requested url dest_folder w)
  end.
  destruct (open_error (prepared dest_folder w) dest_path) as [e|]; [done |].
  assert (Hopened :
    with_files (<[dest_path := []]> (files (requested url dest_folder w)))
      (requested url dest_folder w)
    = stored dest_path [] [] (requested url dest_folder w)).
  { unfold with_files, stored. by rewrite app_nil_r. }
  change (Url.path_join dest_folder (filename_of url)) with dest_path.
  rewrite Hopened.
  destruct (write_chunks _ _ _ _ _ _) as [[n|e] w']; [| done].
  unfold stream_end. destruct (stream_error r) as [e|]; [done |].
  unfold ret at 1, when, emit.
  destruct (total =? 0); cbn [negb]; unfold ret, with_console;
    cbn [files dirs console http_log ydl_log app];
    by rewrite ?app_nil_r, <- ?app_assoc.
Qed.

Lemma download_file_open_fails r total e :
  already_there w url dest_folder = false ->
  server env url = Responds r ->
  is_error_status (status_code r) = false ->
  header_value r = Some total ->
  open_error (prepared dest_folder w) dest_path = Some e ->
  download_file env url dest_folder w = (Raised e, requested url dest_folder w).
Proof.
  intros Hthere Hsrv Hst Hval Hopen.
  by rewrite (download_file_opens r total), Hopen.
Qed.

Lemma stored_requested content lines :
  stored dest_path content lines
    (stored dest_path [] [] (requested url dest_folder w))
  = with_console (console (requested url dest_folder w) ++ lines)
      (with_files (<[dest_path := content]> (files w))
         (requested url dest_folder w)).
Proof.
  rewrite stored_stored. unfold stored, with_console, with_files.
  cbn [files dirs console http_log ydl_log]. reflexivity.
Qed.

(** The loop of a download that [open] lets start. *)
Lemma download_loop r total :
  let run :=
    write_chunks (filename_of url) dest_path total (iter_content r CHUNK_SIZE) 0
      (stored dest_path [] [] (requested url dest_folder w)) in
  (percentages_defined total r = true
   /\ run = (Ok (Z.of_nat (length (body r))),
             with_console
               (console (requested url dest_folder w)
                ++ progress_lines (filename_of url) total 0
                     (iter_content r CHUNK_SIZE))
               (with_files (<[dest_path := body r]> (files w))
                  (requested url dest_folder w))))
  \/ (percentages_defined total r = false
      /\ exists n, run = (Raised float_overflow, overflowed url dest_folder r total n w)).
Proof.
  intros run.
  destruct (write_chunks_cases (filename_of url) dest_path total
              (iter_content r CHUNK_SIZE) 0
              (stored dest_path [] [] (requested url dest_folder w)) [])
    as [[Hrun Hcond] | (n & Hrun & Hne & Hdata & Hbad)];
    [apply stored_lookup | done | |].
  - left. split; [by apply percentages_defined_spec |].
    unfold run. rewrite Hrun, stored_requested. reflexivity.
  - right. split.
    + apply not_true_is_false. intros Hdef.
      apply percentages_defined_spec in Hdef as [? | [? | ?]]; done.
    + exists n. unfold run. rewrite Hrun, stored_requested. reflexivity.
Qed.

Lemma download_file_transfer r total :
  already_there w url dest_folder = false ->
  server env url = Responds r ->
  is_error_status (status_code r) = false ->
  header_value r = Some total ->
  can_create w url dest_folder = true ->
  percentages_defined total r = true ->
  download_file env url dest_folder w =
    match stream_error r with
    | Some e => (Raised e, transferred url dest_folder r total w)
    | None => (Ok dest_path, finished url dest_folder r total w)
    end.
Proof.
  intros Hthere Hsrv Hst Hval Hopen Hdef.
  apply can_create_true in Hopen.
  rewrite (download_file_opens r total) by done. fold dest_path in Hopen.
  rewrite Hopen.
  destruct (download_loop r total) as [[_ Hrun] | [Hno _]]; [| congruence].
  rewrite Hrun. reflexivity.
Qed.

Lemma download_file_overflow r total :
  already_there w url dest_folder = false ->
  server env url = Responds r ->
  is_error_status (status_code r) = false ->
  header_value r = Some total ->
  can_create w url dest_folder = true ->
  percentages_defined total r = false ->
  exists n,
    download_file env url dest_folder w =
      (Raised float_overflow, overflowed url dest_folder r total n w).
Proof.
  intros Hthere Hsrv Hst Hval Hopen Hdef.
  apply can_create_true in Hopen.
  rewrite (download_file_opens r total) by done. fold dest_path in Hopen.
  rewrite Hopen.
  destruct (download_loop r total) as [[Hyes _] | [_ [n Hrun]]]; [congruence |].
  exists n. by rewrite Hrun.
Qed.

End DownloadFile.

(** Every outcome of [download_file]: the file is there and the download
    is skipped; or an exception is raised before anything is written; or
    a percentage overflows in the loop; or the loop ends, and the
    outcome is that of the stream. *)
Lemma download_file_cases env url dest_folder w :
  let p := dest_path_of url dest_folder in
  (already_there w url dest_folder = true
   /\ download_file env url dest_folder w = (Ok p, skipped url dest_folder w))
  \/ (already_there w url dest_folder = false
      /\ ~ (exists r, server env url = Responds r
                      /\ is_error_status (status_code r) = false
                      /\ is_Some (header_value r)
                      /\ can_create w url dest_folder = true)
      /\ exists e,
           download_file env url dest_folder w = (Raised e, requested url dest_folder w))
  \/ (already_there w url dest_folder = false
      /\ exists r total n,
           server env url = Responds r
           /\ is_error_status (status_code r) = false
           /\ header_value r = Some total
           /\ can_create w url dest_folder = true
           /\ percentages_defined total r = false
           /\ download_file env url dest_folder w =
                (Raised float_overflow, overflowed url dest_folder r total n w))
  \/ (already_there w url dest_folder = false
      /\ exists r total,
           server env url = Responds r
           /\ is_error_status (status_code r) = false
           /\ header_value r = Some total
           /\ can_create w url dest_folder = true
           /\ percentages_defined total r = true
           /\ download_file env url dest_folder w =
                match stream_error r with
                | Some e => (Raised e, transferred url dest_folder r total w)
                | None => (Ok p, finished url dest_folder r total w)
                end).
Proof.
  intros p.
  destruct (already_there w url dest_folder) eqn:Hthere.
  { left. split; [done |]. by apply download_file_skip. }
  right.
  destruct (server env url) as [r|e] eqn:Hsrv.
  - destruct (is_error_status (status_code r)) eqn:Hst.
    + left. split; [done |]. split.
      * intros (r' & [= <-] & Hst' & _). congruence.
      * eexists. by apply download_file_error_status.
    + destruct (header_value r) as [total|] eqn:Hval.
      * destruct (can_create w url dest_folder) eqn:Hopen.
        -- right. destruct (percentages_defined total r) eqn:Hdef.
           ++ right. split; [done |]. exists r, total.
              repeat split; try done. by apply download_file_transfer.
           ++ left. split; [done |].
              destruct (download_file_overflow env url dest_folder w r total)
                as [n Hrun]; try done.
              by exists r, total, n.
        -- left. split; [done |]. split.
           ++ intros (r' & [= <-] & _ & _ & Hyes). congruence.
           ++ apply can_create_false in Hopen as [e He]. exists e.
              by apply (download_file_open_fails _ _ _ _ r total).
      * left. split; [done |]. split.
        -- intros (r' & [= <-] & _ & [total Htotal] & _). congruence.
        -- unfold header_value in Hval.
           destruct (content_length r) as [text|] eqn:Hcl; [| done].
           eexists. by apply (download_file_bad_header _ _ _ _ r text).
  - left. split; [done |]. split.
    + by intros (r' & [=] & _).
    + eexists. by apply download_file_get_fails.
Qed.

(** ** The test for a file that is already there *)

Lemma exists_in_prepared dest_folder w p :
  exists_in w p = true -> exists_in (prepared dest_folder w) p = true.
Proof.
  unfold exists_in, prepared. cbn.
  rewrite !orb_true_iff, !bool_decide_eq_true.
  intros [Hfile | Hdir]; [by left | right].
  apply elem_of_union. by right.
Qed.

(** Nothing is there exactly when no file or directory has the name of
    the destination path and that path is not among the directories
    that [os.makedirs] makes. *)
Lemma already_there_false w url dest_folder :
  already_there w url dest_folder = false <->
  exists_in w (dest_path_of url dest_folder) = false
  /\ dest_path_of url dest_folder ∉ made_dirs dest_folder.
Proof.
  unfold already_there, exists_in. cbn.
  rewrite !orb_false_iff, !bool_decide_eq_false, not_elem_of_union.
  tauto.
Qed.

Lemma already_there_of_exists w url dest_folder :
  exists_in w (dest_path_of url dest_folder) = true ->
  already_there w url dest_folder = true.
Proof. apply exists_in_prepared. Qed.

Lemma exists_in_finished url dest_folder r total w :
  exists_in (finished url dest_folder r total w) (dest_path_of url dest_folder) = true.
Proof.
  unfold exists_in. cbn. rewrite lookup_insert_eq.
  by rewrite bool_decide_eq_true_2.
Qed.

Lemma exists_in_skipped url dest_folder w :
  already_there w url dest_folder = true ->
  exists_in (skipped url dest_folder w) (dest_path_of url dest_folder) = true.
Proof. done. Qed.

(** A run that returns leaves the file in place. *)
Lemma download_file_ok_exists env url dest_folder w p w' :
  download_file env url dest_folder w = (Ok p, w') ->
  p = dest_path_of url dest_folder /\ exists_in w' p = true.
Proof.
  intros Hrun.
  destruct (download_file_cases env url dest_folder w)
    as [[Hthere Heq] | [(_ & _ & e & Heq) | [(_ & r & total & n & Heq)
       | (_ & r & total & _ & _ & _ & _ & _ & Heq)]]].
  - rewrite Heq in Hrun. injection Hrun as <- <-.
    split; [done |]. by apply exists_in_skipped.
  - congruence.
  - destruct Heq as (_ & _ & _ & _ & _ & Heq). congruence.
  - rewrite Heq in Hrun. destruct (stream_error r); [done |].
    injection Hrun as <- <-. split; [done |]. apply exists_in_finished.
Qed.

(** ** [download_videos] *)

Lemma for_each_cons {A} (x : A) xs body w :
  for_each (x :: xs) body w =
    match body x w with
    | (Ok _, w') => for_each xs body w'
    | (Raised e, w') => (Raised e, w')
    end.
Proof. reflexivity. Qed.

Lemma video_round env opts url w :
  try_except
    (print ("[INFO] Downloading video from " +:+ url) ;; ydl_run env opts url)
    (fun _ => true)
    (fun exc =>
       print ("[ERROR] Failed to download " +:+ url +:+ ": " +:+ exn_str exc)) w
  = (Ok tt, video_step env opts w url).
Proof.
  unfold try_except, try_except_else, mbind, M_bind, bind, print, emit, ydl_run.
  unfold video_step, video_lines.
  destruct (ydl_error (ydl_download env opts url)) as [exc|]; cbn.
  - by rewrite <- app_assoc.
  - reflexivity.
Qed.

Lemma video_loop env opts urls : forall w,
  for_each urls (fun url =>
    try_except
      (print ("[INFO] Downloading video from " +:+ url) ;; ydl_run env opts url)
      (fun _ => true)
      (fun exc =>
         print ("[ERROR] Failed to download " +:+ url +:+ ": " +:+ exn_str exc))) w
  = (Ok tt, foldl (video_step env opts) w urls).
Proof.
  induction urls as [|url urls IH]; intros w; [done |].
  rewrite for_each_cons, video_round. apply IH.
Qed.

Lemma download_videos_installed env urls dest_folder w :
  yt_dlp_installed env = true ->
  download_videos env urls dest_folder w =
    (Ok tt, foldl (video_step env (ydl_opts_for dest_folder))
              (prepared dest_folder w) urls).
Proof.
  intros Hinst. unfold download_videos, try_except_else, import_yt_dlp.
  rewrite Hinst. unfold ret at 1, mbind, M_bind, bind, makedirs.
  apply video_loop.
Qed.

Lemma download_videos_missing env urls dest_folder w :
  yt_dlp_installed env = false ->
  download_videos env urls dest_folder w =
    (Ok tt, with_console (console w ++ [Print YT_DLP_WARNING]) w).
Proof.
  intros Hinst. unfold download_videos, try_except_else, import_yt_dlp.
  by rewrite Hinst.
Qed.

Lemma download_videos_returns env urls dest_folder w :
  (download_videos env urls dest_folder w).1 = Ok tt.
Proof.
  destruct (yt_dlp_installed env) eqn:Hinst.
  - by rewrite download_videos_installed.
  - by rewrite download_videos_missing.
Qed.

Section VideoBatch.

Variables (env : Env) (opts : YdlOpts).

Lemma video_batch_ydl_log urls : forall w,
  ydl_log (foldl (video_step env opts) w urls) = ydl_log w ++ urls.
Proof.
  induction urls as [|url urls IH]; intros w; cbn [foldl].
  - by rewrite app_nil_r.
  - rewrite IH. cbn. by rewrite <- app_assoc.
Qed.

Lemma video_batch_console urls : forall w,
  console (foldl (video_step env opts) w urls) =
    console w ++ concat (video_lines env opts <$> urls).
Proof.
  induction urls as [|url urls IH]; intros w; cbn [foldl].
  - by rewrite app_nil_r.
  - rewrite IH. cbn. by rewrite <- app_assoc.
Qed.

Lemma video_batch_files urls : forall w,
  files (foldl (video_step env opts) w urls) =
    foldl (fun fs url => write_outputs (ydl_outputs (ydl_download env opts url)) fs)
          (files w) urls.
Proof.
  induction urls as [|url urls IH]; intros w; cbn [foldl]; [done |].
  by rewrite IH.
Qed.

Lemma video_batch_dirs urls : forall w,
  dirs (foldl (video_step env opts) w urls) = dirs w.
Proof.
  induction urls as [|url urls IH]; intros w; cbn [foldl]; [done |].
  by rewrite IH.
Qed.

End VideoBatch.

(** ** The file name *)

Lemma append_empty t : "" +:+ t = t.
Proof. reflexivity. Qed.

Lemma append_cons a s t : String a s +:+ t = String a (s +:+ t).
Proof. reflexivity. Qed.

Lemma append_empty_r s : s +:+ "" = s.
Proof. induction s as [|a s IH]; [done |]. by rewrite append_cons, IH. Qed.

Lemma append_assoc s t u : (s +:+ t) +:+ u = s +:+ t +:+ u.
Proof. induction s as [|a s IH]; [done |]. by rewrite !append_cons, IH. Qed.

Lemma contains_app c a b :
  Str.contains c (a +:+ b) = Str.contains c a || Str.contains c b.
Proof.
  induction a as [|x a IH]; [reflexivity |].
  rewrite append_cons. cbn. destruct (Ascii.eqb x c); [reflexivity | apply IH].
Qed.

Lemma split_once_spec c s x y :
  Str.split_once c s = Some (x, y) ->
  s = x +:+ String c y /\ Str.contains c x = false.
Proof.
  revert x. induction s as [|a s IH]; intros x Hsplit; [done |].
  cbn in Hsplit. destruct (Ascii.eqb a c) eqn:Hac.
  - apply Ascii.eqb_eq in Hac as ->. by injection Hsplit as <- <-.
  - destruct (Str.split_once c s) as [[x' y']|]; [| done].
    injection Hsplit as <- <-. destruct (IH x' eq_refl) as [-> Hx'].
    split; [by rewrite append_cons |]. cbn. by rewrite Hac.
Qed.

Lemma split_once_none c s :
  Str.split_once c s = None -> Str.contains c s = false.
Proof.
  induction s as [|a s IH]; [done |]. cbn.
  destruct (Ascii.eqb a c); [done |].
  destruct (Str.split_once c s) as [[x y]|]; [done | auto].
Qed.

Lemma rsplit_once_spec c s x y :
  Str.rsplit_once c s = Some (x, y) ->
  s = x +:+ String c y /\ Str.contains c y = false.
Proof.
  revert x. induction s as [|a s IH]; intros x Hsplit; [done |].
  cbn in Hsplit. destruct (Str.rsplit_once c s) as [[x' y']|] eqn:Hrec.
  - injection Hsplit as <- <-. destruct (IH x' eq_refl) as [-> Hy'].
    by rewrite append_cons.
  - destruct (Ascii.eqb a c) eqn:Hac; [| done].
    apply Ascii.eqb_eq in Hac as ->. injection Hsplit as <- <-.
    split; [done |]. clear IH. revert Hrec.
    induction s as [|b s IH]; [done |]. cbn.
    destruct (Str.rsplit_once c s) as [[x' y']|]; [done |].
    destruct (Ascii.eqb b c); [done | auto].
Qed.

Lemma rsplit_once_none c s :
  Str.rsplit_once c s = None -> Str.contains c s = false.
Proof.
  induction s as [|a s IH]; [done |]. cbn.
  destruct (Str.rsplit_once c s) as [[x y]|]; [done |].
  destruct (Ascii.eqb a c); [done | auto].
Qed.

(** [before c s] is a prefix of [s] without [c] *)
Lemma before_spec c s :
  Str.contains c (Url.before c s) = false
  /\ exists rest, s = Url.before c s +:+ rest.
Proof.
  unfold Url.before. destruct (Str.split_once c s) as [[x y]|] eqn:Hsplit.
  - apply split_once_spec in Hsplit as [-> Hx]. eauto.
  - split; [by apply split_once_none |]. exists "".
    by rewrite append_empty_r.
Qed.

Lemma contains_prefix c a b :
  Str.contains c (a +:+ b) = false -> Str.contains c a = false.
Proof. rewrite contains_app. by intros [-> _]%orb_false_iff. Qed.

Lemma before_keeps_absent d c s :
  Str.contains c s = false -> Str.contains c (Url.before d s) = false.
Proof.
  intros Hs. destruct (before_spec d s) as [_ [rest Heq]].
  rewrite Heq in Hs. by apply contains_prefix in Hs.
Qed.

Lemma strip_params_keeps_absent c path :
  Str.contains c path = false -> Str.contains c (Url.strip_params path) = false.
Proof.
  intros Hp. unfold Url.strip_params.
  destruct (Str.rsplit_once "/" path) as [[dir last]|] eqn:Hsplit.
  - apply rsplit_once_spec in Hsplit as [-> _].
    rewrite contains_app in Hp. apply orb_false_iff in Hp as [Hdir Hlast].
    rewrite !contains_app, Hdir.
    cbn [Str.contains orb] in *.
    destruct (Ascii.eqb "/" c); [done |].
    cbn [orb]. by apply before_keeps_absent.
  - by apply before_keeps_absent.
Qed.

(** The path component holds neither a query nor a fragment. *)
Lemma urlparse_path_no_query url :
  Str.contains "?" (Url.urlparse_path url) = false.
Proof.
  unfold Url.urlparse_path.
  destruct (Url.split_scheme _) as [scheme rest].
  match goal with |- context [Url.before "?" ?s] => set (u := s) end.
  pose proof (before_spec "?" u) as [Hq _].
  destruct (_ && _); [by apply strip_params_keeps_absent | done].
Qed.

Lemma basename_no_slash p : Str.contains "/" (Url.basename p) = false.
Proof.
  unfold Url.basename.
  destruct (Str.rsplit_once "/" p) as [[dir tail]|] eqn:Hsplit.
  - by apply rsplit_once_spec in Hsplit as [_ Htail].
  - by apply rsplit_once_none.
Qed.

(** The base name is the text after the last slash of the path. *)
Lemma basename_suffix p : exists dir, p = dir +:+ Url.basename p.
Proof.
  unfold Url.basename.
  destruct (Str.rsplit_once "/" p) as [[dir tail]|] eqn:Hsplit.
  - apply rsplit_once_spec in Hsplit as [-> _]. exists (dir +:+ "/").
    by rewrite append_assoc.
  - by exists "".
Qed.

Lemma contains_suffix c a b :
  Str.contains c (a +:+ b) = false -> Str.contains c b = false.
Proof. rewrite contains_app. by intros [_ ->]%orb_false_iff. Qed.


Lemma append_eq_empty a b : a +:+ b = "" -> a = "" /\ b = "".
Proof. destruct a; [by rewrite append_empty | done]. Qed.

Lemma percent_decode_empty s : Url.percent_decode s = "" -> s = "".
Proof.
  destruct s as [|c r]; [done |]. cbn.
  destruct r as [|h [|l r']]; [done.. |].
  destruct (if Ascii.eqb c "%" then Url.hex_value h else None); [| done].
  destruct (Url.hex_value l); done.
Qed.

(** The decoder gives some text for every byte it reads. *)
Lemma utf8_replace_empty s : forall pending need lo hi,
  Url.utf8_replace pending need lo hi s = "" -> pending = "" /\ s = "".
Proof.
  induction s as [|c r IH]; intros pending need lo hi Hout.
  - cbn in Hout. by destruct pending.
  - exfalso. cbn [Url.utf8_replace] in Hout.
    assert (Hfresh :
      (if (Str.code c <? 128)%N
       then String c (Url.utf8_replace "" 0 0 0 r)
       else match Url.lead c with
            | Some (n, l, h) => Url.utf8_replace (String c "") n l h r
            | None => Url.REPLACEMENT +:+ Url.utf8_replace "" 0 0 0 r
            end) <> "").
    { destruct (Str.code c <? 128)%N; [done |].
      destruct (Url.lead c) as [[[n l] h]|]; [| done].
      intros Hrec. by destruct (IH _ _ _ _ Hrec). }
    destruct pending as [|a pending]; [done |].
    destruct (Str.in_range lo hi c); [| done].
    destruct need as [|[|n]]; [done | done |].
    by destruct (IH _ _ _ _ Hout).
Qed.

Lemma unquote_runs_empty s : forall run,
  Url.unquote_runs run s = "" -> run = "" /\ s = "".
Proof.
  induction s as [|c r IH]; intros run Hout.
  - cbn in Hout. unfold Url.decode_run in Hout.
    apply utf8_replace_empty in Hout as [_ Hdec].
    by apply percent_decode_empty in Hdec.
  - exfalso. cbn [Url.unquote_runs] in Hout.
    destruct (Str.code c <? 128)%N.
    + destruct (IH _ Hout) as [Hrun _]. by destruct run.
    + by apply append_eq_empty in Hout as [_ ?].
Qed.

Lemma unquote_empty s : Url.unquote s = "" -> s = "".
Proof.
  unfold Url.unquote. destruct (Str.contains "%" s); [| done].
  by intros [_ ?]%unquote_runs_empty.
Qed.

Lemma unquote_plain s : Str.contains "%" s = false -> Url.unquote s = s.
Proof. unfold Url.unquote. by intros ->. Qed.

Lemma filename_of_cases url :
  let segment := Url.basename (Url.urlparse_path url) in
  filename_of url =
    if bool_decide (segment = "") then "downloaded_file" else Url.unquote segment.
Proof.
  intros segment. unfold filename_of. fold segment.
  case_bool_decide as Hseg.
  - by rewrite Hseg.
  - destruct (Url.unquote segment) eqn:Hunq; [| done].
    by apply unquote_empty in Hunq.
Qed.

(** ** The characters of the path component *)

Lemma drop_until_keeps_absent c p s :
  Str.contains c s = false -> Str.contains c (Str.drop_until p s) = false.
Proof.
  induction s as [|a s IH]; [done |]. intros Hs. cbn [Str.drop_until].
  destruct (p a); [done |]. apply IH. cbn [Str.contains] in Hs.
  by destruct (Ascii.eqb a c).
Qed.

Lemma remove_keeps_absent c p s :
  Str.contains c s = false -> Str.contains c (Str.remove p s) = false.
Proof.
  induction s as [|a s IH]; [done |]. cbn [Str.contains Str.remove].
  destruct (Ascii.eqb a c) eqn:Hac; [done |]. intros Hs.
  destruct (p a); [by apply IH |]. cbn [Str.contains]. rewrite Hac. by apply IH.
Qed.

Lemma split_scheme_keeps_absent c url :
  Str.contains c url = false ->
  Str.contains c (Url.split_scheme url).2 = false.
Proof.
  intros Hurl. unfold Url.split_scheme.
  destruct (Str.split_once ":" url) as [[pre rest]|] eqn:Hsplit; [| done].
  destruct pre as [|a pre]; [done |].
  destruct (_ && _); [| done]. cbn [snd].
  apply split_once_spec in Hsplit as [-> _].
  apply contains_suffix in Hurl. cbn [Str.contains] in Hurl.
  by destruct (Ascii.eqb ":" c).
Qed.

Lemma after_netloc_cases url :
  Url.after_netloc url = url
  \/ exists r,
       url = String "/" (String "/" r)
       /\ Url.after_netloc url = Str.drop_until Url.is_netloc_delim r.
Proof.
  destruct url as [|a url]; [by left |].
  destruct a as [[] [] [] [] [] [] [] []]; try (by left).
  destruct url as [|b url]; [by left |].
  destruct b as [[] [] [] [] [] [] [] []]; try (by left).
  right. by exists url.
Qed.

Lemma after_netloc_keeps_absent c url :
  Str.contains c url = false -> Str.contains c (Url.after_netloc url) = false.
Proof.
  intros Hurl. destruct (after_netloc_cases url) as [-> | (r & -> & ->)]; [done |].
  apply drop_until_keeps_absent.
  apply (contains_suffix c "//" r). exact Hurl.
Qed.

(** Every character of the path component is a character of the URL. *)
Lemma urlparse_path_keeps_absent c url :
  Str.contains c url = false -> Str.contains c (Url.urlparse_path url) = false.
Proof.
  intros Hurl. unfold Url.urlparse_path, Str.lstrip.
  set (u := Str.remove Url.is_unsafe _).
  assert (Hu : Str.contains c u = false)
    by by apply remove_keeps_absent, drop_until_keeps_absent.
  pose proof (split_scheme_keeps_absent c u Hu) as Hrest.
  destruct (Url.split_scheme u) as [scheme rest]. cbn [snd] in Hrest.
  assert (Hpath : Str.contains c (Url.before "?" (Url.before "#" (Url.after_netloc rest)))
                  = false)
    by by apply before_keeps_absent, before_keeps_absent, after_netloc_keeps_absent.
  destruct (_ && _); [by apply strip_params_keeps_absent | done].
Qed.

Lemma filename_of_nonempty url : filename_of url <> "".
Proof.
  rewrite filename_of_cases. case_bool_decide as Hseg; [done |].
  intros Hunq. by apply unquote_empty in Hunq.
Qed.

Lemma no_slash_no_start s : Str.contains "/" s = false -> Str.starts_with "/" s = false.
Proof. destruct s as [|a s]; [done |]. cbn. by destruct (Ascii.eqb a "/"). Qed.

(** ** What follows the path in a URL *)

Lemma drop_until_app p a c b :
  p c = true ->
  Str.drop_until p (a +:+ String c b) = Str.drop_until p a +:+ String c b.
Proof.
  intros Hc. induction a as [|x a IH].
  - rewrite !append_empty. cbn. by rewrite Hc.
  - rewrite append_cons. cbn [Str.drop_until].
    destruct (p x); [by rewrite append_cons | exact IH].
Qed.

Lemma remove_app p a b :
  Str.remove p (a +:+ b) = Str.remove p a +:+ Str.remove p b.
Proof.
  induction a as [|x a IH]; [done |].
  rewrite append_cons. cbn [Str.remove].
  destruct (p x); [exact IH | by rewrite append_cons, IH].
Qed.

Lemma forallb_app p a b :
  Str.forallb p (a +:+ b) = Str.forallb p a && Str.forallb p b.
Proof.
  induction a as [|x a IH]; [done |].
  rewrite append_cons. cbn [Str.forallb]. by rewrite IH, andb_assoc.
Qed.

Lemma split_once_app_found c a b x y :
  Str.split_once c a = Some (x, y) ->
  Str.split_once c (a +:+ b) = Some (x, y +:+ b).
Proof.
  revert x. induction a as [|h a IH]; intros x Hsplit; [done |].
  rewrite append_cons. cbn [Str.split_once] in *.
  destruct (Ascii.eqb h c); [by injection Hsplit as <- <- |].
  destruct (Str.split_once c a) as [[x' y']|]; [| done].
  injection Hsplit as <- <-. by rewrite (IH x' eq_refl).
Qed.

Lemma split_once_app_later c a b :
  Str.split_once c a = None ->
  Str.split_once c (a +:+ b) =
    match Str.split_once c b with
    | Some (x, y) => Some (a +:+ x, y)
    | None => None
    end.
Proof.
  induction a as [|h a IH]; intros Hsplit.
  - rewrite append_empty. by destruct (Str.split_once c b) as [[x y]|].
  - rewrite append_cons. cbn [Str.split_once] in *.
    destruct (Ascii.eqb h c); [done |].
    destruct (Str.split_once c a) as [[x' y']|]; [done |].
    rewrite (IH eq_refl). by destruct (Str.split_once c b) as [[x y]|].
Qed.

Lemma before_absent c s : Str.contains c s = false -> Url.before c s = s.
Proof.
  intros Hs. unfold Url.before.
  destruct (Str.split_once c s) as [[x y]|] eqn:Hsplit; [| done].
  apply split_once_spec in Hsplit as [-> _].
  apply contains_suffix in Hs. cbn [Str.contains] in Hs.
  by rewrite Ascii.eqb_refl in Hs.
Qed.

Lemma before_app_present c a b :
  Str.contains c a = false -> Url.before c (a +:+ String c b) = a.
Proof.
  intros Ha. unfold Url.before.
  destruct (Str.split_once c a) as [[x y]|] eqn:Hsplit.
  - apply split_once_spec in Hsplit as [-> _].
    apply contains_suffix in Ha. cbn [Str.contains] in Ha.
    by rewrite Ascii.eqb_refl in Ha.
  - rewrite split_once_app_later by done. cbn [Str.split_once].
    by rewrite Ascii.eqb_refl, append_empty_r.
Qed.

Lemma before_app_absent c a b :
  Str.contains c a = false -> Url.before c (a +:+ b) = a +:+ Url.before c b.
Proof.
  intros Ha. unfold Url.before.
  destruct (Str.split_once c a) as [[x y]|] eqn:Hsplit.
  - apply split_once_spec in Hsplit as [-> _].
    apply contains_suffix in Ha. cbn [Str.contains] in Ha.
    by rewrite Ascii.eqb_refl in Ha.
  - rewrite split_once_app_later by done.
    by destruct (Str.split_once c b) as [[x y]|].
Qed.

Lemma after_netloc_two a b r :
  Url.after_netloc (String a (String b r)) =
    if Ascii.eqb a "/" && Ascii.eqb b "/"
    then Str.drop_until Url.is_netloc_delim r
    else String a (String b r).
Proof.
  destruct a as [[] [] [] [] [] [] [] []]; try reflexivity.
  destruct b as [[] [] [] [] [] [] [] []]; reflexivity.
Qed.

Lemma after_netloc_one a : Url.after_netloc (String a "") = String a "".
Proof. destruct a as [[] [] [] [] [] [] [] []]; reflexivity. Qed.

Section Tail.

Variable sep : ascii.
Hypothesis sep_cases : sep = "?"%char \/ sep = "#"%char.

Lemma split_scheme_tail u t :
  Url.split_scheme (u +:+ String sep t)
  = ((Url.split_scheme u).1, (Url.split_scheme u).2 +:+ String sep t).
Proof using sep_cases.
  unfold Url.split_scheme.
  destruct (Str.split_once ":" u) as [[pre rest]|] eqn:Hsplit.
  - rewrite (split_once_app_found _ _ _ _ _ Hsplit).
    destruct pre as [|a pre]; [done |]. by destruct (_ && _).
  - rewrite split_once_app_later by done.
    assert (Hsep : Str.split_once ":" (String sep t) =
              match Str.split_once ":" t with
              | Some (x, y) => Some (String sep x, y)
              | None => None
              end) by (by destruct sep_cases as [-> | ->]).
    rewrite Hsep. destruct (Str.split_once ":" t) as [[x y]|]; [| done].
    assert (Hbad : Str.forallb Url.is_scheme_char (u +:+ String sep x) = false).
    { rewrite forallb_app. cbn [Str.forallb].
      replace (Url.is_scheme_char sep) with false
        by (by destruct sep_cases as [-> | ->]).
      apply andb_false_r. }
    destruct (u +:+ String sep x) as [|a pre]; [done |].
    by rewrite Hbad, andb_false_r.
Qed.

Lemma after_netloc_tail r t :
  Url.after_netloc (r +:+ String sep t) = Url.after_netloc r +:+ String sep t.
Proof using sep_cases.
  assert (Hdelim : Url.is_netloc_delim sep = true)
    by (by destruct sep_cases as [-> | ->]).
  assert (Hslash : Ascii.eqb sep "/" = false)
    by (by destruct sep_cases as [-> | ->]).
  destruct r as [|a [|b r]].
  - rewrite append_empty. destruct t as [|b t].
    + apply after_netloc_one.
    + rewrite after_netloc_two. by rewrite Hslash.
  - rewrite !append_cons, append_empty, after_netloc_two, after_netloc_one.
    by rewrite Hslash, andb_false_r.
  - rewrite !append_cons, !after_netloc_two.
    destruct (_ && _); [by apply drop_until_app | by rewrite !append_cons].
Qed.

Lemma path_of_tail r t :
  Str.contains "?" r = false -> Str.contains "#" r = false ->
  Url.before "?" (Url.before "#" (r +:+ String sep t)) = r
  /\ Url.before "?" (Url.before "#" r) = r.
Proof using sep_cases.
  intros Hq Hf.
  split; [| by rewrite (before_absent "#" r), (before_absent "?" r)].
  destruct sep_cases as [-> | ->].
  - rewrite before_app_absent by done.
    assert (Hshift : Url.before "#" (String "?" t) = String "?" (Url.before "#" t)).
    { unfold Url.before. cbn [Str.split_once].
      change (Ascii.eqb "?" "#") with false.
      by destruct (Str.split_once "#" t) as [[x y]|]. }
    rewrite Hshift. by apply before_app_present.
  - rewrite before_app_present by done. by apply before_absent.
Qed.

Lemma urlparse_path_tail url t :
  Str.contains "?" url = false -> Str.contains "#" url = false ->
  Url.urlparse_path (url +:+ String sep t) = Url.urlparse_path url.
Proof using sep_cases.
  intros Hq Hf. unfold Url.urlparse_path, Str.lstrip.
  rewrite drop_until_app by (by destruct sep_cases as [-> | ->]).
  rewrite remove_app. cbn [Str.remove].
  replace (Url.is_unsafe sep) with false by (by destruct sep_cases as [-> | ->]).
  set (u := Str.remove Url.is_unsafe _).
  assert (Hclean : forall c, Str.contains c url = false -> Str.contains c u = false).
  { intros c Hc. by apply remove_keeps_absent, drop_until_keeps_absent. }
  rewrite split_scheme_tail.
  pose proof (split_scheme_keeps_absent "?" u (Hclean _ Hq)) as Hq'.
  pose proof (split_scheme_keeps_absent "#" u (Hclean _ Hf)) as Hf'.
  destruct (Url.split_scheme u) as [scheme rest]. cbn [fst snd] in *.
  rewrite after_netloc_tail.
  destruct (path_of_tail (Url.after_netloc rest) (Str.remove Url.is_unsafe t))
    as [-> ->]; by (done || apply after_netloc_keeps_absent).
Qed.

End Tail.

(** ** The path component of a URL given by its parts *)

Lemma drop_until_none p s :
  Str.forallb (fun c => negb (p c)) s = true -> Str.drop_until p s = "".
Proof.
  induction s as [|a s IH]; [done |]. cbn [Str.forallb Str.drop_until].
  intros [Ha Hs]%andb_true_iff. apply negb_true_iff in Ha. rewrite Ha. by apply IH.
Qed.

Lemma drop_until_skip p a b :
  Str.forallb (fun c => negb (p c)) a = true ->
  Str.drop_until p (a +:+ b) = Str.drop_until p b.
Proof.
  induction a as [|x a IH]; [done |]. cbn [Str.forallb].
  intros [Hx Ha]%andb_true_iff. apply negb_true_iff in Hx.
  rewrite append_cons. cbn [Str.drop_until]. rewrite Hx. by apply IH.
Qed.

Lemma remove_none p s :
  Str.forallb (fun c => negb (p c)) s = true -> Str.remove p s = s.
Proof.
  induction s as [|a s IH]; [done |]. cbn [Str.forallb Str.remove].
  intros [Ha Hs]%andb_true_iff. apply negb_true_iff in Ha. rewrite Ha.
  by rewrite IH.
Qed.

Lemma forallb_not_contains p c s :
  p c = false -> Str.forallb p s = true -> Str.contains c s = false.
Proof.
  intros Hc. induction s as [|a s IH]; [done |]. cbn [Str.forallb Str.contains].
  intros [Ha Hs]%andb_true_iff.
  destruct (Ascii.eqb a c) eqn:Hac; [| by apply IH].
  apply Ascii.eqb_eq in Hac as ->. congruence.
Qed.

Lemma not_contains_forallb s :
  Str.contains "/" s = false -> Str.contains "?" s = false ->
  Str.contains "#" s = false ->
  Str.forallb (fun c => negb (Url.is_netloc_delim c)) s = true.
Proof.
  induction s as [|a s IH]; [done |]. cbn [Str.contains Str.forallb].
  unfold Url.is_netloc_delim.
  destruct (Ascii.eqb a "/"); [done |].
  destruct (Ascii.eqb a "?"); [done |].
  destruct (Ascii.eqb a "#"); [done |].
  intros H1 H2 H3. cbn [orb negb andb]. by apply IH.
Qed.

Lemma split_once_app_first c a b :
  Str.contains c a = false ->
  Str.split_once c (a +:+ String c b) = Some (a, b).
Proof.
  induction a as [|x a IH]; intros Ha.
  - rewrite append_empty. cbn. by rewrite Ascii.eqb_refl.
  - rewrite append_cons. cbn [Str.split_once Str.contains] in *.
    destruct (Ascii.eqb x c); [done |]. by rewrite IH.
Qed.

Lemma rsplit_once_app_last c a b :
  Str.contains c b = false ->
  Str.rsplit_once c (a +:+ String c b) = Some (a, b).
Proof.
  intros Hb.
  assert (Hlast : Str.rsplit_once c (String c b) = Some ("", b)).
  { cbn [Str.rsplit_once]. destruct (Str.rsplit_once c b) as [[x y]|] eqn:Hsplit.
    - apply rsplit_once_spec in Hsplit as [-> _].
      apply contains_suffix in Hb. cbn [Str.contains] in Hb.
      by rewrite Ascii.eqb_refl in Hb.
    - by rewrite Ascii.eqb_refl. }
  induction a as [|x a IH]; [by rewrite append_empty |].
  rewrite append_cons. cbn [Str.rsplit_once]. by rewrite IH.
Qed.

Lemma lstrip_letter a s :
  Str.is_alpha a = true ->
  Str.lstrip Url.is_c0_or_space (String a s) = String a s.
Proof.
  intros Ha. unfold Str.lstrip. cbn [Str.drop_until].
  assert (Hcode : Url.is_c0_or_space a = false).
  { unfold Str.is_alpha, Str.is_upper, Str.is_lower, Str.in_range in Ha.
    unfold Url.is_c0_or_space. apply N.leb_gt.
    apply orb_true_iff in Ha as [[H1 _]%andb_true_iff | [H1 _]%andb_true_iff];
      apply N.leb_le in H1; lia. }
  by rewrite Hcode.
Qed.

(** What [urlsplit] keeps of [scheme://rest]: the scheme in lower case
    and, of [rest], what follows the network location. *)
Lemma split_scheme_of_parts scheme rest :
  valid_scheme scheme = true ->
  Url.split_scheme (scheme +:+ "://" +:+ rest)
  = (Str.lower scheme, "//" +:+ rest).
Proof.
  intros Hvalid. destruct scheme as [|a pre]; [done |].
  cbn [valid_scheme] in Hvalid. apply andb_true_iff in Hvalid as [Ha Hchars].
  unfold Url.split_scheme.
  change ("://" +:+ rest) with (String ":" ("//" +:+ rest)).
  rewrite split_once_app_first by (by apply (forallb_not_contains Url.is_scheme_char)).
  by rewrite Ha, Hchars.
Qed.

Lemma after_netloc_of_parts rest :
  Url.after_netloc ("//" +:+ rest) = Str.drop_until Url.is_netloc_delim rest.
Proof. reflexivity. Qed.

Section Parts.

Variables (scheme rest tail : string).
Hypothesis scheme_valid : valid_scheme scheme = true.
Hypothesis tail_valid : after_path tail = true.

(** The path component of [scheme://rest] followed by [tail], when
    [rest] holds neither a query nor a fragment: what follows the
    network location, up to [tail]. *)
Lemma urlparse_path_of_parts :
  Str.contains "?" rest = false -> Str.contains "#" rest = false ->
  Str.forallb safe (scheme +:+ "://" +:+ rest +:+ tail) = true ->
  let path := Str.drop_until Url.is_netloc_delim rest in
  Url.urlparse_path (scheme +:+ "://" +:+ rest +:+ tail)
  = if bool_decide (Str.lower scheme ∈ Url.uses_params) && Str.contains ";" path
    then Url.strip_params path
    else path.
Proof using scheme_valid tail_valid.
  intros Hq Hf Hsafe path. unfold Url.urlparse_path.
  assert (Hstart : exists a pre, scheme = String a pre /\ Str.is_alpha a = true).
  { destruct scheme as [|a pre]; [done |]. exists a, pre. split; [done |].
    cbn in scheme_valid. by apply andb_true_iff in scheme_valid as [? _]. }
  destruct Hstart as (a & pre & Hscheme & Ha).
  assert (Hstrip : Str.lstrip Url.is_c0_or_space (scheme +:+ "://" +:+ rest +:+ tail)
                   = scheme +:+ "://" +:+ rest +:+ tail).
  { rewrite Hscheme, append_cons. by apply lstrip_letter. }
  rewrite Hstrip, (remove_none Url.is_unsafe) by exact Hsafe.
  replace (scheme +:+ "://" +:+ rest +:+ tail)
    with (scheme +:+ "://" +:+ (rest +:+ tail)) by done.
  rewrite split_scheme_of_parts by done.
  rewrite after_netloc_of_parts.
  assert (Hpath : Url.before "?" (Url.before "#"
                    (Str.drop_until Url.is_netloc_delim (rest +:+ tail))) = path).
  { assert (Hq' : Str.contains "?" path = false) by by apply drop_until_keeps_absent.
    assert (Hf' : Str.contains "#" path = false) by by apply drop_until_keeps_absent.
    destruct tail as [|sep t].
    - rewrite append_empty_r. fold path.
      by rewrite (before_absent "#"), (before_absent "?").
    - cbn [after_path] in tail_valid.
      assert (Hsep : sep = "?"%char \/ sep = "#"%char).
      { apply orb_true_iff in tail_valid as [?%Ascii.eqb_eq | ?%Ascii.eqb_eq];
          [by left | by right]. }
      rewrite drop_until_app by (by destruct Hsep as [-> | ->]).
      fold path. by destruct (path_of_tail sep Hsep path t Hq' Hf') as [-> _]. }
  by rewrite Hpath.
Qed.

End Parts.

(** The last segment of a path is what follows its last slash. *)
Lemma basename_of_segment dir segment :
  Str.contains "/" segment = false ->
  Url.basename (dir +:+ "/" +:+ segment) = segment.
Proof.
  intros Hseg. unfold Url.basename.
  change ("/" +:+ segment) with (String "/" segment).
  by rewrite rsplit_once_app_last.
Qed.

Lemma strip_params_of_segment dir segment :
  Str.contains "/" segment = false -> Str.contains ";" segment = false ->
  Url.strip_params (dir +:+ "/" +:+ segment) = dir +:+ "/" +:+ segment.
Proof.
  intros Hslash Hsemi. unfold Url.strip_params.
  change ("/" +:+ segment) with (String "/" segment).
  rewrite rsplit_once_app_last by done. by rewrite before_absent.
Qed.
(** ** The accuracy of the percentage *)

Lemma round_half_even_error n d :
  0 < d -> 2 * Z.abs (round_half_even n d * d - n) <= d.
Proof.
  intros Hd. unfold round_half_even.
  pose proof (Z.div_mod n d ltac:(lia)) as Hn.
  pose proof (Z.mod_pos_bound n d Hd) as Hr.
  set (q := n / d) in *. set (r := n mod d) in *.
  destruct (2 * r <? d) eqn:H1; [apply Z.ltb_lt in H1; nia |].
  apply Z.ltb_ge in H1.
  destruct (d <? 2 * r) eqn:H2; [apply Z.ltb_lt in H2; nia |].
  apply Z.ltb_ge in H2.
  destruct (Z.even q); nia.
Qed.

Lemma pow2_pos k : 0 < Double.pow2 k.
Proof. unfold Double.pow2. apply Z.pow_pos_nonneg; lia. Qed.

Lemma pow2_nonneg k : 0 <= k -> Double.pow2 k = 2 ^ k.
Proof. intros Hk. unfold Double.pow2. by rewrite Z.max_r. Qed.

Lemma pow2_neg k : k <= 0 -> Double.pow2 k = 1.
Proof. intros Hk. unfold Double.pow2. by rewrite Z.max_l. Qed.

(** [2 ^ l = 2 ^ k * 2 ^ e] when [l = k + e], with the powers of negative
    exponents on the other side *)
Lemma pow2_shift k l e :
  0 <= k -> l = k + e ->
  Double.pow2 l * Double.pow2 (- e) = 2 ^ k * Double.pow2 e * Double.pow2 (- l).
Proof.
  intros Hk ->. unfold Double.pow2.
  rewrite <- !Z.pow_add_r by lia. f_equal. lia.
Qed.

Lemma log2_bounds a : 0 < a -> 2 ^ Z.log2 a <= a < 2 ^ (Z.log2 a + 1).
Proof.
  intros Ha. pose proof (Z.log2_spec a Ha) as Hspec.
  by rewrite <- Z.add_1_r in Hspec.
Qed.

(** [2 ^ floor_log2 a b <= a / b] *)
Lemma floor_log2_below a b :
  0 < a -> 0 < b ->
  b * Double.pow2 (Double.floor_log2 a b)
  <= a * Double.pow2 (- Double.floor_log2 a b).
Proof.
  intros Ha Hb. unfold Double.floor_log2.
  destruct (Double.at_least_pow2 a b (Z.log2 a - Z.log2 b)) eqn:Htest.
  { by apply Z.leb_le in Htest. }
  clear Htest.
  pose proof (log2_bounds a Ha) as [Ha1 _].
  pose proof (log2_bounds b Hb) as [_ Hb2].
  pose proof (Z.log2_nonneg a). pose proof (Z.log2_nonneg b).
  set (la := Z.log2 a) in *. set (lb := Z.log2 b) in *.
  destruct (Z.le_gt_cases 0 (la - lb - 1)) as [Hk | Hk].
  - rewrite pow2_nonneg, pow2_neg by lia.
    assert (Hpow : 2 ^ (lb + 1) * 2 ^ (la - lb - 1) = 2 ^ la).
    { rewrite <- Z.pow_add_r by lia. f_equal. lia. }
    assert (0 < 2 ^ (la - lb - 1)) by (apply Z.pow_pos_nonneg; lia).
    nia.
  - rewrite pow2_neg, pow2_nonneg by lia.
    assert (Hpow : 2 ^ la * 2 ^ (- (la - lb - 1)) = 2 ^ (lb + 1)).
    { rewrite <- Z.pow_add_r by lia. f_equal. lia. }
    assert (0 < 2 ^ (- (la - lb - 1))) by (apply Z.pow_pos_nonneg; lia).
    nia.
Qed.

(** A quotient of at least [2 ^ -1000] is in the range of the normal
    doubles. *)
Lemma floor_log2_normal a b :
  0 < a -> 0 < b -> b <= a * 2 ^ 1000 -> - 1002 <= Double.floor_log2 a b.
Proof.
  intros Ha Hb Hab.
  assert (Hlog : Z.log2 b <= Z.log2 a + 1000).
  { pose proof (Z.log2_le_mono _ _ Hab) as Hmono.
    rewrite Z.log2_mul_pow2 in Hmono by lia. lia. }
  unfold Double.floor_log2. destruct (Double.at_least_pow2 _ _ _); lia.
Qed.


(** The double nearest to a quotient [a / b] of the normal range is
    finite, and differs from [a / b] by at most one part in [2 ^ 53]. *)
Lemma nearest_accurate a b :
  0 < a -> 0 < b -> b <= a * 2 ^ 1000 -> a < b * 2 ^ 1020 ->
  exists N D,
    Double.nearest a b = Double.Finite (Qmake N D)
    /\ 0 < N
    /\ 2 ^ 53 * Z.abs (N * b - a * Z.pos D) <= a * Z.pos D.
Proof.
  intros Ha Hb Hlow Hhigh.
  pose proof (floor_log2_normal a b Ha Hb Hlow) as Hnormal.
  pose proof (floor_log2_below a b Ha Hb) as Hbelow.
  unfold Double.nearest, Double.significand, Double.scaled, Double.last_place.
  set (l := Double.floor_log2 a b) in *.
  rewrite Z.max_l by lia.
  set (e := l - 52).
  pose proof (pow2_pos e) as HE1. pose proof (pow2_pos (- e)) as HE2.
  pose proof (pow2_pos (- l)) as HP.
  pose proof (pow2_shift 52 l e ltac:(lia) ltac:(unfold e; lia)) as Hshift.
  set (E1 := Double.pow2 e) in *. set (E2 := Double.pow2 (- e)) in *.
  pose proof (round_half_even_error (a * E2) (b * E1) ltac:(nia)) as Hround.
  set (m := round_half_even (a * E2) (b * E1)) in *.
  assert (Hrel : b * E1 * 2 ^ 52 <= a * E2).
  { apply (Z.mul_le_mono_pos_r _ _ (Double.pow2 (- l))); [done |].
    replace (b * E1 * 2 ^ 52 * Double.pow2 (- l))
      with (b * (2 ^ 52 * E1 * Double.pow2 (- l))) by ring.
    rewrite <- Hshift.
    replace (b * (Double.pow2 l * E2)) with (b * Double.pow2 l * E2) by ring.
    replace (a * E2 * Double.pow2 (- l)) with (a * Double.pow2 (- l) * E2) by ring.
    by apply Z.mul_le_mono_pos_r. }
  assert (H53 : 2 ^ 53 = 2 * 2 ^ 52) by reflexivity.
  assert (Hp52 : 0 < 2 ^ 52) by reflexivity.
  assert (Hpos : Z.pos (Z.to_pos E2) = E2) by (apply Z2Pos.id; lia).
  assert (Herr : 2 ^ 53 * Z.abs (m * E1 * b - a * E2) <= a * E2).
  { rewrite H53. replace (m * E1 * b) with (m * (b * E1)) by ring.
    set (K := 2 ^ 52) in *. nia. }
  assert (Hm : 0 < m * E1).
  { assert (0 < a * E2) by nia.
    assert (Habs : Z.abs (m * E1 * b - a * E2) < a * E2).
    { assert (1 < 2 ^ 53) by reflexivity. set (K := 2 ^ 53) in *. nia. }
    nia. }
  exists (m * E1), (Z.to_pos E2). rewrite Hpos. split; [| done].
  destruct (2 ^ 1024 * E2 <=? m * E1) eqn:Hover; [| done].
  exfalso. apply Z.leb_le in Hover.
  assert (Hbig : 2 ^ 1024 = 16 * 2 ^ 1020) by reflexivity.
  assert (0 < 2 ^ 1020) by reflexivity.
  assert (Hle : m * E1 * b <= 2 * (a * E2)).
  { assert (1 < 2 ^ 53) by reflexivity. set (K := 2 ^ 53) in *. nia. }
  rewrite Hbig in Hover. set (T := 2 ^ 1020) in *.
  assert (a * E2 < b * T * E2) by nia.
  assert (16 * T * E2 * b <= m * E1 * b) by nia.
  nia.
Qed.


(** Rounding a rational of the normal range changes it by at most one
    part in [2 ^ 53]. *)
Lemma round_accurate (x : Q) :
  (Qmake 1 (2 ^ 1000) <= x)%Q -> (x <= inject_Z (2 ^ 1019))%Q ->
  exists y,
    Double.round x = Double.Finite y
    /\ (x * (1 - Double.unit_roundoff) <= y)%Q
    /\ (y <= x * (1 + Double.unit_roundoff))%Q.
Proof.
  destruct x as [n b]. unfold Qle. cbn [Qnum Qden inject_Z].
  intros Hlow Hhigh.
  assert (Hn : 0 < n) by lia.
  destruct n as [|a|a]; [lia | | lia].
  assert (Hlow' : Z.pos b <= Z.pos a * 2 ^ 1000).
  { change (Z.pos (2 ^ 1000)) with (2 ^ 1000) in Hlow. lia. }
  assert (Hhigh' : Z.pos a < Z.pos b * 2 ^ 1020).
  { assert (Hp : 2 ^ 1020 = 2 * 2 ^ 1019) by reflexivity.
    assert (0 < 2 ^ 1019) by reflexivity.
    rewrite Hp. set (T := 2 ^ 1019) in *. nia. }
  destruct (nearest_accurate (Z.pos a) (Z.pos b) ltac:(lia) ltac:(lia) Hlow' Hhigh')
    as (N & D & Hnear & HN & Herr).
  exists (Qmake N D). split; [exact Hnear |].
  unfold Double.unit_roundoff, Qminus, Qplus, Qopp, Qmult. cbn [Qnum Qden].
  rewrite !Pos2Z.inj_mul.
  change (Z.pos (2 ^ 53)) with (2 ^ 53).
  assert (0 < 2 ^ 53) by reflexivity.
  set (K := 2 ^ 53) in *.
  split; nia.
Qed.


Local Open Scope Q_scope.

(** Two factors close to 1 *)
Lemma roundoff_cubed_above :
  (1 + Double.unit_roundoff) * (1 + Double.unit_roundoff) * (1 + Double.unit_roundoff)
  <= (1 + Qmake 1 (2 ^ 50)) * (1 - Double.unit_roundoff).
Proof. vm_compute. discriminate. Qed.

Lemma roundoff_cubed_below :
  (1 - Qmake 1 (2 ^ 50)) * (1 + Double.unit_roundoff)
  <= (1 - Double.unit_roundoff) * (1 - Double.unit_roundoff) * (1 - Double.unit_roundoff).
Proof. vm_compute. discriminate. Qed.

Lemma roundoff_small : 0 < Double.unit_roundoff /\ Double.unit_roundoff < 1.
Proof. split; reflexivity. Qed.

(** The four roundings of [d * 100.0 / t], put together: the quotient
    the doubles give is within one part in [2 ^ 50] of [100 * d / t]. *)
Lemma four_roundings (d t x y p q : Q) :
  0 < d -> 0 < t ->
  d * (1 - Double.unit_roundoff) <= x -> x <= d * (1 + Double.unit_roundoff) ->
  t * (1 - Double.unit_roundoff) <= y -> y <= t * (1 + Double.unit_roundoff) ->
  x * 100 * (1 - Double.unit_roundoff) <= p -> p <= x * 100 * (1 + Double.unit_roundoff) ->
  p / y * (1 - Double.unit_roundoff) <= q -> q <= p / y * (1 + Double.unit_roundoff) ->
  100 * d * (1 - Qmake 1 (2 ^ 50)) <= q * t
  /\ q * t <= 100 * d * (1 + Qmake 1 (2 ^ 50)).
Proof.
  intros Hd Ht Hx1 Hx2 Hy1 Hy2 Hp1 Hp2 Hq1 Hq2.
  pose proof roundoff_small as [Hu0 Hu1].
  pose proof roundoff_cubed_above as Habove.
  pose proof roundoff_cubed_below as Hbelow.
  set (u := Double.unit_roundoff) in *. set (v := Qmake 1 (2 ^ 50)) in *.
  assert (Hy : 0 < y) by nra.
  assert (Hx : 0 < x) by nra.
  assert (Hp : 0 < p) by nra.
  assert (Hqy1 : p * (1 - u) <= q * y).
  { assert (Heq : p * (1 - u) == p / y * (1 - u) * y) by (field; lra).
    rewrite Heq. nra. }
  assert (Hqy2 : q * y <= p * (1 + u)).
  { assert (Heq : p * (1 + u) == p / y * (1 + u) * y) by (field; lra).
    rewrite Heq. nra. }
  assert (Hq : 0 < q) by nra.
  assert (Hp2' : p <= 100 * d * ((1 + u) * (1 + u))).
  { assert (0 <= (d * (1 + u) - x) * (100 * (1 + u)))
      by (apply Qmult_le_0_compat; lra).
    lra. }
  assert (Hp1' : 100 * d * ((1 - u) * (1 - u)) <= p).
  { assert (0 <= (x - d * (1 - u)) * (100 * (1 - u)))
      by (apply Qmult_le_0_compat; lra).
    lra. }
  assert (Hup : q * y <= 100 * d * ((1 + u) * (1 + u) * (1 + u))).
  { assert (0 <= (100 * d * ((1 + u) * (1 + u)) - p) * (1 + u))
      by (apply Qmult_le_0_compat; lra).
    lra. }
  assert (Hdown : 100 * d * ((1 - u) * (1 - u) * (1 - u)) <= q * y).
  { assert (0 <= (p - 100 * d * ((1 - u) * (1 - u))) * (1 - u))
      by (apply Qmult_le_0_compat; lra).
    lra. }
  assert (Hty1 : q * y <= q * t * (1 + u)).
  { assert (0 <= q * (t * (1 + u) - y)) by (apply Qmult_le_0_compat; lra).
    lra. }
  assert (Hty2 : q * t * (1 - u) <= q * y).
  { assert (0 <= q * (y - t * (1 - u))) by (apply Qmult_le_0_compat; lra).
    lra. }
  assert (Hd100 : 0 <= 100 * d) by lra.
  assert (Ha : 100 * d * ((1 + u) * (1 + u) * (1 + u))
               <= 100 * d * ((1 + v) * (1 - u))).
  { assert (0 <= 100 * d * ((1 + v) * (1 - u) - (1 + u) * (1 + u) * (1 + u)))
      by (apply Qmult_le_0_compat; lra).
    lra. }
  assert (Hb : 100 * d * ((1 - v) * (1 + u))
               <= 100 * d * ((1 - u) * (1 - u) * (1 - u))).
  { assert (0 <= 100 * d * ((1 - u) * (1 - u) * (1 - u) - (1 - v) * (1 + u)))
      by (apply Qmult_le_0_compat; lra).
    lra. }
  split.
  - assert (Hc : (100 * d * (1 - v)) * (1 + u) <= (q * t) * (1 + u)) by lra.
    apply Qmult_lt_0_le_reg_r in Hc; [done | lra].
  - assert (Hc : (q * t) * (1 - u) <= (100 * d * (1 + v)) * (1 - u)) by lra.
    apply Qmult_lt_0_le_reg_r in Hc; [done | lra].
Qed.


Lemma inject_Z_pos (n : Z) : (0 < n)%Z -> 1 <= inject_Z n.
Proof. intros Hn. unfold Qle. cbn. lia. Qed.

Lemma inject_Z_below (n m : Z) : (n < m)%Z -> inject_Z n <= inject_Z m.
Proof. intros Hn. unfold Qle. cbn. lia. Qed.

Lemma fits_small n : (0 < n < 2 ^ 1000)%Z -> Double.fits n = true.
Proof.
  intros Hn. unfold Double.fits. apply Z.ltb_lt.
  assert (2 ^ 1000 < 2 ^ 1024 - 2 ^ 970)%Z by reflexivity. lia.
Qed.

(** The percentage of [d] bytes out of [t], both below [2 ^ 1000], is a
    finite double within one part in [2 ^ 50] of [100 * d / t]. *)
Lemma percentage_accurate (d t : Z) :
  (0 < d < 2 ^ 1000)%Z -> (0 < t < 2 ^ 1000)%Z ->
  exists q,
    percentage d t = Some (Double.Finite q)
    /\ 100 * inject_Z d * (1 - Qmake 1 (2 ^ 50)) <= q * inject_Z t
    /\ q * inject_Z t <= 100 * inject_Z d * (1 + Qmake 1 (2 ^ 50)).
Proof.
  intros Hd Ht.
  pose proof (inject_Z_pos d ltac:(lia)) as Hd1.
  pose proof (inject_Z_pos t ltac:(lia)) as Ht1.
  pose proof (inject_Z_below d (2 ^ 1000) ltac:(lia)) as Hd2.
  pose proof (inject_Z_below t (2 ^ 1000) ltac:(lia)) as Ht2.
  assert (Hbig : 1000 * inject_Z (2 ^ 1000) <= inject_Z (2 ^ 1019))
    by (vm_compute; discriminate).
  assert (Hsmall : Qmake 1 (2 ^ 1000) * inject_Z (2 ^ 1000) == 1)
    by (vm_compute; reflexivity).
  assert (Hc : 0 < Qmake 1 (2 ^ 1000)) by reflexivity.
  assert (Hc1 : Qmake 1 (2 ^ 1000) <= 1) by (vm_compute; discriminate).
  assert (HA : 1 <= inject_Z (2 ^ 1000)) by (vm_compute; discriminate).
  set (A := inject_Z (2 ^ 1000)) in *. set (B := inject_Z (2 ^ 1019)) in *.
  set (c := Qmake 1 (2 ^ 1000)) in *.
  assert (Hu : Double.unit_roundoff = Qmake 1 9007199254740992) by reflexivity.
  unfold percentage, Double.of_int. rewrite !fits_small by done.
  destruct (round_accurate (inject_Z d)) as (x & -> & Hx1 & Hx2);
    [fold c; lra | fold B; lra |].
  destruct (round_accurate (inject_Z t)) as (y & -> & Hy1 & Hy2);
    [fold c; lra | fold B; lra |].
  unfold Double.hundred, Double.mul.
  assert (Hx : 1 <= 2 * x /\ x <= 2 * A) by (rewrite Hu in *; split; lra).
  assert (Hy : 1 <= 2 * y /\ y <= 2 * A) by (rewrite Hu in *; split; lra).
  destruct (round_accurate (x * 100)) as (p & -> & Hp1 & Hp2);
    [fold c; lra | fold B; lra |].
  assert (Hp : 25 <= p /\ p <= 400 * A) by (rewrite Hu in *; split; lra).
  unfold Double.div.
  destruct (round_accurate (p / y)) as (q & -> & Hq1 & Hq2).
  { fold c. apply Qle_shift_div_l; [lra |].
    assert (0 <= c * (2 * A - y)) by (apply Qmult_le_0_compat; lra).
    lra. }
  { fold B. apply Qle_shift_div_r; [lra |].
    assert (0 <= B * (2 * y - 1)) by (apply Qmult_le_0_compat; lra).
    lra. }
  exists q. split; [done |].
  apply (four_roundings (inject_Z d) (inject_Z t) x y p q); lra.
Qed.


Local Close Scope Q_scope.

(** What the progress line shows for [d] bytes out of [t]: the decimal
    writing of a number of hundredths [h] that differs from
    [10000 * d / t] by at most a half and one part in [2 ^ 50]. *)
Lemma percent_text_accurate d t :
  0 < d < 2 ^ 1000 -> 0 < t < 2 ^ 1000 ->
  exists h,
    percent_text d t = Double.decimal h +:+ "%"
    /\ 2 ^ 50 * Z.abs (h * t - 10000 * d) <= 2 ^ 49 * t + 10000 * d.
Proof.
  intros Hd Ht.
  destruct (percentage_accurate d t Hd Ht) as ([N D] & Hq & Hlow & Hhigh).
  unfold percent_text. rewrite Hq. unfold Double.format_2f, Double.hundredths.
  cbn [Qnum Qden].
  cbv [Qle Qmult Qplus Qminus Qopp inject_Z Qnum Qden] in Hlow, Hhigh.
  rewrite !Pos2Z.inj_mul in Hlow, Hhigh.
  change (Z.pos (2 ^ 50)) with (2 ^ 50) in Hlow, Hhigh.
  assert (HK : 2 ^ 50 = 2 * 2 ^ 49) by reflexivity.
  assert (HK2 : 0 < 2 ^ 49) by reflexivity.
  rewrite HK in *. set (K := 2 ^ 49) in *.
  assert (HN : 0 < N) by nia.
  replace (N <? 0) with false by (symmetry; apply Z.ltb_ge; lia).
  rewrite Z.abs_eq by lia.
  pose proof (round_half_even_error (N * 100) (Z.pos D) ltac:(lia)) as Hround.
  set (h := round_half_even (N * 100) (Z.pos D)) in *.
  exists h. split; [reflexivity |].
  apply (Z.mul_le_mono_pos_r _ _ (Z.pos D)); [lia |].
  set (P := Z.pos D) in *. assert (0 < P) by (unfold P; lia).
  assert (Hsplit : (h * t - 10000 * d) * P
                   = t * (h * P - N * 100) + 100 * (N * t - 100 * d * P)) by ring.
  assert (H1 : 2 * Z.abs (t * (h * P - N * 100)) <= t * P) by nia.
  assert (H2 : 2 * K * Z.abs (N * t - 100 * d * P) <= 100 * d * P) by nia.
  nia.
Qed.

(** A download that is complete shows [100.00%]. *)
Lemma percent_text_full t : 0 < t < 2 ^ 1000 -> percent_text t t = "100.00%".
Proof.
  intros Ht. destruct (percent_text_accurate t t Ht Ht) as (h & -> & Hh).
  assert (HK : 2 ^ 50 = 2 * 2 ^ 49) by reflexivity.
  assert (HK2 : 10000 < 2 ^ 49) by reflexivity.
  rewrite HK in Hh. set (K := 2 ^ 49) in *.
  assert (h = 10000) as -> by nia.
  reflexivity.
Qed.
(** * The specification *)

(** ** Archive downloads *)

(** C1: when a file of the derived name is already at the destination
    path --- because it was there when [download_file] was called, or
    because an earlier call returned and left [w] --- the call sends no
    request, leaves every file as it is and returns the path at once, so
    a file once written is not overwritten by a later run. *)
Theorem download_file_keeps_existing env url dest_folder w :
  exists_in w (dest_path_of url dest_folder) = true
  \/ (exists env0 w0,
        download_file env0 url dest_folder w0 = (Ok (dest_path_of url dest_folder), w)) ->
  exists w',
    download_file env url dest_folder w = (Ok (dest_path_of url dest_folder), w')
    /\ http_log w' = http_log w
    /\ files w' = files w
    /\ printed_by (download_file env url dest_folder) w =
         [Print ("[INFO] " +:+ filename_of url +:+ " already exists – skipping.")].
Proof.
  intros Hfile.
  assert (Hexists : exists_in w (dest_path_of url dest_folder) = true).
  { destruct Hfile as [Hnow | (env0 & w0 & Hrun)]; [done |].
    by apply download_file_ok_exists in Hrun as [_ Hrun]. }
  apply already_there_of_exists in Hexists.
  exists (skipped url dest_folder w). unfold printed_by.
  rewrite download_file_skip by done.
  repeat split. cbn. by rewrite drop_app_length.
Qed.

Lemma download_file_keeps_existing_witness :
  exists w',
    download_file (Example.serving (Example.ok_response (Some "8") Example.archive))
      Example.url Example.dest Example.with_partial_file
    = (Ok (dest_path_of Example.url Example.dest), w')
    /\ http_log w' = http_log Example.with_partial_file
    /\ files w' = files Example.with_partial_file
    /\ printed_by
         (download_file (Example.serving (Example.ok_response (Some "8") Example.archive))
            Example.url Example.dest) Example.with_partial_file =
         [Print ("[INFO] " +:+ filename_of Example.url +:+ " already exists – skipping.")].
Proof.
  apply (download_file_keeps_existing
           (Example.serving (Example.ok_response (Some "8") Example.archive))
           Example.url Example.dest Example.with_partial_file).
  left. vm_compute. reflexivity.
Defined.

(** C2: when the server answers the request with a status from 400 to
    599, [download_file] raises [HTTPError] and no file is created: the
    files are those that were there before the call. *)
Theorem download_file_error_status_raises env url dest_folder w r :
  already_there w url dest_folder = false ->
  server env url = Responds r ->
  400 <= status_code r < 600 ->
  exists w',
    download_file env url dest_folder w = (Raised (Exn HTTPError (error_text r)), w')
    /\ files w' = files w
    /\ http_log w' = http_log w ++ [url].
Proof.
  intros Hthere Hsrv Hst. exists (requested url dest_folder w).
  rewrite (download_file_error_status _ _ _ _ r); [done.. |].
  unfold is_error_status. apply andb_true_iff. split; lia.
Qed.

Lemma download_file_error_status_raises_witness :
  exists w',
    download_file (Example.serving Example.not_found) Example.url Example.dest empty_world
    = (Raised (Exn HTTPError (error_text Example.not_found)), w')
    /\ files w' = files empty_world
    /\ http_log w' = http_log empty_world ++ [Example.url].
Proof.
  apply (download_file_error_status_raises
           (Example.serving Example.not_found) Example.url Example.dest empty_world
           Example.not_found).
  - vm_compute. reflexivity.
  - reflexivity.
  - cbn. lia.
Defined.

(** ** The process as a whole *)

(** C3 fails in the code: the docstring of [download_file] promises
    [requests.HTTPError] "if the HTTP request fails", and [main] catches
    that class alone, whereas a request that cannot reach its server
    raises [requests.ConnectionError], which is not an [HTTPError].  With
    no server in reach the first archive download raises it, [main] lets
    it through, the eight other archives are never asked for and the
    process ends with status 1, where the loop over the videos, which
    catches [Exception], goes on. *)
Theorem connection_error_ends_the_process :
  (main Example.offline empty_world).1
    = Raised (Exn ConnectionError "Max retries exceeded")
  /\ exit_status Example.offline empty_world = 1
  /\ is_HTTPError (Exn ConnectionError "Max retries exceeded") = false
  /\ http_log (main Example.offline empty_world).2 = take 1 DATASET_URLS
  /\ printed_by (main Example.offline) empty_world =
       [Print YT_DLP_WARNING;
        Print ("[INFO] Downloading dataset archive from "
               +:+ default "" (head DATASET_URLS))].
Proof. repeat split; vm_compute; reflexivity. Qed.

(** ** Progress *)

Lemma printed_by_app {A} (m : M A) w extra :
  console (m w).2 = console w ++ extra -> printed_by m w = extra.
Proof. unfold printed_by. intros ->. by rewrite drop_app_length. Qed.

(** What a download prints once the loop has run to its end. *)
Lemma printed_by_download env url dest_folder w r total :
  already_there w url dest_folder = false ->
  server env url = Responds r ->
  is_error_status (status_code r) = false ->
  header_value r = Some total ->
  can_create w url dest_folder = true ->
  percentages_defined total r = true ->
  printed_by (download_file env url dest_folder) w =
    [Print ("[INFO] Downloading dataset archive from " +:+ url)]
    ++ progress_lines (filename_of url) total 0 (iter_content r CHUNK_SIZE)
    ++ match stream_error r with
       | Some _ => []
       | None =>
           (if total =? 0 then [] else [Newline])
           ++ [Print ("[INFO] Finished downloading " +:+ filename_of url)]
       end.
Proof.
  intros Hthere Hsrv Hst Hval Hopen Hdef. apply printed_by_app.
  rewrite (download_file_transfer _ _ _ _ r total) by done.
  destruct (stream_error r); cbn; rewrite <- ?app_assoc, ?app_nil_r; done.
Qed.

(** What a download prints when a percentage overflows. *)
Lemma printed_by_overflowed env url dest_folder w r total n :
  download_file env url dest_folder w =
    (Raised float_overflow, overflowed url dest_folder r total n w) ->
  printed_by (download_file env url dest_folder) w =
    [Print ("[INFO] Downloading dataset archive from " +:+ url)]
    ++ progress_lines (filename_of url) total 0 (take n (iter_content r CHUNK_SIZE)).
Proof.
  intros Hrun. apply printed_by_app. rewrite Hrun. cbn.
  by rewrite <- app_assoc.
Qed.

Lemma progress_lines_data f total (chunks : list bytes) :
  total <> 0 ->
  progress_lines f total 0 chunks =
    (fun k =>
       Progress f (cumulative (filter (fun c => nonempty c = true) chunks) k) total)
      <$> seq 0 (length (filter (fun c => nonempty c = true) chunks)).
Proof.
  intros Htotal. unfold progress_lines. by apply Z.eqb_neq in Htotal as ->.
Qed.

Lemma in_float_range_defined total r :
  in_float_range total r = true -> percentages_defined total r = true.
Proof. unfold percentages_defined. intros ->. by rewrite orb_true_r. Qed.

Lemma render_progress f d t :
  render (Progress f d t) = CR +:+ "    " +:+ f +:+ ": " +:+ percent_text d t.
Proof. reflexivity. Qed.

(** C4 does not hold for every length a response may report, nor for
    every chunk.  The first header below announces [10 ^ 309] bytes,
    which is an integer and not a double: the first chunk is written to
    the file, the percentage that follows it raises [OverflowError], and
    no percentage is printed although the response reports a total
    length.  The second response reports 12 bytes and delivers them as
    three chunks, of which the second is empty: [if not chunk: continue]
    passes it over, and two percentages are printed for three chunks. *)
Lemma huge_length_stops_progress :
  let r := Example.chunked_response (Some Example.huge_length)
             [Example.archive; Example.clip] in
  let run := download_file (Example.serving r) Example.url Example.dest empty_world in
  let r' := Example.chunked_response (Some "12")
              [Example.archive; []; Example.clip] in
  (header_value r = Some (10 ^ 309)
   /\ run.1 = Raised float_overflow
   /\ printed_by (download_file (Example.serving r) Example.url Example.dest)
        empty_world
      = [Print ("[INFO] Downloading dataset archive from " +:+ Example.url)]
   /\ files run.2 !! Example.path = Some Example.archive)
  /\ (header_value r' = Some 12
      /\ length (iter_content r' CHUNK_SIZE) = 3%nat
      /\ printed_by (download_file (Example.serving r') Example.url Example.dest)
           empty_world
         = [Print ("[INFO] Downloading dataset archive from " +:+ Example.url);
            Progress "File Name.zip" 8 12;
            Progress "File Name.zip" 12 12;
            Newline;
            Print "[INFO] Finished downloading File Name.zip"]).
Proof. repeat split; vm_compute; reflexivity. Qed.

(** C4, amended: when the download takes place (nothing at the
    destination path, a directory that can be made and a file that can be
    created in it) and the response reports a total length that [float]
    converts, as it does the length of the body, one progress line is
    written after each chunk that carries data, with the bytes received
    so far and the total.  The percentage it shows is the decimal writing
    of a number of hundredths within a half, and one part in [2 ^ 50], of
    the bytes received divided by the total, times 100.  A body of 1000
    bytes announced by [Content-Length: 1000] and delivered as one chunk
    makes the console show [100.00%] once.  Without a length header no
    percentage is written. *)
Theorem progress_after_each_chunk env url dest_folder w r total :
  already_there w url dest_folder = false ->
  server env url = Responds r ->
  is_error_status (status_code r) = false ->
  header_value r = Some total ->
  can_make w dest_folder = true ->
  can_create w url dest_folder = true ->
  let chunks := iter_content r CHUNK_SIZE in
  let data := filter (fun c => nonempty c = true) chunks in
  let shown := printed_by (download_file env url dest_folder) w in
  let closing :=
    match stream_error r with
    | Some _ => []
    | None =>
        (if total =? 0 then [] else [Newline])
        ++ [Print ("[INFO] Finished downloading " +:+ filename_of url)]
    end in
  (total <> 0 -> in_float_range total r = true ->
     shown =
       [Print ("[INFO] Downloading dataset archive from " +:+ url)]
       ++ ((fun k => Progress (filename_of url) (cumulative data k) total)
             <$> seq 0 (length data))
       ++ closing)
  /\ (forall downloaded,
        0 < downloaded < 2 ^ 1000 -> 0 < total < 2 ^ 1000 ->
        exists h,
          render (Progress (filename_of url) downloaded total)
          = CR +:+ "    " +:+ filename_of url +:+ ": " +:+ Double.decimal h +:+ "%"
          /\ 2 ^ 50 * Z.abs (h * total - 10000 * downloaded)
             <= 2 ^ 49 * total + 10000 * downloaded)
  /\ (content_length r = Some "1000" ->
      (exists c, chunks = [c] /\ length c = 1000%nat) ->
      stream_error r = None ->
        shown =
          [Print ("[INFO] Downloading dataset archive from " +:+ url);
           Progress (filename_of url) 1000 1000;
           Newline;
           Print ("[INFO] Finished downloading " +:+ filename_of url)]
        /\ render (Progress (filename_of url) 1000 1000)
           = CR +:+ "    " +:+ filename_of url +:+ ": " +:+ "100.00%")
  /\ (content_length r = None ->
        shown =
          [Print ("[INFO] Downloading dataset archive from " +:+ url)] ++ closing
        /\ forall e, e ∈ shown -> is_progress e = false).
Proof.
  intros Hthere Hsrv Hst Hval _ Hopen chunks data shown closing.
  assert (Hshown : percentages_defined total r = true ->
    shown = [Print ("[INFO] Downloading dataset archive from " +:+ url)]
            ++ progress_lines (filename_of url) total 0 chunks ++ closing).
  { intros Hdef. by apply printed_by_download. }
  split; [| split; [| split]].
  - intros Htotal Hrange.
    rewrite Hshown by by apply in_float_range_defined.
    by rewrite progress_lines_data.
  - intros d Hd Ht. rewrite render_progress.
    destruct (percent_text_accurate d total Hd Ht) as (h & -> & Hh).
    by exists h.
  - intros Hcl (c & Hchunks & Hlen) Hend.
    assert (Htotal : total = 1000).
    { unfold header_value in Hval. rewrite Hcl in Hval.
      vm_compute in Hval. by injection Hval as <-. }
    subst total. split; [| reflexivity].
    assert (Hbody : length (body r) = 1000%nat).
    { unfold body. fold chunks. rewrite Hchunks. cbn. by rewrite app_nil_r. }
    rewrite Hshown.
    + rewrite Hchunks. unfold closing. rewrite Hend.
      rewrite progress_lines_cons by (by destruct c).
      rewrite progress_lines_nil, Hlen. reflexivity.
    + apply in_float_range_defined. unfold in_float_range. by rewrite Hbody.
  - intros Hcl. unfold header_value in Hval. rewrite Hcl in Hval.
    injection Hval as <-. rewrite Hshown by done.
    rewrite progress_lines_zero. cbn [app]. split; [done |].
    intros e [-> | He]%elem_of_cons; [done |].
    unfold closing in He. destruct (stream_error r).
    + by apply elem_of_nil in He.
    + cbn in He. by apply list_elem_of_singleton in He as ->.
Qed.

Lemma progress_after_each_chunk_witness :
  printed_by
    (download_file (Example.serving (Example.ok_response (Some "1000") Example.kilobyte))
       Example.url Example.dest) empty_world =
    [Print ("[INFO] Downloading dataset archive from " +:+ Example.url);
     Progress (filename_of Example.url) 1000 1000;
     Newline;
     Print ("[INFO] Finished downloading " +:+ filename_of Example.url)].
Proof.
  assert (Hthere : already_there empty_world Example.url Example.dest = false)
    by (vm_compute; reflexivity).
  assert (Hval : header_value (Example.ok_response (Some "1000") Example.kilobyte)
                 = Some 1000) by (vm_compute; reflexivity).
  assert (Hmake : can_make empty_world Example.dest = true)
    by (vm_compute; reflexivity).
  assert (Hopen : can_create empty_world Example.url Example.dest = true)
    by (vm_compute; reflexivity).
  destruct (progress_after_each_chunk
              (Example.serving (Example.ok_response (Some "1000") Example.kilobyte))
              Example.url Example.dest empty_world
              (Example.ok_response (Some "1000") Example.kilobyte) 1000
              Hthere eq_refl eq_refl Hval Hmake Hopen) as (_ & _ & Hkilo & _).
  apply Hkilo; [reflexivity | | reflexivity].
  exists Example.kilobyte. split; vm_compute; reflexivity.
Defined.

(** ** The file on disk *)

(** C5 does not hold for every response with a success status.  Each of
    the four runs below starts with nothing at the destination path and
    is answered with status 200; none of them returns, and none leaves
    the whole body on disk.  A doubled length header makes [int] raise
    before the file is opened; a length that is no double makes the
    percentage raise once the first of two chunks is written; a stream
    that breaks leaves the 8192 bytes received of the 8200 announced; and
    a name that decodes to a path in a directory that is not there makes
    [open] raise. *)
Lemma success_status_without_the_body :
  let doubled := Example.ok_response (Some "8, 8") Example.archive in
  let huge := Example.chunked_response (Some Example.huge_length)
                [Example.archive; Example.clip] in
  let run r url := download_file (Example.serving r) url Example.dest empty_world in
  (status_code doubled = 200
   /\ (exists message, (run doubled Example.url).1 = Raised (Exn ValueError message))
   /\ files (run doubled Example.url).2 = ∅)
  /\ (status_code huge = 200
      /\ (run huge Example.url).1 = Raised float_overflow
      /\ files (run huge Example.url).2 !! Example.path = Some Example.archive
      /\ body huge = Example.archive ++ Example.clip)
  /\ (status_code Example.broken_response = 200
      /\ (run Example.broken_response Example.url).1
         = Raised (Exn ChunkedEncodingError "Connection broken")
      /\ header_value Example.broken_response = Some 8200
      /\ files (run Example.broken_response Example.url).2 !! Example.path
         = Some Example.partial
      /\ Z.of_nat (length Example.partial) = 8192)
  /\ (dest_path_of escaping_url Example.dest = "/tmp/x.zip"
      /\ (run (Example.ok_response (Some "8") Example.archive) escaping_url).1
         = Raised (Exn FileNotFoundError
                     "[Errno 2] No such file or directory: '/tmp/x.zip'")
      /\ files (run (Example.ok_response (Some "8") Example.archive) escaping_url).2
         = ∅).
Proof.
  repeat split; try (vm_compute; reflexivity).
  eexists. vm_compute. reflexivity.
Qed.

(** The file once it is opened and the loop has run: what was at the
    path before is gone. *)
Lemma open_then_write f p total (chunks : list bytes) w :
  open_error w p = None ->
  total = 0 \/ concat chunks = []
  \/ (Double.fits total = true
      /\ Double.fits (Z.of_nat (length (concat chunks))) = true) ->
  files ((open_wb p ;; write_chunks f p total chunks 0) w).2
  = <[p := concat chunks]> (files w).
Proof.
  intros Hopen Hdef. unfold mbind, M_bind, bind, open_wb. rewrite Hopen.
  destruct (write_chunks_cases f p total chunks 0
              (with_files (<[p := []]> (files w)) w) [])
    as [[-> _] | (n & _ & Hne & Hdata & Hbad)];
    [apply lookup_insert_eq | done | |].
  - cbn. by rewrite insert_insert_eq.
  - destruct Hdef as [? | [? | ?]]; done.
Qed.

(** C5, amended: when the status is a success, the length header is
    absent or an integer, no percentage overflows, the stream ends
    without an exception, nothing is at the destination path, the
    destination directory can be made and [open] can create the file in
    it, [download_file] returns the path and the
    file holds the body, byte for byte, whatever the length header says.
    The body is what [iter_content], asked for 8 KiB at a time, yields,
    chunk after chunk in the order received; and [open] followed by the
    loop leaves that body at the path whatever was there before, so that
    a file is written from byte zero and never appended to. *)
Theorem download_file_writes_body env url dest_folder w r total :
  already_there w url dest_folder = false ->
  server env url = Responds r ->
  is_error_status (status_code r) = false ->
  header_value r = Some total ->
  percentages_defined total r = true ->
  stream_error r = None ->
  can_make w dest_folder = true ->
  can_create w url dest_folder = true ->
  let p := dest_path_of url dest_folder in
  let chunks := iter_content r (8 * 1024) in
  exists w',
    download_file env url dest_folder w = (Ok p, w')
    /\ files w' = <[p := body r]> (files w)
    /\ body r = concat chunks
    /\ forall w0,
         open_error w0 p = None ->
         files ((open_wb p ;; write_chunks (filename_of url) p total chunks 0) w0).2
         = <[p := body r]> (files w0).
Proof.
  intros Hthere Hsrv Hst Hval Hdef Hend _ Hopen p chunks.
  exists (finished url dest_folder r total w).
  rewrite (download_file_transfer _ _ _ _ r total), Hend by done.
  repeat split. intros w0 Hw0.
  apply open_then_write; [done |].
  by apply percentages_defined_spec.
Qed.

Lemma download_file_writes_body_witness :
  exists w',
    download_file (Example.serving (Example.ok_response None Example.archive))
      Example.url Example.dest empty_world = (Ok Example.path, w')
    /\ files w' !! Example.path = Some Example.archive.
Proof.
  destruct (download_file_writes_body
              (Example.serving (Example.ok_response None Example.archive))
              Example.url Example.dest empty_world
              (Example.ok_response None Example.archive) 0)
    as (w' & Hrun & Hfiles & _).
  - vm_compute. reflexivity.
  - reflexivity.
  - reflexivity.
  - reflexivity.
  - reflexivity.
  - reflexivity.
  - vm_compute. reflexivity.
  - vm_compute. reflexivity.
  - exists w'. split; [exact Hrun |].
    rewrite Hfiles. vm_compute. reflexivity.
Defined.

(** ** The name of the file *)



(** ** Video downloads *)

(** C7: when [yt_dlp] cannot be imported, [download_videos], given a list
    of URLs that is not empty, writes the warning and returns: nothing is
    raised, [yt_dlp] is not run on any URL and no file is created. *)
Theorem download_videos_without_yt_dlp env urls dest_folder w :
  urls <> [] ->
  yt_dlp_installed env = false ->
  download_videos env urls dest_folder w =
    (Ok tt, with_console (console w ++ [Print YT_DLP_WARNING]) w)
  /\ ydl_log (download_videos env urls dest_folder w).2 = ydl_log w
  /\ http_log (download_videos env urls dest_folder w).2 = http_log w
  /\ files (download_videos env urls dest_folder w).2 = files w.
Proof.
  intros _ Hinst. by rewrite download_videos_missing.
Qed.

Lemma download_videos_without_yt_dlp_witness :
  download_videos Example.offline VIDEO_URLS "downloaded_videos" empty_world =
    (Ok tt, with_console (console empty_world ++ [Print YT_DLP_WARNING]) empty_world)
  /\ ydl_log (download_videos Example.offline VIDEO_URLS "downloaded_videos" empty_world).2
     = ydl_log empty_world
  /\ http_log (download_videos Example.offline VIDEO_URLS "downloaded_videos" empty_world).2
     = http_log empty_world
  /\ files (download_videos Example.offline VIDEO_URLS "downloaded_videos" empty_world).2
     = files empty_world.
Proof.
  apply (download_videos_without_yt_dlp Example.offline VIDEO_URLS
           "downloaded_videos" empty_world).
  - discriminate.
  - reflexivity.
Defined.

(** C8: [download_videos] returns to its caller without raising, whatever
    exceptions the URLs raise; with [yt_dlp] installed it hands every URL
    of the list to [yt_dlp], in order, an exception being followed by its
    error line and by the next URL, and the files of every URL are
    written. *)
Theorem download_videos_isolates_failures env urls dest_folder w :
  let opts := ydl_opts_for dest_folder in
  let w' := (download_videos env urls dest_folder w).2 in
  (download_videos env urls dest_folder w).1 = Ok tt
  /\ (yt_dlp_installed env = true ->
      ydl_log w' = ydl_log w ++ urls
      /\ printed_by (download_videos env urls dest_folder) w
         = concat (video_lines env opts <$> urls)
      /\ files w' =
           foldl (fun fs url =>
                    write_outputs (ydl_outputs (ydl_download env opts url)) fs)
                 (files w) urls).
Proof.
  intros opts w'. split; [apply download_videos_returns |].
  intros Hinst. unfold w'.
  split; [| split].
  - rewrite download_videos_installed by done. cbn [snd].
    by rewrite video_batch_ydl_log.
  - apply printed_by_app.
    rewrite download_videos_installed by done. cbn [snd].
    by rewrite video_batch_console.
  - rewrite download_videos_installed by done. cbn [snd].
    by rewrite video_batch_files.
Qed.

(** Two pages, the first of which makes [yt_dlp] raise: the video of the
    second is saved all the same. *)
Lemma download_videos_isolates_failures_witness :
  (download_videos Example.flaky ["first"; "second"] "videos" empty_world).1 = Ok tt
  /\ ydl_log (download_videos Example.flaky ["first"; "second"] "videos" empty_world).2
     = ["first"; "second"]
  /\ files (download_videos Example.flaky ["first"; "second"] "videos" empty_world).2
     !! "videos/second.mp4" = Some Example.clip.
Proof.
  destruct (download_videos_isolates_failures Example.flaky ["first"; "second"]
              "videos" empty_world) as (Hret & Hbatch).
  destruct (Hbatch eq_refl) as (Hlog & _ & Hfiles).
  split; [exact Hret |]. split; [exact Hlog |].
  rewrite Hfiles. vm_compute. reflexivity.
Defined.


(** ** A length of zero *)

Lemma header_value_zero r :
  header_value r = Some 0 <->
  content_length r = None
  \/ exists text, content_length r = Some text /\ PyInt.parse text = Some 0.
Proof.
  unfold header_value. destruct (content_length r) as [text|].
  - split; [intros Hparse; right; eauto |].
    intros [Habs | (text' & [= <-] & Hparse)]; done.
  - split; [by left | done].
Qed.

Lemma elem_of_progress_lines e f total start chunks :
  e ∈ progress_lines f total start chunks -> is_progress e = true /\ total <> 0.
Proof.
  unfold progress_lines. destruct (total =? 0) eqn:Htotal.
  - by intros ?%elem_of_nil.
  - intros (k & -> & _)%list_elem_of_fmap. split; [done |]. by apply Z.eqb_neq.
Qed.

Lemma progress_lines_no_data f total start chunks :
  concat chunks = [] -> progress_lines f total start chunks = [].
Proof.
  induction chunks as [|c cs IH]; intros Hnone; [apply progress_lines_nil |].
  rewrite concat_cons in Hnone. apply app_eq_nil in Hnone as [-> Hcs].
  rewrite progress_lines_empty_chunk. by apply IH.
Qed.

Lemma progress_lines_some f total (chunks : list bytes) : forall start,
  total <> 0 -> concat chunks <> [] ->
  exists e, e ∈ progress_lines f total start chunks.
Proof.
  induction chunks as [|c cs IH]; intros start Htotal Hdata; [done |].
  destruct c as [|b c].
  - rewrite progress_lines_empty_chunk. by apply IH.
  - rewrite progress_lines_cons by done.
    apply Z.eqb_neq in Htotal as ->. eexists. apply list_elem_of_here.
Qed.

(** Whether a progress line is among the lines of a download whose loop
    runs to its end *)
Lemma progress_shown f total (chunks : list bytes) first closing :
  is_progress first = false ->
  (forall e, e ∈ closing -> is_progress e = false) ->
  (exists e, e ∈ [first] ++ progress_lines f total 0 chunks ++ closing
             /\ is_progress e = true)
  <-> total <> 0 /\ concat chunks <> [].
Proof.
  intros Hfirst Hclosing. split.
  - intros (e & He & Hprog). rewrite !elem_of_app in He.
    destruct He as [He%list_elem_of_singleton | [He | He]].
    + congruence.
    + destruct (elem_of_progress_lines _ _ _ _ _ He) as [_ Htotal].
      split; [done |]. intros Hnone.
      rewrite progress_lines_no_data in He by done. by apply elem_of_nil in He.
    + apply Hclosing in He. congruence.
  - intros [Htotal Hdata].
    destruct (progress_lines_some f total chunks 0 Htotal Hdata) as [e He].
    exists e. split.
    + rewrite !elem_of_app. right. by left.
    + by apply elem_of_progress_lines in He as [? _].
Qed.

(** C9: in a download that takes place (nothing at the destination
    path, a directory that can be made and a file that can be created in
    it, a stream that ends without an exception), when the length header
    is absent, or its value is the integer 0, the total counts as
    unreported: [download_file] returns, the console
    shows neither a percentage nor the closing newline, and the body is
    written to the file all the same.  The branch of the percentage is
    taken --- a percentage is written, or its computation raises
    [OverflowError] --- if and only if the parsed length is not zero and
    the body is not empty; the closing newline is written if and only if
    the parsed length is not zero and no percentage has overflowed.  When
    the length and the size of the body are in the range of [float], the
    body is on disk, and the percentages and the newline are written if
    and only if the length is not zero. *)
Theorem zero_length_is_unreported env url dest_folder w r total :
  already_there w url dest_folder = false ->
  server env url = Responds r ->
  is_error_status (status_code r) = false ->
  stream_error r = None ->
  header_value r = Some total ->
  can_make w dest_folder = true ->
  can_create w url dest_folder = true ->
  let shown := printed_by (download_file env url dest_folder) w in
  let run := download_file env url dest_folder w in
  let p := dest_path_of url dest_folder in
  (total = 0 <->
     content_length r = None
     \/ exists text, content_length r = Some text /\ PyInt.parse text = Some 0)
  /\ (total = 0 ->
        run.1 = Ok p
        /\ shown =
             [Print ("[INFO] Downloading dataset archive from " +:+ url);
              Print ("[INFO] Finished downloading " +:+ filename_of url)]
        /\ files run.2 !! p = Some (body r))
  /\ ((exists e, e ∈ shown /\ is_progress e = true) \/ run.1 = Raised float_overflow
      <-> total <> 0 /\ body r <> [])
  /\ (Newline ∈ shown <-> total <> 0 /\ percentages_defined total r = true)
  /\ (in_float_range total r = true ->
        files run.2 !! p = Some (body r)
        /\ ((exists e, e ∈ shown /\ is_progress e = true)
            <-> total <> 0 /\ body r <> [])
        /\ (Newline ∈ shown <-> total <> 0)).
Proof.
  intros Hthere Hsrv Hst Hend Hval _ Hopen shown run p.
  assert (Hdone : percentages_defined total r = true ->
    run = (Ok p, finished url dest_folder r total w)
    /\ shown =
         [Print ("[INFO] Downloading dataset archive from " +:+ url)]
         ++ progress_lines (filename_of url) total 0 (iter_content r CHUNK_SIZE)
         ++ (if total =? 0 then [] else [Newline])
         ++ [Print ("[INFO] Finished downloading " +:+ filename_of url)]).
  { intros Hdef. split.
    - unfold run. by rewrite (download_file_transfer _ _ _ _ r total), Hend.
    - unfold shown.
      rewrite (printed_by_download env url dest_folder w r total) by done.
      by rewrite Hend. }
  assert (Hclosing : forall e,
    e ∈ (if total =? 0 then [] else [Newline])
        ++ [Print ("[INFO] Finished downloading " +:+ filename_of url)] ->
    is_progress e = false).
  { intros e [He | He%list_elem_of_singleton]%elem_of_app; [| by subst].
    destruct (total =? 0); [by apply elem_of_nil in He |].
    by apply list_elem_of_singleton in He as ->. }
  assert (Hnewline : percentages_defined total r = true ->
    Newline ∈ shown <-> total <> 0).
  { intros Hdef. destruct (Hdone Hdef) as [_ ->].
    rewrite !elem_of_app, !list_elem_of_singleton. split.
    - intros [? | [Hnl | [Hnl | ?]]]; try done.
      + by apply elem_of_progress_lines in Hnl as [? _].
      + destruct (total =? 0) eqn:Htotal; [by apply elem_of_nil in Hnl |].
        by apply Z.eqb_neq.
    - intros Htotal%Z.eqb_neq. rewrite Htotal. right; right; left.
      by apply list_elem_of_singleton. }
  assert (Hprogress : percentages_defined total r = true ->
    (exists e, e ∈ shown /\ is_progress e = true) <-> total <> 0 /\ body r <> []).
  { intros Hdef. destruct (Hdone Hdef) as [_ ->]. by apply progress_shown. }
  split; [| split; [| split; [| split]]].
  - rewrite <- header_value_zero, Hval. split; congruence.
  - intros ->. destruct (Hdone eq_refl) as [Hrun ->].
    rewrite Hrun. repeat split. cbn. apply lookup_insert_eq.
  - destruct (percentages_defined total r) eqn:Hdef.
    + rewrite <- (Hprogress eq_refl). destruct (Hdone eq_refl) as [-> _].
      split; [intros [? | ?]; done | by left].
    + destruct (download_file_overflow env url dest_folder w r total)
        as [n Hrun]; try done.
      fold run in Hrun. rewrite Hrun. split; [| by right].
      intros _. apply not_true_iff_false in Hdef.
      rewrite percentages_defined_spec in Hdef. split.
      * intros ->. apply Hdef. by left.
      * intros Hnone. apply Hdef. right. by left.
  - destruct (percentages_defined total r) eqn:Hdef.
    + rewrite (Hnewline eq_refl). tauto.
    + destruct (download_file_overflow env url dest_folder w r total)
        as [n Hrun]; try done.
      unfold shown. rewrite (printed_by_overflowed _ _ _ _ r total n Hrun).
      split; [| by intros [_ ?]].
      intros [Hnl%list_elem_of_singleton | Hnl]%elem_of_app; [done |].
      by apply elem_of_progress_lines in Hnl as [? _].
  - intros Hrange. apply in_float_range_defined in Hrange as Hdef.
    split; [| split; [by apply Hprogress | by apply Hnewline]].
    destruct (Hdone Hdef) as [-> _]. cbn. apply lookup_insert_eq.
Qed.

Lemma zero_length_is_unreported_witness :
  printed_by
    (download_file (Example.serving (Example.ok_response (Some "0") Example.archive))
       Example.url Example.dest) empty_world =
    [Print ("[INFO] Downloading dataset archive from " +:+ Example.url);
     Print ("[INFO] Finished downloading " +:+ filename_of Example.url)]
  /\ files (download_file
              (Example.serving (Example.ok_response (Some "0") Example.archive))
              Example.url Example.dest empty_world).2
     !! dest_path_of Example.url Example.dest = Some Example.archive.
Proof.
  assert (Hthere : already_there empty_world Example.url Example.dest = false)
    by (vm_compute; reflexivity).
  assert (Hval : header_value (Example.ok_response (Some "0") Example.archive)
                 = Some 0) by (vm_compute; reflexivity).
  assert (Hmake : can_make empty_world Example.dest = true)
    by (vm_compute; reflexivity).
  assert (Hopen : can_create empty_world Example.url Example.dest = true)
    by (vm_compute; reflexivity).
  destruct (zero_length_is_unreported
              (Example.serving (Example.ok_response (Some "0") Example.archive))
              Example.url Example.dest empty_world
              (Example.ok_response (Some "0") Example.archive) 0
              Hthere eq_refl eq_refl eq_refl Hval Hmake Hopen) as (_ & Hzero & _).
  destruct (Hzero eq_refl) as (_ & Hshown & Hfile).
  split; [exact Hshown |].
  rewrite Hfile. vm_compute. reflexivity.
Defined.

(** ** The file system when [yt_dlp] is missing *)

(** C10: when [yt_dlp] cannot be imported, [download_videos] leaves the
    files and the directories as they were; the destination directory in
    particular is not created, since it is made only once the import has
    succeeded. *)
Theorem missing_yt_dlp_leaves_filesystem env urls dest_folder w :
  yt_dlp_installed env = false ->
  let w' := (download_videos env urls dest_folder w).2 in
  files w' = files w
  /\ dirs w' = dirs w
  /\ (dest_folder ∉ dirs w -> dest_folder ∉ dirs w')
  /\ forall env',
       yt_dlp_installed env' = true ->
       dest_folder ∈ dirs (download_videos env' urls dest_folder w).2.
Proof.
  intros Hinst w'. unfold w'. rewrite download_videos_missing by done.
  repeat split; [done |].
  intros env' Hinst'. rewrite download_videos_installed by done.
  cbn [snd]. rewrite video_batch_dirs. cbn. apply elem_of_union. left.
  apply elem_of_union. left. by apply elem_of_singleton.
Qed.

Lemma missing_yt_dlp_leaves_filesystem_witness :
  "downloaded_videos" ∉
    dirs (download_videos Example.offline VIDEO_URLS "downloaded_videos" empty_world).2.
Proof.
  destruct (missing_yt_dlp_leaves_filesystem Example.offline VIDEO_URLS
              "downloaded_videos" empty_world eq_refl) as (_ & _ & Hdir & _).
  apply Hdir. cbn. apply not_elem_of_empty.
Defined.

(** * Further properties of the script *)

(** ** Every outcome of [download_file] *)

Lemma elem_of_prefixes d s : forall pre,
  d ∈ Url.prefixes pre s ->
  exists a b, s = a +:+ String "/" b /\ d = pre +:+ a.
Proof.
  induction s as [|c r IH]; intros pre Hd; [by apply elem_of_nil in Hd |].
  cbn [Url.prefixes] in Hd. apply elem_of_app in Hd as [Hd | Hd].
  - unfold Url.is_slash in Hd. destruct (Ascii.eqb c "/") eqn:Hc.
    + apply Ascii.eqb_eq in Hc as ->. apply list_elem_of_singleton in Hd as ->.
      exists "", r. by rewrite append_empty, append_empty_r.
    + by apply elem_of_nil in Hd.
  - destruct (IH _ Hd) as (a & b & -> & ->). exists (String c a), b.
    by rewrite append_assoc.
Qed.

(** The directories [os.makedirs] makes are the one it is asked for and
    those above it. *)
Lemma elem_of_made_dirs d path :
  d ∈ made_dirs path ->
  d = path \/ exists below, path = d +:+ "/" +:+ below.
Proof.
  unfold made_dirs. intros [Hd | Hd]%elem_of_union.
  - left. by apply elem_of_singleton in Hd.
  - right. apply elem_of_list_to_set in Hd. unfold Url.parents in Hd.
    apply list_elem_of_filter in Hd as [_ Hd].
    destruct (elem_of_prefixes d path "" Hd) as (a & b & -> & ->).
    exists b. by rewrite append_empty.
Qed.

Lemma download_file_dirs env url dest_folder w :
  dirs (download_file env url dest_folder w).2 = made_dirs dest_folder ∪ dirs w.
Proof.
  destruct (download_file_cases env url dest_folder w)
    as [[_ ->] | [(_ & _ & e & ->) | [(_ & r & total & n & Hrun)
       | (_ & r & total & _ & _ & _ & _ & _ & ->)]]];
    [done | done | |].
  - destruct Hrun as (_ & _ & _ & _ & _ & ->). done.
  - by destruct (stream_error r).
Qed.

Lemma download_file_http_log env url dest_folder w :
  http_log (download_file env url dest_folder w).2 =
    if already_there w url dest_folder then http_log w else http_log w ++ [url].
Proof.
  destruct (download_file_cases env url dest_folder w)
    as [[-> ->] | [(-> & _ & e & ->) | [(-> & r & total & n & Hrun)
       | (-> & r & total & _ & _ & _ & _ & _ & ->)]]];
    [done | done | |].
  - destruct Hrun as (_ & _ & _ & _ & _ & ->). done.
  - by destruct (stream_error r).
Qed.

(** X1: whatever the outcome --- skip, error or success ---
    [download_file] has made the destination directory, when it can be
    made; the directories
    it makes are that one and those above it, each a part of its path
    that a slash follows. *)
Theorem download_file_makes_directory env url dest_folder w :
  can_make w dest_folder = true ->
  let after := dirs (download_file env url dest_folder w).2 in
  dest_folder ∈ after
  /\ dirs w ⊆ after
  /\ forall d, d ∈ after -> d ∉ dirs w ->
       d = dest_folder \/ exists below, dest_folder = d +:+ "/" +:+ below.
Proof.
  intros _ after. unfold after. rewrite download_file_dirs.
  split; [| split].
  - apply elem_of_union. left. apply elem_of_union. left. by apply elem_of_singleton.
  - apply union_subseteq_r.
  - intros d [Hd | Hd]%elem_of_union Hnew; [| done]. by apply elem_of_made_dirs.
Qed.

Lemma download_file_makes_directory_witness :
  Example.dest ∈ dirs (download_file Example.offline Example.url Example.dest
                         empty_world).2.
Proof.
  destruct (download_file_makes_directory Example.offline Example.url
              Example.dest empty_world) as [Hmade _].
  - vm_compute. reflexivity.
  - exact Hmade.
Defined.

(** X2: whatever the outcome, [download_file] leaves every file other
    than the one at the destination path as it was. *)
Theorem download_file_touches_one_file env url dest_folder w q :
  q <> dest_path_of url dest_folder ->
  files (download_file env url dest_folder w).2 !! q = files w !! q.
Proof.
  intros Hq.
  destruct (download_file_cases env url dest_folder w)
    as [[_ ->] | [(_ & _ & e & ->) | [(_ & r & total & n & Hrun)
       | (_ & r & total & _ & _ & _ & _ & _ & ->)]]];
    [done | done | |].
  - destruct Hrun as (_ & _ & _ & _ & _ & ->). cbn. by rewrite lookup_insert_ne.
  - destruct (stream_error r); cbn; by rewrite lookup_insert_ne.
Qed.

Lemma download_file_touches_one_file_witness :
  files (download_file
           (Example.serving (Example.ok_response None Example.archive))
           "https://host/other.zip" Example.dest Example.with_partial_file).2
    !! Example.path
  = files Example.with_partial_file !! Example.path.
Proof.
  apply (download_file_touches_one_file
           (Example.serving (Example.ok_response None Example.archive))
           "https://host/other.zip" Example.dest Example.with_partial_file
           Example.path).
  vm_compute. discriminate.
Defined.

(** X3: [download_file] sends one request when nothing is at the
    destination path and none when something is, whatever the outcome. *)
Theorem download_file_requests_at_most_once env url dest_folder w :
  http_log (download_file env url dest_folder w).2 =
    if already_there w url dest_folder then http_log w else http_log w ++ [url].
Proof. apply download_file_http_log. Qed.

(** X4: with a destination directory that can be made, [download_file]
    returns the destination path exactly when something is already at
    that path, or the file can be created there
    and the download completes: a status outside 400 to 599, a length
    header that is absent or an integer, percentages that do not
    overflow and a stream that ends without an exception.  In every
    other case it raises. *)
Theorem download_file_returns_iff env url dest_folder w :
  can_make w dest_folder = true ->
  (download_file env url dest_folder w).1 = Ok (dest_path_of url dest_folder)
  <-> already_there w url dest_folder = true
      \/ (completes (server env url) = true
          /\ can_create w url dest_folder = true).
Proof.
  intros _.
  destruct (download_file_cases env url dest_folder w)
    as [[Hthere ->] | [(Hthere & Hnot & e & ->)
       | [(Hthere & r & total & n & Hsrv & Hst & Hval & Hopen & Hdef & ->)
       | (Hthere & r & total & Hsrv & Hst & Hval & Hopen & Hdef & ->)]]].
  - split; [by left | done].
  - split; [done |]. intros [Hyes | [Hok Hopen]]; [congruence |].
    exfalso. apply Hnot. destruct (server env url) as [r|]; [| done].
    cbn in Hok. apply andb_true_iff in Hok as [[Hst Hval]%andb_true_iff _].
    exists r. split; [done |]. split; [by apply negb_true_iff |].
    split; [| done]. destruct (header_value r); [by eexists | done].
  - split; [done |]. intros [Hyes | [Hok _]]; [congruence |].
    rewrite Hsrv in Hok. cbn in Hok. rewrite Hst, Hval, Hdef in Hok. done.
  - rewrite Hthere, Hsrv, Hopen. unfold completes. rewrite Hst, Hval, Hdef.
    destruct (stream_error r) as [e|]; cbn.
    + split; [done |]. intros [? | [? _]]; done.
    + split; [by right | done].
Qed.

Lemma download_file_returns_iff_witness :
  (download_file (Example.serving (Example.ok_response (Some "8") Example.archive))
     Example.url Example.dest empty_world).1 = Ok Example.path.
Proof.
  apply (download_file_returns_iff
           (Example.serving (Example.ok_response (Some "8") Example.archive))
           Example.url Example.dest empty_world).
  - vm_compute. reflexivity.
  - right. split; vm_compute; reflexivity.
Defined.

(** X5: when the request itself fails (no connection, time-out), the
    exception of [requests.get] reaches the caller as it is; no file is
    created and the console shows the line that announces the download
    and nothing after it. *)
Theorem download_file_request_failure env url dest_folder w e :
  already_there w url dest_folder = false ->
  server env url = Fails e ->
  (download_file env url dest_folder w).1 = Raised e
  /\ files (download_file env url dest_folder w).2 = files w
  /\ printed_by (download_file env url dest_folder) w =
       [Print ("[INFO] Downloading dataset archive from " +:+ url)].
Proof.
  intros Hthere Hsrv. rewrite (download_file_get_fails _ _ _ _ e) by done.
  repeat split. apply printed_by_app.
  by rewrite (download_file_get_fails _ _ _ _ e).
Qed.

Lemma download_file_request_failure_witness :
  (download_file Example.offline Example.url Example.dest empty_world).1
  = Raised (Exn ConnectionError "Max retries exceeded")
  /\ files (download_file Example.offline Example.url Example.dest empty_world).2
     = files empty_world
  /\ printed_by (download_file Example.offline Example.url Example.dest) empty_world =
       [Print ("[INFO] Downloading dataset archive from " +:+ Example.url)].
Proof.
  apply (download_file_request_failure Example.offline Example.url Example.dest
           empty_world (Exn ConnectionError "Max retries exceeded")).
  - vm_compute. reflexivity.
  - reflexivity.
Defined.

(** X6: a response with a success status whose [Content-Length] is not
    an integer makes [download_file] raise [ValueError] before the file
    is opened: the request was sent, yet no file is created. *)
Theorem download_file_malformed_length env url dest_folder w r text :
  already_there w url dest_folder = false ->
  server env url = Responds r ->
  is_error_status (status_code r) = false ->
  content_length r = Some text ->
  PyInt.parse text = None ->
  (exists message,
     (download_file env url dest_folder w).1 = Raised (Exn ValueError message))
  /\ files (download_file env url dest_folder w).2 = files w
  /\ http_log (download_file env url dest_folder w).2 = http_log w ++ [url].
Proof.
  intros Hthere Hsrv Hst Hcl Hparse.
  rewrite (download_file_bad_header _ _ _ _ r text) by done.
  split; [by eexists | done].
Qed.

Lemma download_file_malformed_length_witness :
  (exists message,
     (download_file
        (Example.serving (Example.ok_response (Some "8, 8") Example.archive))
        Example.url Example.dest empty_world).1 = Raised (Exn ValueError message))
  /\ files (download_file
              (Example.serving (Example.ok_response (Some "8, 8") Example.archive))
              Example.url Example.dest empty_world).2 = files empty_world
  /\ http_log (download_file
                 (Example.serving (Example.ok_response (Some "8, 8") Example.archive))
                 Example.url Example.dest empty_world).2
     = http_log empty_world ++ [Example.url].
Proof.
  apply (download_file_malformed_length
           (Example.serving (Example.ok_response (Some "8, 8") Example.archive))
           Example.url Example.dest empty_world
           (Example.ok_response (Some "8, 8") Example.archive) "8, 8").
  - vm_compute. reflexivity.
  - reflexivity.
  - reflexivity.
  - reflexivity.
  - vm_compute. reflexivity.
Defined.

(** X7: when the directory can be made, the file can be created, no
    percentage overflows and the stream breaks after part of the body, the exception of the stream
    reaches the caller, the file at the destination path holds the bytes
    received so far, and the console shows neither the closing newline
    nor the line that reports the end of the download. *)
Theorem download_file_interrupted env url dest_folder w r total e :
  already_there w url dest_folder = false ->
  server env url = Responds r ->
  is_error_status (status_code r) = false ->
  header_value r = Some total ->
  can_make w dest_folder = true ->
  can_create w url dest_folder = true ->
  percentages_defined total r = true ->
  stream_error r = Some e ->
  (download_file env url dest_folder w).1 = Raised e
  /\ files (download_file env url dest_folder w).2
       !! dest_path_of url dest_folder = Some (body r)
  /\ printed_by (download_file env url dest_folder) w =
       [Print ("[INFO] Downloading dataset archive from " +:+ url)]
       ++ progress_lines (filename_of url) total 0 (iter_content r CHUNK_SIZE).
Proof.
  intros Hthere Hsrv Hst Hval _ Hopen Hdef Hend.
  rewrite (printed_by_download env url dest_folder w r total) by done.
  rewrite (download_file_transfer _ _ _ _ r total), Hend by done.
  repeat split.
  - cbn. apply lookup_insert_eq.
  - by rewrite app_nil_r.
Qed.

Lemma download_file_interrupted_witness :
  (download_file (Example.serving Example.broken_response)
     Example.url Example.dest empty_world).1
  = Raised (Exn ChunkedEncodingError "Connection broken")
  /\ files (download_file (Example.serving Example.broken_response)
              Example.url Example.dest empty_world).2
       !! dest_path_of Example.url Example.dest = Some Example.partial.
Proof.
  destruct (download_file_interrupted (Example.serving Example.broken_response)
              Example.url Example.dest empty_world Example.broken_response 8200
              (Exn ChunkedEncodingError "Connection broken"))
    as (Hres & Hfile & _).
  - vm_compute. reflexivity.
  - reflexivity.
  - reflexivity.
  - vm_compute. reflexivity.
  - vm_compute. reflexivity.
  - vm_compute. reflexivity.
  - vm_compute. reflexivity.
  - reflexivity.
  - split; [exact Hres |]. rewrite Hfile. vm_compute. reflexivity.
Defined.

(** ** The loop over the chunks *)

(** X8: as long as no percentage overflows, what the loop leaves in the
    open file, and the byte count it ends with, depend on the bytes
    received only, not on how they are cut into chunks. *)
Theorem write_chunks_ignores_chunking f p t (chunks1 chunks2 : list bytes) d w :
  is_Some (files w !! p) ->
  0 <= d ->
  t = 0 \/ (Double.fits t = true
            /\ Double.fits (d + Z.of_nat (length (concat chunks1))) = true) ->
  concat chunks1 = concat chunks2 ->
  (write_chunks f p t chunks1 d w).1 = (write_chunks f p t chunks2 d w).1
  /\ files (write_chunks f p t chunks1 d w).2
     = files (write_chunks f p t chunks2 d w).2.
Proof.
  intros [old Hold] Hd Hfits Hsame.
  destruct (write_chunks_cases f p t chunks1 d w old Hold Hd)
    as [[-> _] | (n & _ & Hne & _ & Hbad)]; [| by destruct Hfits].
  destruct (write_chunks_cases f p t chunks2 d w old Hold Hd)
    as [[-> _] | (n & _ & Hne & _ & Hbad)].
  - by rewrite Hsame.
  - rewrite <- Hsame in Hbad. by destruct Hfits.
Qed.

Lemma write_chunks_ignores_chunking_witness :
  (write_chunks "a.zip" "d/a.zip" 3
     [[Byte.x50; Byte.x4b]; [Byte.x03]] 0
     (stored "d/a.zip" [] [] empty_world)).1
  = (write_chunks "a.zip" "d/a.zip" 3
       [[Byte.x50]; []; [Byte.x4b; Byte.x03]] 0
       (stored "d/a.zip" [] [] empty_world)).1
  /\ files (write_chunks "a.zip" "d/a.zip" 3
              [[Byte.x50; Byte.x4b]; [Byte.x03]] 0
              (stored "d/a.zip" [] [] empty_world)).2
     = files (write_chunks "a.zip" "d/a.zip" 3
                [[Byte.x50]; []; [Byte.x4b; Byte.x03]] 0
                (stored "d/a.zip" [] [] empty_world)).2.
Proof.
  apply (write_chunks_ignores_chunking "a.zip" "d/a.zip" 3
           [[Byte.x50; Byte.x4b]; [Byte.x03]]
           [[Byte.x50]; []; [Byte.x4b; Byte.x03]] 0
           (stored "d/a.zip" [] [] empty_world)).
  - eexists. apply stored_lookup.
  - lia.
  - right. split; vm_compute; reflexivity.
  - reflexivity.
Defined.

(** X9: an empty chunk is passed over: the loop does to the world what
    it does on the chunks that carry data. *)
Theorem write_chunks_skips_empty f p t chunks d w :
  write_chunks f p t chunks d w
  = write_chunks f p t (filter (fun c => nonempty c = true) chunks) d w.
Proof.
  revert d w. induction chunks as [|c cs IH]; intros d w; [done |].
  destruct c as [|b c].
  - rewrite filter_cons_False by done. apply IH.
  - rewrite filter_cons_True by done. cbn [write_chunks].
    unfold mbind, M_bind, bind.
    destruct (file_write p (b :: c) w) as [[[]|e] w1]; [| done].
    destruct (when _ _ w1) as [[[]|e] w2]; [| done].
    apply IH.
Qed.

(** ** The byte counts of the progress lines *)

Lemma progress_counts f total chunks : forall start,
  let counts := omap downloaded_of (progress_lines f total start chunks) in
  StronglySorted Z.lt counts
  /\ Forall (fun d => start < d <= start + Z.of_nat (length (concat chunks))) counts.
Proof.
  induction chunks as [|c cs IH]; intros start counts; unfold counts.
  - rewrite progress_lines_nil. split; constructor.
  - destruct c as [|b c].
    + rewrite progress_lines_empty_chunk. apply IH.
    + rewrite progress_lines_cons by done.
      set (n := Z.of_nat (length (b :: c))).
      assert (Hn : 0 < n) by (unfold n; cbn [length]; lia).
      destruct (IH (start + n)) as [Hsorted Hbounds].
      assert (Hwider : Forall
        (fun d => start < d <= start + Z.of_nat (length (concat ((b :: c) :: cs))))
        (omap downloaded_of (progress_lines f total (start + n) cs))).
      { eapply Forall_impl; [exact Hbounds |]. intros d Hd. cbn beta in Hd.
        rewrite concat_cons, length_app. fold n. lia. }
      rewrite omap_app. destruct (total =? 0); cbn [omap list_omap downloaded_of app].
      * done.
      * split.
        -- constructor; [done |].
           eapply Forall_impl; [exact Hbounds |]. intros d Hd. cbn beta in Hd. lia.
        -- constructor; [| done]. rewrite concat_cons, length_app. fold n. lia.
Qed.

Lemma progress_last f total chunks : forall start,
  total <> 0 -> concat chunks <> [] ->
  last (omap downloaded_of (progress_lines f total start chunks))
  = Some (start + Z.of_nat (length (concat chunks))).
Proof.
  induction chunks as [|c cs IH]; intros start Htotal Hdata; [done |].
  destruct c as [|b c].
  - rewrite progress_lines_empty_chunk. by apply IH.
  - rewrite progress_lines_cons by done.
    apply Z.eqb_neq in Htotal as Hneq. rewrite Hneq.
    rewrite omap_app. cbn [omap list_omap downloaded_of app].
    rewrite concat_cons, length_app.
    destruct (decide (concat cs = [])) as [Hcs | Hcs].
    + rewrite progress_lines_no_data, Hcs by done. cbn. f_equal. lia.
    + rewrite last_cons, IH by done. f_equal. lia.
Qed.

(** The progress lines of a download are those of the first chunks of
    the response: all of them, or those before a percentage overflows, or
    none when the file cannot be created. *)
Lemma printed_progress env url dest_folder w r total :
  already_there w url dest_folder = false ->
  server env url = Responds r ->
  is_error_status (status_code r) = false ->
  header_value r = Some total ->
  exists n,
    omap downloaded_of (printed_by (download_file env url dest_folder) w)
    = omap downloaded_of
        (progress_lines (filename_of url) total 0
           (take n (iter_content r CHUNK_SIZE))).
Proof.
  intros Hthere Hsrv Hst Hval.
  destruct (can_create w url dest_folder) eqn:Hopen.
  - destruct (percentages_defined total r) eqn:Hdef.
    + exists (length (iter_content r CHUNK_SIZE)). rewrite firstn_all.
      rewrite (printed_by_download env url dest_folder w r total) by done.
      rewrite !omap_app. cbn [omap list_omap downloaded_of app].
      destruct (stream_error r); [by rewrite app_nil_r |].
      destruct (total =? 0); cbn; by rewrite app_nil_r.
    + destruct (download_file_overflow env url dest_folder w r total)
        as [n Hrun]; try done.
      exists n. by rewrite (printed_by_overflowed _ _ _ _ r total n Hrun).
  - apply can_create_false in Hopen as [e He]. exists 0%nat.
    rewrite (printed_by_app _ _
               [Print ("[INFO] Downloading dataset archive from " +:+ url)]).
    + by rewrite progress_lines_nil.
    + by rewrite (download_file_open_fails _ _ _ _ r total e).
Qed.

(** X10: the byte counts that the progress lines of one download report
    grow strictly from line to line and stay between 1 and the length of
    the body, whether or not the stream ends well. *)
Theorem progress_counts_increase env url dest_folder w r total :
  already_there w url dest_folder = false ->
  server env url = Responds r ->
  is_error_status (status_code r) = false ->
  header_value r = Some total ->
  let counts :=
    omap downloaded_of (printed_by (download_file env url dest_folder) w) in
  StronglySorted Z.lt counts
  /\ Forall (fun d => 0 < d <= Z.of_nat (length (body r))) counts.
Proof.
  intros Hthere Hsrv Hst Hval counts. unfold counts.
  destruct (printed_progress env url dest_folder w r total) as [n ->]; try done.
  destruct (progress_counts (filename_of url) total
              (take n (iter_content r CHUNK_SIZE)) 0) as [Hsorted Hbounds].
  split; [done |].
  eapply Forall_impl; [exact Hbounds |]. intros d Hd. cbn beta in Hd.
  pose proof (length_concat_take (iter_content r CHUNK_SIZE) n).
  unfold body. lia.
Qed.

Lemma progress_counts_increase_witness :
  StronglySorted Z.lt
    (omap downloaded_of
       (printed_by
          (download_file
             (Example.serving
                (Example.ok_response (Some "8200") Example.large_archive))
             Example.url Example.dest) empty_world)).
Proof.
  apply (progress_counts_increase
           (Example.serving (Example.ok_response (Some "8200") Example.large_archive))
           Example.url Example.dest empty_world
           (Example.ok_response (Some "8200") Example.large_archive) 8200).
  - vm_compute. reflexivity.
  - reflexivity.
  - reflexivity.
  - vm_compute. reflexivity.
Defined.

(** X26: when [Content-Length] is the length of a body that is not
    empty, of less than [2 ^ 1000] bytes, and the directory can be made
    and the file created,
    the last progress line reports as many bytes as the total, and that
    line shows [100.00%]. *)
Theorem progress_reaches_full_length env url dest_folder w r :
  already_there w url dest_folder = false ->
  server env url = Responds r ->
  is_error_status (status_code r) = false ->
  header_value r = Some (Z.of_nat (length (body r))) ->
  body r <> [] ->
  can_make w dest_folder = true ->
  can_create w url dest_folder = true ->
  Z.of_nat (length (body r)) < 2 ^ 1000 ->
  let total := Z.of_nat (length (body r)) in
  last (omap downloaded_of (printed_by (download_file env url dest_folder) w))
  = Some total
  /\ render (Progress (filename_of url) total total)
     = CR +:+ "    " +:+ filename_of url +:+ ": " +:+ "100.00%".
Proof.
  intros Hthere Hsrv Hst Hval Hbody _ Hopen Hsmall total.
  assert (Hpos : 0 < total).
  { unfold total. destruct (body r); [done | cbn [length]; lia]. }
  assert (Hdef : percentages_defined total r = true).
  { apply in_float_range_defined. unfold in_float_range. fold total.
    by rewrite fits_small. }
  split.
  - rewrite (printed_by_download env url dest_folder w r total) by done.
    rewrite !omap_app. cbn [omap list_omap downloaded_of app].
    assert (Hclosing :
      omap downloaded_of
        match stream_error r with
        | Some _ => []
        | None =>
            (if total =? 0 then [] else [Newline])
            ++ [Print ("[INFO] Finished downloading " +:+ filename_of url)]
        end = []).
    { destruct (stream_error r); [done |]. by destruct (total =? 0). }
    rewrite Hclosing, app_nil_r, progress_last; [done | lia | done].
  - rewrite render_progress. by rewrite percent_text_full.
Qed.

Lemma progress_reaches_full_length_witness :
  last (omap downloaded_of
          (printed_by
             (download_file
                (Example.serving
                   (Example.ok_response (Some "8200") Example.large_archive))
                Example.url Example.dest) empty_world))
  = Some 8200.
Proof.
  destruct (progress_reaches_full_length
              (Example.serving
                 (Example.ok_response (Some "8200") Example.large_archive))
              Example.url Example.dest empty_world
              (Example.ok_response (Some "8200") Example.large_archive))
    as [Hlast _].
  - vm_compute. reflexivity.
  - reflexivity.
  - reflexivity.
  - vm_compute. reflexivity.
  - vm_compute. discriminate.
  - vm_compute. reflexivity.
  - vm_compute. reflexivity.
  - rewrite body_ok_response. vm_compute. reflexivity.
  - rewrite Hlast. vm_compute. reflexivity.
Defined.

(** ** Batches of videos *)

Lemma prepared_again dest_folder w :
  made_dirs dest_folder ⊆ dirs w -> prepared dest_folder w = w.
Proof.
  intros Hin. unfold prepared, with_dirs.
  rewrite (subseteq_union_1_L (made_dirs dest_folder) (dirs w)) by done.
  apply world_eta.
Qed.

(** X12: with [yt_dlp] installed, a batch cut in two gives what the
    whole batch gives: calling [download_videos] on the first URLs and
    then on the others leaves the same world as one call on all of
    them. *)
Theorem download_videos_split_batch env urls1 urls2 dest_folder w :
  yt_dlp_installed env = true ->
  download_videos env (urls1 ++ urls2) dest_folder w
  = download_videos env urls2 dest_folder
      (download_videos env urls1 dest_folder w).2.
Proof.
  intros Hinst. rewrite !download_videos_installed by done. cbn [snd].
  rewrite foldl_app, (prepared_again dest_folder (foldl _ _ urls1)); [done |].
  rewrite video_batch_dirs. cbn. apply union_subseteq_l.
Qed.

Lemma download_videos_split_batch_witness :
  download_videos Example.flaky (["first"] ++ ["second"]) "videos" empty_world
  = download_videos Example.flaky ["second"] "videos"
      (download_videos Example.flaky ["first"] "videos" empty_world).2.
Proof.
  apply (download_videos_split_batch Example.flaky ["first"] ["second"]
           "videos" empty_world).
  reflexivity.
Defined.

Lemma write_outputs_lookup outs : forall (fs : gmap string bytes) q,
  (is_Some (fs !! q) -> is_Some (write_outputs outs fs !! q))
  /\ (q ∉ outs.*1 -> write_outputs outs fs !! q = fs !! q).
Proof.
  unfold write_outputs.
  induction outs as [|[path data] outs IH]; intros fs q; [done |].
  cbn [foldl fmap list_fmap fst snd]. destruct (IH (<[path := data]> fs) q) as [Hkeep Hsame].
  split.
  - intros Hq. apply Hkeep. rewrite lookup_insert. case_decide; [by eexists | done].
  - intros Hq. apply not_elem_of_cons in Hq as [Hne Hq].
    rewrite Hsame by done. by rewrite lookup_insert_ne.
Qed.

Lemma video_batch_lookup env opts urls : forall w q,
  (is_Some (files w !! q) ->
   is_Some (files (foldl (video_step env opts) w urls) !! q))
  /\ (q ∉ written_paths env opts urls ->
      files (foldl (video_step env opts) w urls) !! q = files w !! q).
Proof.
  induction urls as [|url urls IH]; intros w q; [done |].
  cbn [foldl]. destruct (IH (video_step env opts w url) q) as [Hkeep Hsame].
  destruct (write_outputs_lookup (ydl_outputs (ydl_download env opts url))
              (files w) q) as [Hkeep1 Hsame1].
  split.
  - intros Hq. apply Hkeep. cbn. by apply Hkeep1.
  - intros Hq. unfold written_paths in Hq. cbn in Hq.
    apply not_elem_of_app in Hq as [Hq1 Hq2].
    rewrite Hsame by done. cbn. by apply Hsame1.
Qed.

Lemma download_videos_keeps_files env urls dest_folder w q :
  is_Some (files w !! q) ->
  is_Some (files (download_videos env urls dest_folder w).2 !! q).
Proof.
  destruct (yt_dlp_installed env) eqn:Hinst.
  - rewrite download_videos_installed by done. cbn [snd].
    apply (video_batch_lookup env (ydl_opts_for dest_folder) urls
             (prepared dest_folder w) q).
  - by rewrite download_videos_missing.
Qed.

(** ** The loop of [main] over the archives *)

Section DatasetLoop.

Variables (env : Env) (dest_folder : string).

Let dataset_round (dataset_url : string) : M unit :=
  try_except
    (download_file env dataset_url dest_folder)
    is_HTTPError
    (fun err =>
       print ("[ERROR] Failed to download dataset from " +:+ dataset_url
              +:+ ": " +:+ exn_str err)).

Lemma dataset_round_cases url w :
  dataset_round url w =
    match download_file env url dest_folder w with
    | (Ok _, w1) => (Ok tt, w1)
    | (Raised e, w1) =>
        if is_HTTPError e
        then (Ok tt,
              with_console
                (console w1
                 ++ [Print ("[ERROR] Failed to download dataset from " +:+ url
                            +:+ ": " +:+ exn_str e)]) w1)
        else (Raised e, w1)
    end.
Proof.
  unfold dataset_round, try_except, try_except_else.
  destruct (download_file env url dest_folder w) as [[p|e] w1]; [done |].
  by destruct (is_HTTPError e).
Qed.

Lemma dataset_loop_raised urls : forall w e,
  (for_each urls dataset_round w).1 = Raised e ->
  is_HTTPError e = false
  /\ exists url w0,
       url ∈ urls /\ (download_file env url dest_folder w0).1 = Raised e.
Proof.
  induction urls as [|url urls IH]; intros w e Hraised; [done |].
  rewrite for_each_cons, dataset_round_cases in Hraised.
  destruct (download_file env url dest_folder w) as [[p|e0] w1] eqn:Hrun.
  - destruct (IH w1 e Hraised) as (Hnot & u & w0 & Hu & Hw0).
    split; [done |]. exists u, w0. split; [by apply list_elem_of_further | done].
  - destruct (is_HTTPError e0) eqn:Hcls.
    + destruct (IH _ e Hraised) as (Hnot & u & w0 & Hu & Hw0).
      split; [done |]. exists u, w0. split; [by apply list_elem_of_further | done].
    + cbn in Hraised. injection Hraised as <-.
      split; [done |]. exists url, w. split; [apply list_elem_of_here |].
      by rewrite Hrun.
Qed.

Lemma dataset_loop_http_log urls : forall w,
  exists sent,
    sent `sublist_of` urls
    /\ http_log (for_each urls dataset_round w).2 = http_log w ++ sent.
Proof.
  induction urls as [|url urls IH]; intros w.
  { exists []. split; [constructor | by rewrite app_nil_r]. }
  rewrite for_each_cons, dataset_round_cases.
  assert (Hlog : exists first,
    first `sublist_of` [url]
    /\ http_log (download_file env url dest_folder w).2 = http_log w ++ first).
  { rewrite download_file_http_log.
    destruct (already_there w url dest_folder).
    - exists []. split; [apply sublist_nil_l | by rewrite app_nil_r].
    - by exists [url]. }
  destruct Hlog as (first & Hfirst & Hlog).
  destruct (download_file env url dest_folder w) as [[p|e0] w1];
    cbn [snd] in Hlog.
  - destruct (IH w1) as (sent & Hsent & Hrest).
    exists (first ++ sent). split; [| by rewrite Hrest, Hlog, app_assoc].
    by apply (sublist_app first [url] sent urls).
  - destruct (is_HTTPError e0).
    + match goal with
      | |- context [for_each urls dataset_round ?w2] =>
          destruct (IH w2) as (sent & Hsent & Hrest)
      end.
      cbn [http_log with_console] in Hrest.
      exists (first ++ sent). split; [| by rewrite Hrest, Hlog, app_assoc].
      by apply (sublist_app first [url] sent urls).
    + exists first. split; [| done].
      rewrite <- (app_nil_r first).
      apply (sublist_app first [url] [] urls); [done | apply sublist_nil_l].
Qed.

Lemma dataset_loop_dirs urls : forall w,
  dirs (for_each urls dataset_round w).2
  = match urls with
    | [] => dirs w
    | _ => made_dirs dest_folder ∪ dirs w
    end.
Proof.
  induction urls as [|url urls IH]; intros w; [done |].
  rewrite for_each_cons, dataset_round_cases.
  pose proof (download_file_dirs env url dest_folder w) as Hdirs.
  assert (Hnext : forall w1, dirs w1 = made_dirs dest_folder ∪ dirs w ->
    dirs (for_each urls dataset_round w1).2 = made_dirs dest_folder ∪ dirs w).
  { intros w1 Hw1. rewrite IH, Hw1. destruct urls; [done |].
    by rewrite (assoc_L (∪)), (idemp_L (∪)). }
  destruct (download_file env url dest_folder w) as [[p|e0] w1]; cbn [snd] in Hdirs.
  - by apply Hnext.
  - destruct (is_HTTPError e0); [| done]. by apply Hnext.
Qed.

Lemma dataset_loop_all_there urls : forall w,
  (forall url, url ∈ urls -> exists_in w (dest_path_of url dest_folder) = true) ->
  (for_each urls dataset_round w).1 = Ok tt
  /\ http_log (for_each urls dataset_round w).2 = http_log w.
Proof.
  induction urls as [|url urls IH]; intros w Hall; [done |].
  rewrite for_each_cons, dataset_round_cases.
  rewrite download_file_skip
    by (apply already_there_of_exists, Hall, list_elem_of_here).
  destruct (IH (skipped url dest_folder w)) as [Hok Hlog].
  - intros u Hu. unfold skipped, exists_in. cbn [files dirs with_console].
    apply exists_in_prepared, Hall. by apply list_elem_of_further.
  - split; [exact Hok | by rewrite Hlog].
Qed.

Lemma dataset_loop_all_refused urls : forall w,
  (forall url, url ∈ urls ->
     exists r, server env url = Responds r
               /\ is_error_status (status_code r) = true) ->
  (forall url, url ∈ urls ->
     already_there w url dest_folder = false) ->
  (for_each urls dataset_round w).1 = Ok tt
  /\ http_log (for_each urls dataset_round w).2 = http_log w ++ urls
  /\ files (for_each urls dataset_round w).2 = files w.
Proof.
  induction urls as [|url urls IH]; intros w Hrefused Habsent.
  { cbn. by rewrite app_nil_r. }
  rewrite for_each_cons, dataset_round_cases.
  destruct (Hrefused url (list_elem_of_here _ _)) as (r & Hsrv & Hst).
  rewrite (download_file_error_status _ _ _ _ r)
    by (done || apply Habsent, list_elem_of_here).
  cbn [is_HTTPError exn_cls].
  match goal with
  | |- context [for_each urls dataset_round ?w2] =>
      destruct (IH w2) as (Hok & Hlog & Hfiles)
  end.
  - intros u Hu. apply Hrefused. by apply list_elem_of_further.
  - intros u Hu. pose proof (Habsent u (list_elem_of_further _ _ _ Hu)) as Hthere.
    apply already_there_false in Hthere as [Hnone Hne].
    apply already_there_false. split; [| done].
    unfold exists_in in *. cbn [files dirs with_console requested
      with_http_log prepared with_dirs].
    apply orb_false_iff in Hnone as [Hfile Hdir].
    rewrite Hfile. cbn [orb]. apply bool_decide_eq_false.
    apply bool_decide_eq_false in Hdir.
    by rewrite not_elem_of_union.
  - split; [exact Hok |]. split.
    + rewrite Hlog. cbn. by rewrite <- app_assoc.
    + by rewrite Hfiles.
Qed.

End DatasetLoop.

Lemma main_unfold env w :
  main env w =
    for_each DATASET_URLS (fun dataset_url =>
      try_except
        (download_file env dataset_url "downloaded_datasets")
        is_HTTPError
        (fun err =>
           print ("[ERROR] Failed to download dataset from " +:+ dataset_url
                  +:+ ": " +:+ exn_str err)))
      (download_videos env VIDEO_URLS "downloaded_videos" w).2.
Proof.
  unfold main, mbind, M_bind, bind.
  pose proof (download_videos_returns env VIDEO_URLS "downloaded_videos" w) as Hv.
  destruct (download_videos env VIDEO_URLS "downloaded_videos" w) as [rv wv].
  cbn in Hv. by subst rv.
Qed.

(** X14: an exception that leaves [main] is never an [HTTPError], and it
    is the exception of the download of one of the archives: nothing the
    video downloads do ends the process. *)
Theorem main_raises_only_archive_errors env w e :
  (main env w).1 = Raised e ->
  is_HTTPError e = false
  /\ exists url w0,
       url ∈ DATASET_URLS
       /\ (download_file env url "downloaded_datasets" w0).1 = Raised e.
Proof.
  rewrite main_unfold. apply dataset_loop_raised.
Qed.

Lemma main_raises_only_archive_errors_witness :
  is_HTTPError (Exn ConnectionError "Max retries exceeded") = false
  /\ exists url w0,
       url ∈ DATASET_URLS
       /\ (download_file Example.offline url "downloaded_datasets" w0).1
          = Raised (Exn ConnectionError "Max retries exceeded").
Proof.
  apply (main_raises_only_archive_errors Example.offline empty_world
           (Exn ConnectionError "Max retries exceeded")).
  vm_compute. reflexivity.
Defined.

Lemma video_batch_http_log env opts urls : forall w,
  http_log (foldl (video_step env opts) w urls) = http_log w.
Proof.
  induction urls as [|url urls IH]; intros w; cbn [foldl]; [done |].
  by rewrite IH.
Qed.

Lemma download_videos_http_log env urls dest_folder w :
  http_log (download_videos env urls dest_folder w).2 = http_log w.
Proof.
  destruct (yt_dlp_installed env) eqn:Hinst.
  - rewrite download_videos_installed by done. cbn [snd].
    by rewrite video_batch_http_log.
  - by rewrite download_videos_missing.
Qed.

(** X15: once the videos are dealt with, [main] asks the servers for
    nothing but the archives of [DATASET_URLS], in the order of the list
    and each at most once, whether it returns or raises: the requests it
    adds to those of the video step are a sublist of that list. *)
Theorem main_requests_archives_in_order env w :
  exists sent,
    sent `sublist_of` DATASET_URLS
    /\ http_log (main env w).2
       = http_log (download_videos env VIDEO_URLS "downloaded_videos" w).2 ++ sent.
Proof.
  rewrite main_unfold.
  apply (dataset_loop_http_log env "downloaded_datasets" DATASET_URLS).
Qed.

Lemma download_videos_exists_in env urls dest_folder w q :
  exists_in w q = true ->
  exists_in (download_videos env urls dest_folder w).2 q = true.
Proof.
  unfold exists_in. rewrite !orb_true_iff, !bool_decide_eq_true.
  intros [Hfile | Hdir].
  - left.
    by apply (download_videos_keeps_files env urls dest_folder w q).
  - right. destruct (yt_dlp_installed env) eqn:Hinst.
    + rewrite download_videos_installed by done. cbn [snd].
      rewrite video_batch_dirs. cbn. apply elem_of_union. by right.
    + by rewrite download_videos_missing.
Qed.

(** X16: when every archive of [DATASET_URLS] is already on disk, [main]
    sends no request and returns, whatever the servers would answer and
    whatever the video downloads do. *)
Theorem main_with_all_archives_on_disk env w :
  (forall url, url ∈ DATASET_URLS ->
     exists_in w (dest_path_of url "downloaded_datasets") = true) ->
  (main env w).1 = Ok tt
  /\ http_log (main env w).2 = http_log w
  /\ exit_status env w = 0.
Proof.
  intros Hall.
  assert (Hmain : (main env w).1 = Ok tt /\ http_log (main env w).2 = http_log w).
  { rewrite main_unfold.
    destruct (dataset_loop_all_there env "downloaded_datasets" DATASET_URLS
                (download_videos env VIDEO_URLS "downloaded_videos" w).2)
      as [Hok Hlog].
    - intros url Hurl. by apply download_videos_exists_in, Hall.
    - split; [exact Hok |]. by rewrite Hlog, download_videos_http_log. }
  destruct Hmain as [Hok Hlog]. split; [done |]. split; [done |].
  unfold exit_status. by destruct (main env w) as [[[]|e] w'].
Qed.

Lemma main_with_all_archives_on_disk_witness :
  (main Example.offline all_downloaded).1 = Ok tt
  /\ http_log (main Example.offline all_downloaded).2 = http_log all_downloaded
  /\ exit_status Example.offline all_downloaded = 0.
Proof.
  apply (main_with_all_archives_on_disk Example.offline all_downloaded).
  intros url Hurl.
  repeat (apply elem_of_cons in Hurl as [-> | Hurl]; [vm_compute; reflexivity |]).
  by apply elem_of_nil in Hurl.
Defined.

(** X17: after [main], returned or not, the directories are those the
    video step leaves and the directory of the archives: the loop over
    the archives makes that directory and no other. *)
Theorem main_makes_its_directories env w :
  dirs (main env w).2 =
    {["downloaded_datasets"]}
    ∪ dirs (download_videos env VIDEO_URLS "downloaded_videos" w).2.
Proof.
  rewrite main_unfold.
  rewrite (dataset_loop_dirs env "downloaded_datasets" DATASET_URLS).
  cbn [DATASET_URLS]. by f_equal.
Qed.

(** ** The file name, again *)

(** X18: for a URL without a percent sign the file name holds no slash,
    so the destination path is the destination directory followed by the
    name: the file is made in that directory and nowhere else. *)
Theorem plain_url_stays_in_folder url dest_folder :
  Str.contains "%" url = false ->
  Str.contains "/" (filename_of url) = false
  /\ dest_path_of url dest_folder =
       (if (String.length dest_folder =? 0)%nat || Str.ends_with "/" dest_folder
        then dest_folder +:+ filename_of url
        else dest_folder +:+ "/" +:+ filename_of url).
Proof.
  intros Hplain.
  assert (Hname : Str.contains "/" (filename_of url) = false).
  { rewrite filename_of_cases. case_bool_decide as Hseg; [done |].
    rewrite unquote_plain; [apply basename_no_slash |].
    destruct (basename_suffix (Url.urlparse_path url)) as [dir Hdir].
    pose proof (urlparse_path_keeps_absent "%" url Hplain) as Hpath.
    rewrite Hdir in Hpath. by apply contains_suffix in Hpath. }
  split; [done |]. unfold dest_path_of, Url.path_join.
  by rewrite no_slash_no_start.
Qed.

Lemma plain_url_stays_in_folder_witness :
  Str.contains "/"
    (filename_of "https://data.caltech.edu/records/4emt5-b0t10/files/CRIM13_res.zip?download=1")
  = false
  /\ dest_path_of
       "https://data.caltech.edu/records/4emt5-b0t10/files/CRIM13_res.zip?download=1"
       "downloaded_datasets"
     = "downloaded_datasets/CRIM13_res.zip".
Proof.
  destruct (plain_url_stays_in_folder
              "https://data.caltech.edu/records/4emt5-b0t10/files/CRIM13_res.zip?download=1"
              "downloaded_datasets") as [Hname Hpath].
  - vm_compute. reflexivity.
  - split; [exact Hname |]. rewrite Hpath. vm_compute. reflexivity.
Defined.

(** X19: when the decoded file name starts with a slash (a segment that
    begins with [%2F]), [os.path.join] drops the destination directory:
    a download that completes, the directory of that absolute path being
    there, writes the body at that path, whatever the destination
    directory is. *)
Theorem encoded_slash_leaves_folder env url dest_folder w r :
  Str.starts_with "/" (filename_of url) = true ->
  already_there w url dest_folder = false ->
  server env url = Responds r ->
  completes (server env url) = true ->
  can_make w dest_folder = true ->
  can_create w url dest_folder = true ->
  dest_path_of url dest_folder = filename_of url
  /\ (download_file env url dest_folder w).1 = Ok (filename_of url)
  /\ files (download_file env url dest_folder w).2 !! filename_of url
     = Some (body r).
Proof.
  intros Hslash Hthere Hsrv Hok _ Hopen.
  assert (Hpath : dest_path_of url dest_folder = filename_of url).
  { unfold dest_path_of, Url.path_join. by rewrite Hslash. }
  rewrite Hsrv in Hok. cbn in Hok.
  apply andb_true_iff in Hok as [[Hst Hdef]%andb_true_iff Hend].
  apply negb_true_iff in Hst.
  destruct (header_value r) as [total|] eqn:Hval; [| done].
  apply bool_decide_eq_true in Hend.
  rewrite (download_file_transfer _ _ _ _ r total), Hend by done.
  rewrite <- Hpath. repeat split. cbn. apply lookup_insert_eq.
Qed.

Lemma encoded_slash_leaves_folder_witness :
  dest_path_of escaping_url "downloaded_datasets" = "/tmp/x.zip"
  /\ files (download_file
              (Example.serving (Example.ok_response None Example.archive))
              escaping_url "downloaded_datasets" Example.with_tmp).2 !! "/tmp/x.zip"
     = Some Example.archive.
Proof.
  destruct (encoded_slash_leaves_folder
              (Example.serving (Example.ok_response None Example.archive))
              escaping_url "downloaded_datasets" Example.with_tmp
              (Example.ok_response None Example.archive))
    as (Hpath & _ & Hfile).
  - vm_compute. reflexivity.
  - vm_compute. reflexivity.
  - reflexivity.
  - vm_compute. reflexivity.
  - vm_compute. reflexivity.
  - vm_compute. reflexivity.
  - split; [rewrite Hpath; vm_compute; reflexivity | exact Hfile].
Defined.

(** ** What follows the path in a URL *)

(** X20: what follows the path in a URL --- the query string after [?],
    the fragment after [#] --- has no part in the file name nor in the
    destination path. *)
Theorem filename_ignores_query_and_fragment url tail dest_folder :
  Str.contains "?" url = false ->
  Str.contains "#" url = false ->
  filename_of (url +:+ "?" +:+ tail) = filename_of url
  /\ filename_of (url +:+ "#" +:+ tail) = filename_of url
  /\ dest_path_of (url +:+ "?" +:+ tail) dest_folder = dest_path_of url dest_folder.
Proof.
  intros Hq Hf. unfold dest_path_of, filename_of.
  change ("?" +:+ tail) with (String "?" tail).
  change ("#" +:+ tail) with (String "#" tail).
  rewrite (urlparse_path_tail "?") by (done || by left).
  rewrite (urlparse_path_tail "#") by (done || by right).
  done.
Qed.

Lemma filename_ignores_query_and_fragment_witness :
  filename_of ("https://host/path/File%20Name.zip" +:+ "?" +:+ "download=1")
  = filename_of "https://host/path/File%20Name.zip"
  /\ filename_of ("https://host/path/File%20Name.zip" +:+ "#" +:+ "download=1")
     = filename_of "https://host/path/File%20Name.zip"
  /\ dest_path_of ("https://host/path/File%20Name.zip" +:+ "?" +:+ "download=1")
       "downloaded_datasets"
     = dest_path_of "https://host/path/File%20Name.zip" "downloaded_datasets".
Proof.
  apply (filename_ignores_query_and_fragment
           "https://host/path/File%20Name.zip" "download=1" "downloaded_datasets");
    vm_compute; reflexivity.
Defined.

(** ** Every archive is tried *)

(** X21: when every server answers with an error status and none of the
    archives is on disk once the videos are dealt with, [main] still
    requests every archive of [DATASET_URLS], in the order of the list,
    creates no archive file and returns. *)
Theorem main_tries_every_archive env w :
  (forall url, url ∈ DATASET_URLS ->
     exists r, server env url = Responds r
               /\ is_error_status (status_code r) = true) ->
  (forall url, url ∈ DATASET_URLS ->
     already_there (download_videos env VIDEO_URLS "downloaded_videos" w).2
       url "downloaded_datasets" = false) ->
  (main env w).1 = Ok tt
  /\ http_log (main env w).2 = http_log w ++ DATASET_URLS
  /\ files (main env w).2
     = files (download_videos env VIDEO_URLS "downloaded_videos" w).2.
Proof.
  intros Hrefused Habsent. rewrite main_unfold.
  destruct (dataset_loop_all_refused env "downloaded_datasets" DATASET_URLS
              (download_videos env VIDEO_URLS "downloaded_videos" w).2
              Hrefused Habsent) as (Hok & Hlog & Hfiles).
  split; [exact Hok |]. split; [| exact Hfiles].
  by rewrite Hlog, download_videos_http_log.
Qed.

Lemma main_tries_every_archive_witness :
  (main Example.all_failing empty_world).1 = Ok tt
  /\ http_log (main Example.all_failing empty_world).2
     = http_log empty_world ++ DATASET_URLS
  /\ files (main Example.all_failing empty_world).2
     = files (download_videos Example.all_failing VIDEO_URLS "downloaded_videos"
                empty_world).2.
Proof.
  apply (main_tries_every_archive Example.all_failing empty_world).
  - intros url _. exists Example.not_found. split; reflexivity.
  - intros url Hurl.
    repeat (apply elem_of_cons in Hurl as [-> | Hurl]; [vm_compute; reflexivity |]).
    by apply elem_of_nil in Hurl.
Defined.
(** ** Downloads that stop before the end *)

(** X22: when the directory of the destination path is not there ---
    the destination directory itself can be made ---, [open] raises: the exception reaches the caller once the request is
    sent, no file is created and nothing but the line that announces the
    download is printed. *)
Theorem download_file_cannot_open env url dest_folder w r total e :
  already_there w url dest_folder = false ->
  server env url = Responds r ->
  is_error_status (status_code r) = false ->
  header_value r = Some total ->
  can_make w dest_folder = true ->
  open_error (prepared dest_folder w) (dest_path_of url dest_folder) = Some e ->
  (download_file env url dest_folder w).1 = Raised e
  /\ files (download_file env url dest_folder w).2 = files w
  /\ http_log (download_file env url dest_folder w).2 = http_log w ++ [url]
  /\ printed_by (download_file env url dest_folder) w =
       [Print ("[INFO] Downloading dataset archive from " +:+ url)].
Proof.
  intros Hthere Hsrv Hst Hval _ Hopen.
  assert (Hrun := download_file_open_fails env url dest_folder w r total e
                    Hthere Hsrv Hst Hval Hopen).
  rewrite Hrun. repeat split. apply printed_by_app. by rewrite Hrun.
Qed.

Lemma download_file_cannot_open_witness :
  (download_file (Example.serving (Example.ok_response (Some "8") Example.archive))
     escaping_url Example.dest empty_world).1
  = Raised (Exn FileNotFoundError
              "[Errno 2] No such file or directory: '/tmp/x.zip'")
  /\ files (download_file
              (Example.serving (Example.ok_response (Some "8") Example.archive))
              escaping_url Example.dest empty_world).2 = files empty_world.
Proof.
  destruct (download_file_cannot_open
              (Example.serving (Example.ok_response (Some "8") Example.archive))
              escaping_url Example.dest empty_world
              (Example.ok_response (Some "8") Example.archive) 8
              (Exn FileNotFoundError
                 "[Errno 2] No such file or directory: '/tmp/x.zip'"))
    as (Hres & Hfiles & _).
  - vm_compute. reflexivity.
  - reflexivity.
  - reflexivity.
  - vm_compute. reflexivity.
  - vm_compute. reflexivity.
  - vm_compute. reflexivity.
  - split; [exact Hres | exact Hfiles].
Defined.

(** The loop when the total is an integer that [float] does not convert:
    it stops at the first chunk that carries data. *)
Lemma write_chunks_huge_total f p t (chunks : list bytes) first : forall d w old,
  Double.fits t = false ->
  head (filter (fun c => nonempty c = true) chunks) = Some first ->
  files w !! p = Some old ->
  write_chunks f p t chunks d w
  = (Raised float_overflow, stored p (old ++ first) [] w).
Proof.
  intros d w old Hhuge Hfirst Hold.
  induction chunks as [|c cs IH]; [done |].
  destruct c as [|b c].
  - rewrite filter_cons_False in Hfirst by done. by apply IH.
  - rewrite filter_cons_True in Hfirst by done. injection Hfirst as <-.
    rewrite (write_chunks_cons f p t (b :: c) cs d w old) by done.
    assert (Ht : (t =? 0) = false).
    { apply Z.eqb_neq. intros ->. done. }
    rewrite Ht.
    destruct (percentage (d + Z.of_nat (length (b :: c))) t) as [x|] eqn:Hp; [| done].
    apply percentage_fits in Hp as [_ Hfits]. congruence.
Qed.

(** X23: when [Content-Length] is an integer too large for [float], the
    download stops at the first chunk that carries data: the chunk is
    written to the file, the percentage raises [OverflowError], and no
    progress line is printed. *)
Theorem download_file_stops_on_huge_length env url dest_folder w r total first :
  already_there w url dest_folder = false ->
  server env url = Responds r ->
  is_error_status (status_code r) = false ->
  header_value r = Some total ->
  can_make w dest_folder = true ->
  can_create w url dest_folder = true ->
  Double.fits total = false ->
  head (filter (fun c => nonempty c = true) (iter_content r CHUNK_SIZE)) = Some first ->
  (download_file env url dest_folder w).1 = Raised float_overflow
  /\ files (download_file env url dest_folder w).2 !! dest_path_of url dest_folder
     = Some first
  /\ printed_by (download_file env url dest_folder) w =
       [Print ("[INFO] Downloading dataset archive from " +:+ url)].
Proof.
  intros Hthere Hsrv Hst Hval _ Hopen Hhuge Hfirst.
  apply can_create_true in Hopen.
  assert (Hrun : download_file env url dest_folder w =
    (Raised float_overflow,
     stored (dest_path_of url dest_folder) first []
       (stored (dest_path_of url dest_folder) [] [] (requested url dest_folder w)))).
  { rewrite (download_file_opens _ _ _ _ r total), Hopen by done.
    by rewrite (write_chunks_huge_total _ _ _ _ first _ _ []) by
      (done || apply stored_lookup). }
  rewrite Hrun. split; [done |]. split; [apply stored_lookup |].
  apply printed_by_app. rewrite Hrun. cbn. by rewrite !app_nil_r.
Qed.

Lemma download_file_stops_on_huge_length_witness :
  (download_file
     (Example.serving
        (Example.chunked_response (Some Example.huge_length)
           [Example.archive; Example.clip]))
     Example.url Example.dest empty_world).1 = Raised float_overflow
  /\ files (download_file
              (Example.serving
                 (Example.chunked_response (Some Example.huge_length)
                    [Example.archive; Example.clip]))
              Example.url Example.dest empty_world).2
       !! dest_path_of Example.url Example.dest = Some Example.archive.
Proof.
  destruct (download_file_stops_on_huge_length
              (Example.serving
                 (Example.chunked_response (Some Example.huge_length)
                    [Example.archive; Example.clip]))
              Example.url Example.dest empty_world
              (Example.chunked_response (Some Example.huge_length)
                 [Example.archive; Example.clip])
              (10 ^ 309) Example.archive)
    as (Hres & Hfile & _).
  - vm_compute. reflexivity.
  - reflexivity.
  - reflexivity.
  - vm_compute. reflexivity.
  - vm_compute. reflexivity.
  - vm_compute. reflexivity.
  - vm_compute. reflexivity.
  - reflexivity.
  - split; [exact Hres | exact Hfile].
Defined.

(** X24: an exception other than [HTTPError] in the download of the
    first archive ends [main] there and then: the exception leaves
    [main], the world is the one that download leaves, so that no other
    archive is asked for, and the process exits with status 1. *)
Theorem main_stops_at_other_error env w e :
  let after_videos := (download_videos env VIDEO_URLS "downloaded_videos" w).2 in
  let first := default "" (head DATASET_URLS) in
  (download_file env first "downloaded_datasets" after_videos).1 = Raised e ->
  is_HTTPError e = false ->
  main env w
  = (Raised e, (download_file env first "downloaded_datasets" after_videos).2)
  /\ exit_status env w = 1.
Proof.
  intros after_videos first Hraised Hother.
  assert (Hmain : main env w =
    (Raised e, (download_file env first "downloaded_datasets" after_videos).2)).
  { rewrite main_unfold. fold after_videos. unfold DATASET_URLS.
    rewrite for_each_cons. unfold try_except, try_except_else.
    change (download_file env _ "downloaded_datasets" after_videos)
      with (download_file env first "downloaded_datasets" after_videos).
    destruct (download_file env first "downloaded_datasets" after_videos)
      as [[p|e0] w1]; [done |].
    cbn in Hraised. injection Hraised as ->. by rewrite Hother. }
  split; [exact Hmain |]. unfold exit_status. by rewrite Hmain.
Qed.

Lemma main_stops_at_other_error_witness :
  exit_status Example.offline empty_world = 1.
Proof.
  apply (main_stops_at_other_error Example.offline empty_world
           (Exn ConnectionError "Max retries exceeded")).
  - vm_compute. reflexivity.
  - reflexivity.
Defined.

(** ** Where the file is created *)

Lemma ends_with_cons c a s :
  s <> "" -> Str.ends_with c (String a s) = Str.ends_with c s.
Proof. by destruct s. Qed.

Lemma ends_with_app c a b :
  b <> "" -> Str.ends_with c (a +:+ b) = Str.ends_with c b.
Proof.
  intros Hb. induction a as [|x a IH]; [done |].
  rewrite append_cons, ends_with_cons; [exact IH |].
  intros [_ ?]%append_eq_empty. done.
Qed.

Lemma ends_with_contains c s :
  Str.contains c s = false -> Str.ends_with c s = false.
Proof.
  induction s as [|a s IH]; [done |]. cbn [Str.contains].
  destruct (Ascii.eqb a c) eqn:Hac; [done |]. intros Hs.
  destruct s as [|b s]; [exact Hac |].
  rewrite ends_with_cons by done. by apply IH.
Qed.

Lemma ends_with_split c s :
  Str.ends_with c s = true -> exists d, s = d +:+ String c "".
Proof.
  induction s as [|a s IH]; [done |]. destruct s as [|b s].
  - cbn. intros ->%Ascii.eqb_eq. by exists "".
  - rewrite ends_with_cons by done. intros [d ->]%IH.
    exists (String a d). by rewrite append_cons.
Qed.

Lemma rsplit_once_absent c s :
  Str.contains c s = false -> Str.rsplit_once c s = None.
Proof.
  intros Hs. destruct (Str.rsplit_once c s) as [[x y]|] eqn:Hsplit; [| done].
  apply rsplit_once_spec in Hsplit as [-> _].
  apply contains_suffix in Hs. cbn [Str.contains] in Hs.
  by rewrite Ascii.eqb_refl in Hs.
Qed.

(** What [rstrip] takes away is made of the characters to strip. *)
Lemma rstrip_spec p s :
  exists t, s = Str.rstrip p s +:+ t /\ Str.forallb p t = true.
Proof.
  induction s as [|a s (t & Hs & Ht)]; [by exists "" |].
  cbn [Str.rstrip]. destruct (Str.rstrip p s) as [|b r] eqn:Hstrip.
  - destruct (p a) eqn:Hpa.
    + exists (String a s). split; [done |]. rewrite append_empty in Hs.
      cbn [Str.forallb]. rewrite Hpa. by rewrite Hs.
    + exists s. split; [| by rewrite Hs, append_empty].
      by rewrite append_cons, append_empty.
  - exists t. split; [| done]. by rewrite append_cons, <- Hs.
Qed.

Lemma rstrip_no_end s :
  Str.ends_with "/" (Str.rstrip Url.is_slash s) = false.
Proof.
  induction s as [|a s IH]; [done |].
  cbn [Str.rstrip]. destruct (Str.rstrip Url.is_slash s) as [|b r] eqn:Hstrip.
  - unfold Url.is_slash. destruct (Ascii.eqb a "/") eqn:Ha; [done |].
    cbn. exact Ha.
  - by rewrite ends_with_cons.
Qed.

Lemma rstrip_id s :
  Str.ends_with "/" s = false -> Str.rstrip Url.is_slash s = s.
Proof.
  induction s as [|a s IH]; [done |]. destruct s as [|b s].
  - cbn. unfold Url.is_slash. by intros ->.
  - rewrite ends_with_cons by done. intros Hs.
    cbn [Str.rstrip] in *. by rewrite (IH Hs).
Qed.

Lemma prefixes_elem a b : forall pre,
  pre +:+ a ∈ Url.prefixes pre (a +:+ String "/" b).
Proof.
  induction a as [|x a IH]; intros pre.
  - rewrite append_empty, append_empty_r. cbn. apply list_elem_of_here.
  - rewrite append_cons. cbn [Url.prefixes]. apply elem_of_app. right.
    replace (pre +:+ String x a) with ((pre +:+ String x "") +:+ a)
      by (by rewrite append_assoc).
    apply IH.
Qed.

(** A name that a slash follows in [path], that is not empty and does not
    end with a slash, is a directory [os.makedirs] makes. *)
Lemma parents_elem h b :
  h <> "" -> Str.ends_with "/" h = false ->
  h ∈ made_dirs (h +:+ String "/" b).
Proof.
  intros Hne Hend. unfold made_dirs. apply elem_of_union. right.
  apply elem_of_list_to_set. unfold Url.parents.
  apply list_elem_of_filter. split; [done |].
  pose proof (prefixes_elem h b "") as Hin. by rewrite append_empty in Hin.
Qed.

(** The directory of a file of the destination folder is the root, the
    current directory, or a directory that [os.makedirs] has made. *)
Lemma dirname_in_folder dest name :
  Str.contains "/" name = false -> name <> "" ->
  let dir := Url.dirname (Url.path_join dest name) in
  Str.forallb Url.is_slash dir = true \/ dir ∈ made_dirs dest.
Proof.
  intros Hname Hne dir. unfold dir, Url.path_join.
  rewrite no_slash_no_start by done.
  destruct (String.length dest =? 0)%nat eqn:Hlen.
  { left. destruct dest; [| done]. rewrite append_empty. unfold Url.dirname.
    by rewrite rsplit_once_absent. }
  cbn [orb]. destruct (Str.ends_with "/" dest) eqn:Hend.
  - apply ends_with_split in Hend as [d ->].
    rewrite append_assoc. change ("/" +:+ name) with (String "/" name).
    unfold Url.dirname. rewrite rsplit_once_app_last by done.
    destruct (rstrip_spec Url.is_slash d) as (t & Hd & Ht).
    destruct (Str.rstrip Url.is_slash d) as [|a h] eqn:Hstrip.
    + left. rewrite append_empty in Hd. subst t.
      rewrite forallb_app, Ht. reflexivity.
    + right. rewrite Hd, append_assoc.
      assert (Hslashes : exists b, t +:+ "/" = String "/" b).
      { destruct t as [|x t]; [by exists "" |]. cbn [Str.forallb] in Ht.
        apply andb_true_iff in Ht as [Hx _]. apply Ascii.eqb_eq in Hx as ->.
        by exists (t +:+ "/"). }
      destruct Hslashes as [b ->].
      apply parents_elem; [done |]. rewrite <- Hstrip. apply rstrip_no_end.
  - right. change ("/" +:+ name) with (String "/" name).
    unfold Url.dirname. rewrite rsplit_once_app_last by done.
    rewrite rstrip_id by done. destruct dest as [|a d]; [done |].
    unfold made_dirs. apply elem_of_union. left. by apply elem_of_singleton.
Qed.

Lemma path_join_name dest name :
  Str.contains "/" name = false -> name <> "" ->
  exists d, Url.path_join dest name = d +:+ name.
Proof.
  intros Hname Hne. unfold Url.path_join. rewrite no_slash_no_start by done.
  destruct (_ || _); [by exists dest |].
  exists (dest +:+ "/"). by rewrite append_assoc.
Qed.

(** X25: for a URL without a percent sign, as those of [DATASET_URLS]
    are, and a destination directory that can be made, the file can
    always be created when nothing is at the destination path: its directory is the one [os.makedirs] has just
    made.  A download of such a URL that completes therefore returns,
    and leaves the body at the destination path. *)
Theorem plain_url_can_be_created env url dest_folder w :
  Str.contains "%" url = false ->
  can_make w dest_folder = true ->
  already_there w url dest_folder = false ->
  can_create w url dest_folder = true
  /\ (completes (server env url) = true ->
      (download_file env url dest_folder w).1 = Ok (dest_path_of url dest_folder)
      /\ exists r,
           server env url = Responds r
           /\ files (download_file env url dest_folder w).2
                !! dest_path_of url dest_folder = Some (body r)).
Proof.
  intros Hplain _ Hthere.
  assert (Hname : Str.contains "/" (filename_of url) = false).
  { rewrite filename_of_cases. case_bool_decide as Hseg; [done |].
    rewrite unquote_plain; [apply basename_no_slash |].
    destruct (basename_suffix (Url.urlparse_path url)) as [dir Hdir].
    pose proof (urlparse_path_keeps_absent "%" url Hplain) as Hpath.
    rewrite Hdir in Hpath. by apply contains_suffix in Hpath. }
  pose proof (filename_of_nonempty url) as Hne.
  assert (Hopen : can_create w url dest_folder = true).
  { apply can_create_true. unfold open_error, dest_path_of.
    destruct (path_join_name dest_folder (filename_of url) Hname Hne) as [d Hjoin].
    assert (Hend : Str.ends_with "/" (Url.path_join dest_folder (filename_of url))
                   = false).
    { rewrite Hjoin, ends_with_app by done. by apply ends_with_contains. }
    rewrite Hend. cbn [orb].
    unfold already_there, exists_in, dest_path_of in Hthere.
    apply orb_false_iff in Hthere as [_ Hdir]. rewrite Hdir.
    rewrite bool_decide_eq_false_2.
    2:{ rewrite Hjoin. intros [_ ?]%append_eq_empty. done. }
    destruct (dirname_in_folder dest_folder (filename_of url) Hname Hne)
      as [Hroot | Hmade].
    - by rewrite Hroot.
    - rewrite (bool_decide_eq_true_2 (_ ∈ dirs (prepared dest_folder w))).
      + by rewrite orb_true_r.
      + cbn. apply elem_of_union. by left. }
  split; [exact Hopen |].
  intros Hok. destruct (server env url) as [r|] eqn:Hsrv; [| done].
  cbn in Hok. apply andb_true_iff in Hok as [[Hst Hdef]%andb_true_iff Hend].
  apply negb_true_iff in Hst. apply bool_decide_eq_true in Hend.
  destruct (header_value r) as [total|] eqn:Hval; [| done].
  pose proof (download_file_transfer env url dest_folder w r total
                Hthere Hsrv Hst Hval Hopen Hdef) as Hrun.
  rewrite Hend in Hrun. rewrite Hrun. split; [done |].
  exists r. split; [done |]. cbn. apply lookup_insert_eq.
Qed.

Lemma plain_url_can_be_created_witness :
  can_create empty_world (default "" (head DATASET_URLS)) "downloaded_datasets"
  = true.
Proof.
  apply (plain_url_can_be_created Example.offline
           (default "" (head DATASET_URLS)) "downloaded_datasets" empty_world);
    vm_compute; reflexivity.
Defined.

